(** * Cracked-Oura: the session/export state machine and its scheduler

    A shallow embedding of [backend/src/config.py], [backend/src/automation.py],
    and of the automation parts of [backend/src/api/main.py] and
    [backend/src/api/routes.py], with the properties the design document
    states about them.

    Python code is embedded in a state-and-exception monad that also
    collects the trace of side effects.  The browser, the clock, the
    ingestion parser and the platform are an abstract [World]: every
    theorem holds for every world, and the examples run on small concrete
    worlds defined at the end of the definitions. *)

From Stdlib Require Import ZArith String Ascii List Bool Lia.
From stdpp Require Import base gmap strings list.

Set Warnings "-register-all".
Open Scope Z_scope.

(** * Python values *)

(** JSON-like Python values: what the configuration files hold and what the
    automation methods return.  A [dict] is a finite map with string keys. *)
Inductive pyval : Type :=
| PNone
| PBool (b : bool)
| PInt (z : Z)
| PStr (s : string)
| PList (l : list pyval)
| PDict (d : gmap string pyval).

(** Python truthiness ([if v:], [not v], [a and b]). *)
Definition truthy (v : pyval) : bool :=
  match v with
  | PNone => false
  | PBool b => b
  | PInt z => negb (z =? 0)
  | PStr s => negb (String.eqb s "")
  | PList l => match l with [] => false | _ => true end
  | PDict d => negb (Nat.eqb (size d) 0)
  end.

(** [v == s] for a string literal [s]. *)
Definition py_eq_str (v : pyval) (s : string) : bool :=
  match v with PStr t => String.eqb t s | _ => false end.

(** [v is None]. *)
Definition is_none (v : pyval) : bool :=
  match v with PNone => true | _ => false end.

(** [d.get(k, default)] on a dict. *)
Definition dict_get (d : gmap string pyval) (k : string) (default : pyval) : pyval :=
  match d !! k with Some v => v | None => default end.

(** [isinstance(v, dict) and v.get("status") == s]. *)
Definition is_status_dict (v : pyval) (s : string) : bool :=
  match v with
  | PDict d => py_eq_str (dict_get d "status" PNone) s
  | _ => false
  end.

(** * Strings *)

(** [pat in s]. *)
Fixpoint str_contains (pat s : string) : bool :=
  String.prefix pat s ||
  match s with
  | EmptyString => false
  | String _ t => str_contains pat t
  end.

(** [s.rstrip(c)]. *)
Fixpoint rstrip (c : ascii) (s : string) : string :=
  match s with
  | EmptyString => EmptyString
  | String a t =>
      let t' := rstrip c t in
      if String.eqb t' "" && Ascii.eqb a c then EmptyString else String a t'
  end.

(** [s.split(c)] for a one-character separator. *)
Fixpoint split_on (c : ascii) (s : string) : list string :=
  match s with
  | EmptyString => [EmptyString]
  | String a t =>
      if Ascii.eqb a c then EmptyString :: split_on c t
      else match split_on c t with
           | [] => [String a EmptyString]
           | w :: ws => String a w :: ws
           end
  end.

(** The double-quote character, for selectors that contain one. *)
Definition dq : string := String "034"%char EmptyString.

Definition digit_char (d : Z) : ascii :=
  ascii_of_nat (48 + Z.to_nat (d mod 10)).

(** [z] printed on exactly [n] decimal digits, zero padded (["%02d"],
    ["%04d"]). *)
Fixpoint fmt_digits (n : nat) (z : Z) : string :=
  match n with
  | O => EmptyString
  | S n' => fmt_digits n' (z / 10) +:+ String (digit_char z) EmptyString
  end.

Definition is_space (a : ascii) : bool :=
  let n := nat_of_ascii a in
  Nat.eqb n 32 || (Nat.leb 9 n && Nat.leb n 13).

Fixpoint lstrip_space (s : string) : string :=
  match s with
  | String a t => if is_space a then lstrip_space t else s
  | EmptyString => EmptyString
  end.

Fixpoint rstrip_space (s : string) : string :=
  match s with
  | EmptyString => EmptyString
  | String a t =>
      let t' := rstrip_space t in
      if String.eqb t' "" && is_space a then EmptyString else String a t'
  end.

Definition digit_val (a : ascii) : option Z :=
  let n := nat_of_ascii a in
  if Nat.leb 48 n && Nat.leb n 57 then Some (Z.of_nat n - 48) else None.

(** Digits of a Python integer literal: decimal digits, with single
    underscores allowed between digits.  [prev] tells whether the previous
    character was a digit. *)
Fixpoint int_digits (prev : bool) (acc : Z) (s : string) : option Z :=
  match s with
  | EmptyString => if prev then Some acc else None
  | String a t =>
      match digit_val a with
      | Some d => int_digits true (10 * acc + d) t
      | None =>
          if Ascii.eqb a "_"%char && prev
          then match t with
               | EmptyString => None
               | String b _ =>
                   match digit_val b with
                   | Some _ => int_digits false acc t
                   | None => None
                   end
               end
          else None
      end
  end.

(** [int(s)] for a byte string: surrounding white space, an optional sign,
    then the digits; [None] stands for [ValueError]. *)
Definition py_int (s : string) : option Z :=
  match rstrip_space (lstrip_space s) with
  | String "+"%char t => int_digits false 0 t
  | String "-"%char t => option_map Z.opp (int_digits false 0 t)
  | t => int_digits false 0 t
  end.

(** * Dates and times *)

(** A [datetime.datetime]: the day as its proleptic Gregorian ordinal
    ([date.toordinal()], day 1 is 0001-01-01) and the time of day. *)
Record datetime := mkDatetime {
  ordinal : Z;
  hour : Z;
  minute : Z;
  second : Z;
  microsecond : Z
}.

(** Ordinal of 9999-12-31, the last day a [datetime] can hold. *)
Definition MAXORDINAL : Z := 3652059.

Definition dt_valid (d : datetime) : Prop :=
  1 <= ordinal d <= MAXORDINAL /\ 0 <= hour d < 24 /\ 0 <= minute d < 60 /\
  0 <= second d < 60 /\ 0 <= microsecond d < 1000000.

(** Comparison of two datetimes, field by field as Python compares them. *)
Definition dt_compare (a b : datetime) : comparison :=
  match ordinal a ?= ordinal b with
  | Eq => match hour a ?= hour b with
          | Eq => match minute a ?= minute b with
                  | Eq => match second a ?= second b with
                          | Eq => microsecond a ?= microsecond b
                          | c => c
                          end
                  | c => c
                  end
          | c => c
          end
  | c => c
  end.

(** [a > b]. *)
Definition dt_gtb (a b : datetime) : bool :=
  match dt_compare a b with Gt => true | _ => false end.

(** [a <= b]. *)
Definition dt_le (a b : datetime) : Prop := dt_compare a b <> Gt.

Definition is_leap (y : Z) : bool :=
  (y mod 4 =? 0) && (negb (y mod 100 =? 0) || (y mod 400 =? 0)).

Definition days_before_year (y : Z) : Z :=
  let p := y - 1 in p * 365 + p / 4 - p / 100 + p / 400.

Definition days_in_month (y m : Z) : Z :=
  if m =? 2 then (if is_leap y then 29 else 28)
  else if (m =? 4) || (m =? 6) || (m =? 9) || (m =? 11) then 30 else 31.

Fixpoint days_before_month_aux (y : Z) (k : nat) : Z :=
  match k with
  | O => 0
  | S k' => days_before_month_aux y k' + days_in_month y (Z.of_nat k)
  end.

(** Days of year [y] before the first of month [m]. *)
Definition days_before_month (y m : Z) : Z :=
  days_before_month_aux y (Z.to_nat (m - 1)).

(** [date(y, m, d).toordinal()]. *)
Definition ymd2ord (y m d : Z) : Z :=
  days_before_year y + days_before_month y m + d.

(** Month and day of the [n]-th day (from 0) of a year, searching the
    months in order. *)
Fixpoint month_day (y : Z) (n : Z) (m : Z) (fuel : nat) : Z * Z :=
  match fuel with
  | O => (m, n + 1)
  | S f =>
      let dim := days_in_month y m in
      if n <? dim then (m, n + 1) else month_day y (n - dim) (m + 1) f
  end.

(** Year, month and day of an ordinal, as [datetime._ord2ymd] splits it
    into 400-, 100-, 4- and 1-year cycles. *)
Definition ord2ymd (n0 : Z) : Z * Z * Z :=
  let n := n0 - 1 in
  let n400 := n / 146097 in
  let n := n mod 146097 in
  let n100 := n / 36524 in
  let n := n mod 36524 in
  let n4 := n / 1461 in
  let n := n mod 1461 in
  let n1 := n / 365 in
  let n := n mod 365 in
  let year := n400 * 400 + 1 + n100 * 100 + n4 * 4 + n1 in
  if (n1 =? 4) || (n100 =? 4) then (year - 1, 12, 31)
  else let '(m, d) := month_day year n 1 11 in (year, m, d).

(** [d.strftime("%Y-%m-%d %H:%M:%S")]. *)
Definition strftime (d : datetime) : string :=
  let '(y, m, dd) := ord2ymd (ordinal d) in
  fmt_digits 4 y +:+ "-" +:+ fmt_digits 2 m +:+ "-" +:+ fmt_digits 2 dd +:+ " " +:+
  fmt_digits 2 (hour d) +:+ ":" +:+ fmt_digits 2 (minute d) +:+ ":" +:+
  fmt_digits 2 (second d).

(** [datetime(y, m, d, hh, mm)]. *)
Definition datetime_of (y m d hh mm : Z) : datetime :=
  mkDatetime (ymd2ord y m d) hh mm 0 0.

(** * Exceptions and results *)

Inductive exn : Type :=
| Exception (msg : string)
| HTTPException (status_code : Z) (detail : string).

(** [str(e)]. *)
Definition str_exn (e : exn) : string :=
  match e with
  | Exception msg => msg
  | HTTPException c d => fmt_digits 3 c +:+ ": " +:+ d
  end.

(** A call either returns a value or raises. *)
Inductive Res (A : Type) : Type :=
| Ret (a : A)
| Raise (e : exn).
Arguments Ret {A} a.
Arguments Raise {A} e.

(** * The world outside the program *)

(** How the code points at an element of the page: [page.locator(sel)],
    [page.locator(sel).first], [page.get_by_text(t)]. *)
Inductive locator : Type :=
| Loc (selector : string)
| First (selector : string)
| ByText (text : string).

(** External calls that may raise and return nothing. *)
Inductive action : Type :=
| Goto (url : string) (timeout : Z)
| WaitForLoadState (state : string) (timeout : option Z)
| WaitForTimeout (ms : Z)
| Reload
| Fill (l : locator) (text : pyval)
| DispatchEvent (selector : string) (ev : string)
| Click (l : locator) (timeout : option Z)
| KeyboardPress (key : string)
| WaitFor (l : locator) (state : string) (timeout : Z)
| SaveAs (path : string)
| PlaywrightStart
| Launch (headless : pyval)
| NewContext (storage_state : option string)
| NewPage
| InstallChromium
| SessionLocal
| ParseZip (path : pyval).

(** External calls that may raise and return a boolean. *)
Inductive query : Type :=
| IsVisible (l : locator)
| IsEnabled (l : locator)
| BrowsersPresent.

(** External calls that may raise and return a string. *)
Inductive squery : Type :=
| StorageState
| ClickExpectDownload (l : locator)
| TemporaryDirectory.

(** External calls that cannot fail: closing handles, removing the
    temporary directory, sleeping. *)
Inductive effect : Type :=
| PageClose
| ContextClose
| BrowserClose
| PlaywrightStop
| DbClose
| TempCleanup
| AsyncioSleep (secs : Z).

(** The browser with the remote site behind it, the clock, the ingestion
    parser and the platform.  Every call maps a world to an outcome and a
    new world, so any sequence of answers and faults is some world. *)
Class World : Type := {
  W : Type;
  page_url : W -> string;
  clock : W -> datetime;
  path_join : string -> string -> string;
  user_data_dir : string;
  act : action -> W -> Res unit * W;
  ask : query -> W -> Res bool * W;
  ask_str : squery -> W -> Res string * W;
  get_attribute : locator -> string -> W -> Res (option string) * W;
  settle : effect -> W -> W
}.

(** * Program state *)

(** One of the two JSON files of the configuration manager. *)
Inductive cfg_path : Type := config_path | dashboard_path.

(** What such a file holds: nothing, only white space, text that is not
    JSON, or a JSON value. *)
Inductive cfile : Type :=
| Absent
| Blank
| Malformed
| Json (v : pyval).

(** Work handed to FastAPI's [BackgroundTasks]. *)
Inductive task : Type :=
| run_full_sync
| run_ingestion (force : bool)
| run_download_existing.

(** Side effects in the order they happen. *)
Inductive event : Type :=
| EAct (a : action)
| EAsk (q : query)
| EAskStr (q : squery)
| EAttr (l : locator) (name : string)
| EEffect (e : effect)
| ESave (p : cfg_path) (data : pyval)
| ESessionWrite (blob : string)
| ESessionRemove
| EAddTask (t : task).

Section Program.
Context `{World}.

(** The fields of the [OuraAutomator] singleton (a handle is [true] when
    the attribute is not [None]), the persisted session file and the two
    configuration files. *)
Record State : Type := mkState {
  world : W;
  browser : bool;
  context : bool;
  page : bool;
  playwright : bool;
  _is_initialized : bool;
  email : pyval;
  password : pyval;
  session_file : option string;
  config_file : cfile;
  dashboard_file : cfile
}.

Definition set_world (w : W) (s : State) : State :=
  mkState w (browser s) (context s) (page s) (playwright s) (_is_initialized s)
    (email s) (password s) (session_file s) (config_file s) (dashboard_file s).
Definition set_browser (b : bool) (s : State) : State :=
  mkState (world s) b (context s) (page s) (playwright s) (_is_initialized s)
    (email s) (password s) (session_file s) (config_file s) (dashboard_file s).
Definition set_context (b : bool) (s : State) : State :=
  mkState (world s) (browser s) b (page s) (playwright s) (_is_initialized s)
    (email s) (password s) (session_file s) (config_file s) (dashboard_file s).
Definition set_page (b : bool) (s : State) : State :=
  mkState (world s) (browser s) (context s) b (playwright s) (_is_initialized s)
    (email s) (password s) (session_file s) (config_file s) (dashboard_file s).
Definition set_playwright (b : bool) (s : State) : State :=
  mkState (world s) (browser s) (context s) (page s) b (_is_initialized s)
    (email s) (password s) (session_file s) (config_file s) (dashboard_file s).
Definition set_is_initialized (b : bool) (s : State) : State :=
  mkState (world s) (browser s) (context s) (page s) (playwright s) b
    (email s) (password s) (session_file s) (config_file s) (dashboard_file s).
Definition set_email (v : pyval) (s : State) : State :=
  mkState (world s) (browser s) (context s) (page s) (playwright s) (_is_initialized s)
    v (password s) (session_file s) (config_file s) (dashboard_file s).
Definition set_password (v : pyval) (s : State) : State :=
  mkState (world s) (browser s) (context s) (page s) (playwright s) (_is_initialized s)
    (email s) v (session_file s) (config_file s) (dashboard_file s).
Definition set_session_file (f : option string) (s : State) : State :=
  mkState (world s) (browser s) (context s) (page s) (playwright s) (_is_initialized s)
    (email s) (password s) f (config_file s) (dashboard_file s).
Definition set_cfile (p : cfg_path) (c : cfile) (s : State) : State :=
  match p with
  | config_path =>
      mkState (world s) (browser s) (context s) (page s) (playwright s) (_is_initialized s)
        (email s) (password s) (session_file s) c (dashboard_file s)
  | dashboard_path =>
      mkState (world s) (browser s) (context s) (page s) (playwright s) (_is_initialized s)
        (email s) (password s) (session_file s) (config_file s) c
  end.
Definition get_cfile (p : cfg_path) (s : State) : cfile :=
  match p with config_path => config_file s | dashboard_path => dashboard_file s end.

(** * The monad: state, exceptions and a trace *)

#[projections(primitive)]
Record Out (A : Type) : Type := mkOut {
  res : Res A;
  st : State;
  tr : list event
}.
Arguments mkOut {A} res st tr.
Arguments res {A} o.
Arguments st {A} o.
Arguments tr {A} o.

Definition M (A : Type) : Type := State -> Out A.

Definition ret {A} (a : A) : M A := fun s => mkOut (Ret a) s [].

Definition raise {A} (e : exn) : M A := fun s => mkOut (Raise e) s [].

Definition bind {A B} (m : M A) (f : A -> M B) : M B := fun s =>
  let o := m s in
  match res o with
  | Ret a => let o' := f a (st o) in mkOut (res o') (st o') (tr o ++ tr o')
  | Raise e => mkOut (Raise e) (st o) (tr o)
  end.

(** [try: m  except Exception as e: h e]. *)
Definition try_except {A} (m : M A) (h : exn -> M A) : M A := fun s =>
  let o := m s in
  match res o with
  | Ret a => o
  | Raise e => let o' := h e (st o) in mkOut (res o') (st o') (tr o ++ tr o')
  end.

(** [try: m  finally: f]: [f] runs on every exit; an exception of [f]
    replaces the outcome of [m]. *)
Definition try_finally {A} (m : M A) (f : M unit) : M A := fun s =>
  let o := m s in
  let o' := f (st o) in
  mkOut (match res o' with Ret _ => res o | Raise e => Raise e end)
        (st o') (tr o ++ tr o').

Definition gets {A} (f : State -> A) : M A := fun s => mkOut (Ret (f s)) s [].

Definition modify (f : State -> State) : M unit := fun s => mkOut (Ret tt) (f s) [].

Definition emit (e : event) : M unit := fun s => mkOut (Ret tt) s [e].

End Program.

Arguments mkOut {_ A} res st tr.
Arguments res {_ A} o.
Arguments st {_ A} o.
Arguments tr {_ A} o.

Declare Scope prog_scope.
Delimit Scope prog_scope with prog.
Notation "x <- m ;; k" := (bind m (fun x => k))
  (at level 100, m at next level, k at level 200, right associativity) : prog_scope.
Notation "m ;; k" := (bind m (fun _ => k))
  (at level 100, k at level 200, right associativity) : prog_scope.
Open Scope prog_scope.

Section Calls.
Context `{World}.

(** An external call: it is traced, then the world answers. *)
Definition do_act (a : action) : M unit := fun s =>
  let '(r, w) := act a (world s) in mkOut r (set_world w s) [EAct a].

Definition do_ask (q : query) : M bool := fun s =>
  let '(r, w) := ask q (world s) in mkOut r (set_world w s) [EAsk q].

Definition do_ask_str (q : squery) : M string := fun s =>
  let '(r, w) := ask_str q (world s) in mkOut r (set_world w s) [EAskStr q].

Definition do_get_attribute (l : locator) (name : string) : M (option string) := fun s =>
  let '(r, w) := get_attribute l name (world s) in mkOut r (set_world w s) [EAttr l name].

Definition do_effect (e : effect) : M unit := fun s =>
  mkOut (Ret tt) (set_world (settle e (world s)) s) [EEffect e].

(** [self.page.url]. *)
Definition url : M string := gets (fun s => page_url (world s)).

(** [datetime.now()]. *)
Definition datetime_now : M datetime := gets (fun s => clock (world s)).

(** [if c: m]. *)
Definition when (c : bool) (m : M unit) : M unit := if c then m else ret tt.

(** [a and b], [a or b] on awaited conditions: [b] is only evaluated when
    [a] does not decide. *)
Definition andM (a b : M bool) : M bool := x <- a ;; if x then b else ret false.
Definition orM (a b : M bool) : M bool := x <- a ;; if x then ret true else b.
Definition notM (a : M bool) : M bool := x <- a ;; ret (negb x).

End Calls.

(** * config.py: the configuration manager *)

Module ConfigManager.
Section Defs.
Context `{World}.

(** [type(v).__name__]. *)
Definition type_name (v : pyval) : string :=
  match v with
  | PNone => "NoneType"
  | PBool _ => "bool"
  | PInt _ => "int"
  | PStr _ => "str"
  | PList _ => "list"
  | PDict _ => "dict"
  end.

(** [_load_file]: the JSON value of the file; a missing, blank or
    unreadable file gives the empty dict. *)
Definition _load_file (p : cfg_path) : M pyval :=
  gets (fun s => match get_cfile p s with Json v => v | _ => PDict ∅ end).

(** [_save_file]: the file is replaced as a whole (temporary file, then
    [os.replace]).  The write itself is taken to succeed: the [except]
    branch of the source only logs and leaves the old file in place. *)
Definition _save_file (p : cfg_path) (data : pyval) : M unit :=
  modify (set_cfile p (Json data)) ;; emit (ESave p data).

(** [{**main_conf, **dash_conf}]: the dashboard file wins on a shared key;
    unpacking anything but a dict is a [TypeError]. *)
Definition get_config : M (gmap string pyval) :=
  main_conf <- _load_file config_path ;;
  dash_conf <- _load_file dashboard_path ;;
  match main_conf, dash_conf with
  | PDict m, PDict d => ret (d ∪ m)
  | PDict _, v | v, _ =>
      raise (Exception ("'" +:+ type_name v +:+ "' object is not a mapping"))
  end.

(** [d[k] = v]. *)
Definition setitem (d : pyval) (k : string) (v : pyval) : Res pyval :=
  match d with
  | PDict m => Ret (PDict (<[k := v]> m))
  | PList _ => Raise (Exception "list indices must be integers or slices, not str")
  | _ => Raise (Exception ("'" +:+ type_name d +:+ "' object does not support item assignment"))
  end.

(** The [for key, value in kwargs.items()] loop of [update_config], on the
    two loaded values and the two changed flags. *)
Fixpoint update_loop (kwargs : list (string * pyval))
    (main_conf dash_conf : pyval) (main_changed dash_changed : bool)
    : Res (pyval * pyval * bool * bool) :=
  match kwargs with
  | [] => Ret (main_conf, dash_conf, main_changed, dash_changed)
  | (key, value) :: rest =>
      if is_none value then
        update_loop rest main_conf dash_conf main_changed dash_changed
      else if String.eqb key "dashboard" then
        match setitem dash_conf "dashboard" value with
        | Ret dash_conf' => update_loop rest main_conf dash_conf' main_changed true
        | Raise e => Raise e
        end
      else
        match setitem main_conf key value with
        | Ret main_conf' => update_loop rest main_conf' dash_conf true dash_changed
        | Raise e => Raise e
        end
  end.

Definition lift {A} (r : Res A) : M A :=
  match r with Ret a => ret a | Raise e => raise e end.

(** [update_config] with its keyword arguments in call order. *)
Definition update_config (kwargs : list (string * pyval)) : M unit :=
  main_conf <- _load_file config_path ;;
  dash_conf <- _load_file dashboard_path ;;
  r <- lift (update_loop kwargs main_conf dash_conf false false) ;;
  let '(main_conf, dash_conf, main_changed, dash_changed) := r in
  when main_changed (_save_file config_path main_conf) ;;
  when dash_changed (_save_file dashboard_path dash_conf).

(** [update_status(status, **kwargs)]: passing [status] twice is a
    [TypeError] of the call itself. *)
Definition update_status (status : pyval) (kwargs : list (string * pyval)) : M unit :=
  if existsb (fun kv => String.eqb (fst kv) "status") kwargs
  then raise (Exception "update_config() got multiple values for keyword argument 'status'")
  else update_config (("status", status) :: kwargs).

(** The record a reader gets from file [p]. *)
Definition stored (p : cfg_path) (s : State) : pyval :=
  match get_cfile p s with Json v => v | _ => PDict ∅ end.

(** [v[k]] when [v] is a dict that has the key. *)
Definition item (v : pyval) (k : string) : option pyval :=
  match v with PDict m => m !! k | _ => None end.

End Defs.
End ConfigManager.

(** * automation.py: the browser session, the login flow and the export *)

Module OuraAutomator.
Section Defs.
Context `{World}.
Import ConfigManager.

Definition base_url : string := "https://membership.ouraring.com".
Definition export_url : string := base_url +:+ "/data-export".

(** A dict literal. *)
Definition mk_dict (kvs : list (string * pyval)) : pyval :=
  PDict (list_to_map kvs).

Definition otp_required : pyval :=
  mk_dict [("status", PStr "otp_required"); ("message", PStr "OTP required")].

(** [_ensure_browser_installed]: nothing to do when the browser directory
    exists and is not empty; otherwise the status is set and the bundled
    driver installs Chromium, any failure of which is raised again. *)
Definition _ensure_browser_installed (force : bool) : M unit :=
  present <- (if force then ret false else do_ask BrowsersPresent) ;;
  if present then ret tt
  else
    update_status (PStr "Installing dependency (Chromium)...") [] ;;
    try_except (do_act InstallChromium) (fun e => raise e).

(** [initialize(headless)]; [PNone] is the default argument. *)
Definition initialize (headless : pyval) : M unit :=
  init <- gets _is_initialized ;;
  if init then ret tt
  else
    _ensure_browser_installed false ;;
    headless <- (if is_none headless
                 then config <- get_config ;; ret (dict_get config "headless" (PBool true))
                 else ret headless) ;;
    em <- gets email ;;
    (if negb (truthy em)
     then config <- get_config ;;
          modify (set_email (dict_get config "email" PNone)) ;;
          modify (set_password (dict_get config "password" PNone))
     else ret tt) ;;
    do_act PlaywrightStart ;;
    modify (set_playwright true) ;;
    try_except
      (do_act (Launch headless) ;; modify (set_browser true))
      (fun _ =>
         _ensure_browser_installed true ;;
         do_act (Launch headless) ;; modify (set_browser true)) ;;
    state <- gets session_file ;;
    do_act (NewContext state) ;;
    modify (set_context true) ;;
    do_act NewPage ;;
    modify (set_page true) ;;
    modify (set_is_initialized true).

(** [cleanup]: the handles are closed but stay set on the object. *)
Definition cleanup : M unit :=
  c <- gets context ;;
  when c (do_effect ContextClose) ;;
  b <- gets browser ;;
  when b (do_effect BrowserClose) ;;
  p <- gets playwright ;;
  when p (do_effect PlaywrightStop) ;;
  modify (set_is_initialized false).

Definition clear_session : M bool :=
  cleanup ;;
  f <- gets session_file ;;
  match f with
  | Some _ => modify (set_session_file None) ;; emit ESessionRemove ;; ret true
  | None => ret false
  end.

Definition save_context : M unit :=
  c <- gets context ;;
  when c (blob <- do_ask_str StorageState ;;
          modify (set_session_file (Some blob)) ;;
          emit (ESessionWrite blob)).

Definition _is_logged_in : M bool :=
  p <- gets page ;;
  if negb p then ret false
  else
    u <- url ;;
    let u := rstrip "/" u in
    ret (String.eqb u base_url && negb (str_contains "login" u)
         && negb (str_contains "authn" u)).

Definition _click_submit : M unit :=
  v <- do_ask (IsVisible (Loc "button[type='submit']")) ;;
  let submit_btn := if negb v then Loc "#submit-button" else Loc "button[type='submit']" in
  v' <- do_ask (IsVisible submit_btn) ;;
  (if v' then do_act (Click submit_btn None) else do_act (KeyboardPress "Enter")) ;;
  do_act (WaitForTimeout 3000).

(** [_check_otp_screen]: [otp_required] or [None]. *)
Definition _check_otp_screen : M pyval :=
  let intermediate_btn := Loc "button[name='selectedId']" in
  let otp_input_name := Loc "input[name='otp']" in
  let otp_input_id := Loc "#otp-code" in
  c <- andM (do_ask (IsVisible intermediate_btn))
         (andM (notM (do_ask (IsVisible otp_input_name)))
               (notM (do_ask (IsVisible otp_input_id)))) ;;
  when c (do_act (Click intermediate_btn None) ;; do_act (WaitForTimeout 3000)) ;;
  r <- orM (do_ask (IsVisible otp_input_name)) (do_ask (IsVisible otp_input_id)) ;;
  if r then ret otp_required else ret PNone.

Definition _perform_login_actions : M pyval :=
  u <- url ;;
  when (negb (str_contains "login" u) && negb (str_contains "authn" u))
       (do_act (Goto (base_url +:+ "/login") 30000)) ;;
  v <- do_ask (IsVisible (Loc "input[name='username']")) ;;
  let email_input := if negb v then Loc "input[type='email']" else Loc "input[name='username']" in
  v' <- do_ask (IsVisible email_input) ;;
  if negb v' then raise (Exception "Could not find email input.")
  else
    em <- gets email ;;
    do_act (Fill email_input em) ;;
    do_act (DispatchEvent "input[name='username']" "input") ;;
    _click_submit ;;
    otp_status <- _check_otp_screen ;;
    if truthy otp_status then ret otp_status
    else
      pv <- do_ask (IsVisible (Loc "input[type='password']")) ;;
      (if pv then
         pw <- gets password ;;
         if negb (truthy pw) then raise (Exception "Password required but not configured.")
         else do_act (Fill (Loc "input[type='password']") pw) ;;
              do_act (KeyboardPress "Enter")
       else ret tt) ;;
      do_act (WaitForLoadState "networkidle" None) ;;
      li <- _is_logged_in ;;
      if negb li then
        o <- _check_otp_screen ;;
        if truthy o
        then ret (mk_dict [("status", PStr "otp_required"); ("message", PStr "OTP required")])
        else raise (Exception "Login failed or incomplete.")
      else
        save_context ;;
        ret (mk_dict [("status", PStr "success"); ("message", PStr "Login successful")]).

(** [login]: [None] when already logged in, a status dict otherwise. *)
Definition login : M pyval :=
  p <- gets page ;;
  if negb p then raise (Exception "Page not initialized")
  else
    try_except
      (u <- url ;;
       when (negb (str_contains base_url u)) (do_act (Goto base_url 60000)) ;;
       do_act (WaitForLoadState "networkidle" (Some 10000)) ;;
       li <- _is_logged_in ;;
       if li then save_context ;; ret PNone
       else
         em <- gets email ;;
         if negb (truthy em) then raise (Exception "Login required but no email configured.")
         else _perform_login_actions)
      (fun e => raise e).

Definition start_login (em : pyval) : M pyval :=
  init <- gets _is_initialized ;;
  when (negb init) (initialize PNone) ;;
  modify (set_email em) ;;
  login.

Definition error_result (msg : string) : pyval :=
  mk_dict [("status", PStr "error"); ("message", PStr msg)].

Definition success_result (msg : string) : pyval :=
  mk_dict [("status", PStr "success"); ("message", PStr msg)].

(** The passcode field variant that is on the page. *)
Definition locate_otp_input : M string :=
  v <- do_ask (IsVisible (Loc "input[name='otp']")) ;;
  if negb v then
    v2 <- do_ask (IsVisible (Loc "#otp-code")) ;;
    if v2 then ret "#otp-code"
    else
      v3 <- do_ask (IsVisible (Loc "input[name='verification_code']")) ;;
      if v3 then ret "input[name='verification_code']"
      else raise (Exception "Could not find OTP input field")
  else ret "input[name='otp']".

(** The check at the end of [submit_otp] ("Verify success"). *)
Definition verify_otp : M pyval :=
  li <- _is_logged_in ;;
  if li then
    save_context ;;
    ret (success_result "Login successful!")
  else
    inv <- orM (do_ask (IsVisible (ByText "Virheellinen koodi")))
               (do_ask (IsVisible (ByText "Invalid code"))) ;;
    if inv then ret (error_result "Invalid OTP code.")
    else ret (error_result "Login failed (Unknown state).").

(** The steps of [submit_otp] up to the check: fill the field, submit. *)
Definition enter_otp (otp : string) : M unit :=
  otp_selector <- locate_otp_input ;;
  do_act (Fill (Loc otp_selector) (PStr otp)) ;;
  do_act (DispatchEvent otp_selector "input") ;;
  _click_submit ;;
  do_act (WaitForLoadState "networkidle" None).

Definition submit_otp (otp : string) : M pyval :=
  p <- gets page ;;
  if negb p then ret (error_result "Page not initialized")
  else
    try_except
      (enter_otp otp ;; verify_otp)
      (fun e => ret (error_result (str_exn e))).

(** ** Data export *)

Definition request_btn_primary : locator :=
  First ("[data-testid=" +:+ dq +:+ "pageSubtitle" +:+ dq +:+ "] + button").
Definition request_btn_fallback : locator := First "main button".

(** The [for _ in range(10)] loop of [_navigate_to_export_page] with [n]
    rounds left, then the final check. *)
Fixpoint navigate_loop (n : nat) : M bool :=
  match n with
  | O =>
      u <- url ;;
      ret (str_contains "/data-export" u)
  | S n' =>
      try_except (do_act (WaitForLoadState "networkidle" (Some 2000))) (fun _ => ret tt) ;;
      current_url <- url ;;
      if str_contains "/data-export" current_url then ret true
      else if str_contains "login" current_url || str_contains "authn" current_url then
        login_result <- login ;;
        if truthy login_result && is_status_dict login_result "otp_required" then ret false
        else
          do_act (Goto export_url 30000) ;;
          do_act (WaitForTimeout 1000) ;;
          navigate_loop n'
      else if String.eqb (rstrip "/" current_url) base_url then
        do_act (Goto export_url 30000) ;;
        do_act (WaitForTimeout 1000) ;;
        navigate_loop n'
      else
        do_act (WaitForTimeout 1000) ;;
        navigate_loop n'
  end.

Definition _navigate_to_export_page : M bool :=
  do_act (Goto export_url 60000) ;;
  navigate_loop 10.

Definition _click_request_export_button : M bool :=
  try_except (do_act (WaitFor request_btn_primary "visible" 5000)) (fun _ => ret tt) ;;
  v <- do_ask (IsVisible request_btn_primary) ;;
  target_btn <- (if negb v then
                   try_except (do_act (WaitFor request_btn_fallback "visible" 5000))
                              (fun _ => ret tt) ;;
                   ret request_btn_fallback
                 else ret request_btn_primary) ;;
  v' <- do_ask (IsVisible target_btn) ;;
  if negb v' then ret false
  else
    do_act (WaitForTimeout 5000) ;;
    d <- do_get_attribute target_btn "disabled" ;;
    let is_disabled := match d with Some _ => true | None => false end in
    a <- do_get_attribute target_btn "aria-disabled" ;;
    let aria_disabled := match a with Some t => String.eqb t "true" | None => false end in
    if is_disabled || aria_disabled then ret false
    else
      try_except
        (try_except (do_act (WaitFor target_btn "enabled" 3000)) (fun _ => ret tt) ;;
         do_act (Click target_btn (Some 5000)) ;;
         do_act (WaitForTimeout 2000) ;;
         ret true)
        (fun _ => ret false).

Definition max_retries : nat := 30.
Definition poll_interval : Z := 300.

(** One check of the generation wait: is the request button visible and
    enabled again? *)
Definition export_ready : M bool :=
  v <- do_ask (IsVisible request_btn_primary) ;;
  let request_btn := if negb v then request_btn_fallback else request_btn_primary in
  andM (do_ask (IsVisible request_btn)) (do_ask (IsEnabled request_btn)).

(** The [for i in range(max_retries)] loop of [_wait_for_processing] with
    [n] rounds left. *)
Fixpoint wait_loop (n : nat) : M bool :=
  match n with
  | O => ret false
  | S n' =>
      ready <- export_ready ;;
      if ready then ret true
      else
        do_act (WaitForTimeout (poll_interval * 1000)) ;;
        do_act Reload ;;
        do_act (WaitForLoadState "networkidle" None) ;;
        wait_loop n'
  end.

Definition _wait_for_processing : M bool := wait_loop max_retries.

Definition _download_file (save_dir : string) : M pyval :=
  let download_btn := First "button[aria-label='Download data']" in
  try_except (do_act (WaitFor download_btn "visible" 10000)) (fun _ => ret tt) ;;
  v <- do_ask (IsVisible download_btn) ;;
  if v then
    filename <- do_ask_str (ClickExpectDownload download_btn) ;;
    let save_path := path_join save_dir filename in
    do_act (SaveAs save_path) ;;
    ret (PStr save_path)
  else ret PNone.

(** The lines of both entry points before their [try]: start the session
    when it is not initialised, open a page when there is none. *)
Definition ensure_session : M unit :=
  init <- gets _is_initialized ;;
  when (negb init) (initialize PNone) ;;
  p <- gets page ;;
  if negb p then
    c <- gets context ;;
    if c then do_act NewPage ;; modify (set_page true)
    else raise (Exception "'NoneType' object has no attribute 'new_page'")
  else ret tt.

Definition request_new_export_and_download (save_dir : string) : M pyval :=
  ensure_session ;;
  try_except
    (ok <- _navigate_to_export_page ;;
     if negb ok then
       u <- url ;;
       if str_contains "login" u || str_contains "authn" u
       then ret (mk_dict [("status", PStr "otp_required")])
       else ret PNone
     else
       _click_request_export_button ;;
       is_ready <- _wait_for_processing ;;
       if negb is_ready then ret PNone
       else _download_file save_dir)
    (fun _ => ret PNone).

Definition download_existing_export (save_dir : string) : M pyval :=
  ensure_session ;;
  try_except
    (ok <- _navigate_to_export_page ;;
     if negb ok then ret (mk_dict [("status", PStr "otp_required")])
     else _download_file save_dir)
    (fun e => ret (error_result (str_exn e))).

End Defs.
End OuraAutomator.


(** * api/main.py and api/routes.py: runs, endpoints and the scheduler *)

Module Api.
Section Defs.
Context `{World}.
Import ConfigManager OuraAutomator.

(** ** main.py *)

(** The startup step of [lifespan]: a status left over from a previous
    process is reset. *)
Definition startup_reset : M unit :=
  cfg <- get_config ;;
  let status := dict_get cfg "status" PNone in
  when (negb (py_eq_str status "Idle" || py_eq_str status "Error"))
       (update_status (PStr "Idle") []).

Definition process_ingestion (zip_path : pyval) : M unit :=
  update_status (PStr "Ingesting...") [] ;;
  do_act SessionLocal ;;
  try_finally
    (try_except
       (do_act (ParseZip zip_path) ;;
        now <- datetime_now ;;
        update_status (PStr "Idle") [("last_run", PStr (strftime now))])
       (fun e => update_status (PStr ("Ingestion Failed: " +:+ str_exn e)) []))
    (do_effect DbClose).

(** The lines of [run_ingestion_task] that follow the call of
    [request_new_export_and_download], inside the same [try]. *)
Definition after_export (result : pyval) : M unit :=
  if is_status_dict result "otp_required" then
    update_status (PStr "Waiting for OTP...") []
  else
    (if truthy result then
       update_status (PStr "Downloading...") [] ;;
       process_ingestion result
     else
       update_status (PStr "Failed to download export.") []) ;;
    cleanup.

Definition run_ingestion_task (force : bool) : M unit :=
  cfg <- get_config ;;
  if negb force && negb (truthy (dict_get cfg "is_active" (PBool true))) then ret tt
  else
    update_status (PStr "Starting...") [] ;;
    try_except
      (update_status (PStr "Initializing...") [] ;;
       initialize (dict_get cfg "headless" (PBool true)) ;;
       modify (set_email (dict_get cfg "email" (PStr ""))) ;;
       login_res <- login ;;
       if truthy login_res && is_status_dict login_res "otp_required" then
         update_status (PStr "Waiting for OTP...") []
       else
         update_status (PStr "Running Automation...") [] ;;
         result <- request_new_export_and_download user_data_dir ;;
         after_export result)
      (fun e =>
         update_status (PStr ("Error: " +:+ str_exn e)) [] ;;
         cleanup).

Definition run_download_existing_task : M unit :=
  try_except
    (cfg <- get_config ;;
     init <- gets _is_initialized ;;
     when (negb init) (initialize (dict_get cfg "headless" (PBool true))) ;;
     modify (set_email (dict_get cfg "email" (PStr ""))) ;;
     result <- download_existing_export user_data_dir ;;
     if is_status_dict result "otp_required" then
       update_status (PStr "Waiting for OTP...") []
     else
       when (truthy result) (process_ingestion result) ;;
       cleanup)
    (fun _ => cleanup).

(** The [run-now] endpoint. *)
Definition run_automation : M pyval :=
  update_status (PStr "Starting manual run...") [] ;;
  try_except
    (cfg <- get_config ;;
     initialize (dict_get cfg "headless" (PBool false)) ;;
     modify (set_email (dict_get cfg "email" (PStr ""))) ;;
     emit (EAddTask (run_ingestion true)) ;;
     ret (mk_dict [("status", PStr "started"); ("message", PStr "Automation started.")]))
    (fun e => ret (error_result (str_exn e))).

(** [sh, sm = map(int, schedule_time_str.split(":"))]. *)
Definition parse_schedule (v : pyval) : Res (Z * Z) :=
  match v with
  | PStr s =>
      match split_on ":" s with
      | [a; b] =>
          match py_int a, py_int b with
          | Some sh, Some sm => Ret (sh, sm)
          | _, _ => Raise (Exception "invalid literal for int() with base 10")
          end
      | _ => Raise (Exception "wrong number of values to unpack (expected 2)")
      end
  | _ => Raise (Exception ("'" +:+ type_name v +:+ "' object has no attribute 'split'"))
  end.

(** [now.replace(hour=sh, minute=sm, second=0, microsecond=0)]. *)
Definition replace_time (now : datetime) (sh sm : Z) : Res datetime :=
  if negb ((0 <=? sh) && (sh <? 24)) then Raise (Exception "hour must be in 0..23")
  else if negb ((0 <=? sm) && (sm <? 60)) then Raise (Exception "minute must be in 0..59")
  else Ret (mkDatetime (ordinal now) sh sm 0 0).

(** [d + timedelta(days=n)]. *)
Definition add_days (d : datetime) (n : Z) : Res datetime :=
  let o := ordinal d + n in
  if (1 <=? o) && (o <=? MAXORDINAL)
  then Ret (mkDatetime o (hour d) (minute d) (second d) (microsecond d))
  else Raise (Exception "date value out of range").

(** The next run as the scheduler computes it. *)
Definition compute_next_run (now : datetime) (sh sm : Z) : Res datetime :=
  match replace_time now sh sm with
  | Ret run_today => if dt_gtb now run_today then add_days run_today 1 else Ret run_today
  | Raise e => Raise e
  end.

(** ["Waiting" in v]. *)
Definition py_in (needle : string) (v : pyval) : Res bool :=
  match v with
  | PStr s => Ret (str_contains needle s)
  | PList l => Ret (existsb (fun x => py_eq_str x needle) l)
  | PDict d => Ret (match d !! needle with Some _ => true | None => false end)
  | _ => Raise (Exception ("argument of type '" +:+ type_name v +:+ "' is not iterable"))
  end.

(** What one round of the scheduler starts, once the next run is written. *)
Definition tick_action (now : datetime) (sh sm : Z) (cfg : gmap string pyval) : M unit :=
  if (hour now =? sh) && (minute now =? sm) then run_ingestion_task false
  else
    waiting <- lift (py_in "Waiting" (dict_get cfg "status" (PStr ""))) ;;
    if waiting then
      (if minute now mod 5 =? 0 then run_ingestion_task false else ret tt)
    else ret tt.

(** The inner [try] of the scheduler loop. *)
Definition tick_body (now : datetime) (cfg : gmap string pyval) : M unit :=
  let schedule_time_str := dict_get cfg "schedule_time" (PStr "11:00") in
  hm <- lift (parse_schedule schedule_time_str) ;;
  let '(sh, sm) := hm in
  next_run <- lift (compute_next_run now sh sm) ;;
  update_status (dict_get cfg "status" (PStr "Idle"))
                [("next_run", PStr (strftime next_run))] ;;
  tick_action now sh sm cfg.

(** One round of the [while True] loop of [background_worker]. *)
Definition scheduler_tick : M unit :=
  try_except
    (now <- datetime_now ;;
     cfg <- get_config ;;
     try_except (tick_body now cfg) (fun _ => ret tt) ;;
     do_effect (AsyncioSleep 60))
    (fun _ => do_effect (AsyncioSleep 60)).

(** ** routes.py *)

Definition run_full_sync_task : M unit :=
  update_status (PStr "Processing") [("message", PStr "Starting full sync...")] ;;
  try_finally
    (try_except
       (temp_dir <- do_ask_str TemporaryDirectory ;;
        try_finally
          (update_status (PStr "Processing")
             [("message", PStr "Requesting and waiting for export (this may take hours)...")] ;;
           result <- request_new_export_and_download temp_dir ;;
           if is_status_dict result "otp_required" then
             update_status (PStr "Error")
               [("message", PStr "OTP required. Please login manually in settings.")]
           else
             match result with
             | PStr zip_path =>
                 if negb (String.eqb zip_path "") then
                   update_status (PStr "Processing")
                     [("message", PStr ("Downloaded to " +:+ zip_path +:+ ". Ingesting..."))] ;;
                   do_act SessionLocal ;;
                   try_finally
                     (do_act (ParseZip result) ;;
                      now <- datetime_now ;;
                      update_status (PStr "Idle")
                        [("message", PStr "Sync and ingestion complete!");
                         ("last_run", PStr (strftime now))])
                     (do_effect DbClose)
                 else
                   update_status (PStr "Error") [("message", PStr "No file downloaded (timeout?)")]
             | _ =>
                 update_status (PStr "Error") [("message", PStr "No file downloaded (timeout?)")]
             end)
          (do_effect TempCleanup))
       (fun e => update_status (PStr "Error") [("message", PStr ("Sync failed: " +:+ str_exn e))]))
    cleanup.

(** The [request-export] endpoint. *)
Definition request_export : M pyval :=
  cfg <- get_config ;;
  if py_eq_str (dict_get cfg "status" PNone) "Processing" then
    raise (HTTPException 409 "Sync already in progress")
  else
    emit (EAddTask run_full_sync) ;;
    ret (mk_dict [("message", PStr "Full sync started in background.")]).

(** The function a background task stands for. *)
Definition run_task (t : task) : M unit :=
  match t with
  | run_full_sync => run_full_sync_task
  | run_ingestion force => run_ingestion_task force
  | run_download_existing => run_download_existing_task
  end.

End Defs.
End Api.


(** * Concrete worlds for the examples *)

Module Scripted.

(** A world given by a script: where a navigation lands (or how it
    fails), which elements are visible on which page, whether buttons are
    enabled, and the time, which stands still.  Everything else succeeds. *)
Record script : Type := mkScript {
  goto_lands : string -> Res string;
  visible : locator -> string -> bool;
  enabled : bool;
  time : datetime
}.

Definition scripted_act (sc : script) (a : action) (w : string) : Res unit * string :=
  match a with
  | Goto u _ =>
      match goto_lands sc u with
      | Ret u' => (Ret tt, u')
      | Raise e => (Raise e, w)
      end
  | _ => (Ret tt, w)
  end.

Definition scripted_ask (sc : script) (q : query) (w : string) : Res bool * string :=
  match q with
  | IsVisible l => (Ret (visible sc l w), w)
  | IsEnabled _ => (Ret (enabled sc), w)
  | BrowsersPresent => (Ret true, w)
  end.

Definition scripted_ask_str (q : squery) (w : string) : Res string * string :=
  match q with
  | StorageState => (Ret "cookies", w)
  | ClickExpectDownload _ => (Ret "export.zip", w)
  | TemporaryDirectory => (Ret "/tmp/oura", w)
  end.

(** The world of a script; its state is the URL of the page. *)
Definition world_of (sc : script) : World := {|
  W := string;
  page_url := fun w => w;
  clock := fun _ => time sc;
  path_join := fun a b => a +:+ "/" +:+ b;
  user_data_dir := "/data";
  act := scripted_act sc;
  ask := scripted_ask sc;
  ask_str := fun q w => scripted_ask_str q w;
  get_attribute := fun _ _ w => (Ret None, w);
  settle := fun _ w => w
|}.

(** The main configuration of a fresh installation with the given status
    and schedule time, the default dashboard file, and what [get_config]
    reads from the two. *)
Definition config_map (status schedule_time : string) : gmap string pyval :=
  list_to_map
    [("email", PStr "user@example.com"); ("schedule_time", PStr schedule_time);
     ("last_run", PNone); ("next_run", PNone); ("status", PStr status);
     ("is_active", PBool true); ("headless", PBool true)].

Definition dashboard_map : gmap string pyval :=
  list_to_map
    [("dashboard", PDict (list_to_map
        [("dashboards", PList []); ("activeDashboardId", PNone)]))].

Definition config_with (status schedule_time : string) : cfile :=
  Json (PDict (config_map status schedule_time)).

Definition dashboard_default : cfile := Json (PDict dashboard_map).

Definition merged_config (status schedule_time : string) : gmap string pyval :=
  dashboard_map ∪ config_map status schedule_time.

(** A process that has not started its browser. *)
Definition fresh (sc : script) (status schedule_time : string) (session : option string)
    : @State (world_of sc) :=
  @mkState (world_of sc) "about:blank" false false false false false
    PNone PNone session (config_with status schedule_time) dashboard_default.

(** A process with a live browser and page at [u]. *)
Definition live (sc : script) (u : string) (status schedule_time : string)
    (session : option string) : @State (world_of sc) :=
  @mkState (world_of sc) u true true true true true
    (PStr "user@example.com") PNone session (config_with status schedule_time)
    dashboard_default.

(** The site with a valid session: every page opens where asked, the
    request and download buttons are on the export page. *)
Definition site_logged_in (ready : bool) (now : datetime) : script := {|
  goto_lands := fun u => Ret u;
  visible := fun l w =>
    match l with
    | First _ => str_contains "/data-export" w
    | _ => false
    end;
  enabled := ready;
  time := now
|}.

(** The site when the network is down: every navigation fails. *)
Definition site_unreachable (now : datetime) : script := {|
  goto_lands := fun _ => Raise (Exception "net::ERR_INTERNET_DISCONNECTED");
  visible := fun _ _ => false;
  enabled := false;
  time := now
|}.

(** The login page with the passcode field on it; [rejected] tells whether
    it shows the invalid-code text. *)
Definition otp_site (rejected : bool) : script := {|
  goto_lands := fun u => Ret u;
  visible := fun l _ =>
    match l with
    | Loc sel => String.eqb sel "input[name='otp']"
    | ByText t => rejected && String.eqb t "Invalid code"
    | First _ => false
    end;
  enabled := true;
  time := datetime_of 2024 1 1 12 5
|}.

(** The site that never finishes the export and the site that has it
    ready, on 2024-01-01 at 12:05; the same at noon and at 11:00. *)
Definition busy_site : script := site_logged_in false (datetime_of 2024 1 1 12 5).
Definition ready_site : script := site_logged_in true (datetime_of 2024 1 1 12 5).
Definition noon_site : script := site_logged_in true (datetime_of 2024 1 1 12 0).
Definition eleven_site : script := site_logged_in true (datetime_of 2024 1 1 11 0).
Definition dead_site : script := site_unreachable (datetime_of 2024 1 1 12 5).

Definition login_url : string := "https://membership.ouraring.com/login".

End Scripted.


(** * Vocabulary of the properties *)

(** A value that is there and is not [None]. *)
Definition non_null (o : option pyval) : Prop :=
  exists v, o = Some v /\ v <> PNone.

(** [m'] differs from [m] at most on keys that [kwargs] gives a value other
    than [None], and holds no new [None]. *)
Definition frame (kwargs : list (string * pyval)) (m m' : gmap string pyval) : Prop :=
  (forall k, (forall v, In (k, v) kwargs -> v = PNone) -> m' !! k = m !! k) /\
  (forall k, non_null (m !! k) -> non_null (m' !! k)).

(** A loaded record before and after an update. *)
Definition updated (kwargs : list (string * pyval)) (v v' : pyval) : Prop :=
  v' = v \/ exists m m', v = PDict m /\ v' = PDict m' /\ frame kwargs m m'.

(** The handles [cleanup] closes in state [s], in the order it closes
    them. *)
Definition teardown_of `{World} (s : State) : list event :=
  (if context s then [EEffect ContextClose] else []) ++
  (if browser s then [EEffect BrowserClose] else []) ++
  (if playwright s then [EEffect PlaywrightStop] else []).

(** The four closes of the design document's [cleanup]. *)
Definition teardown_with_page : list event :=
  [EEffect PageClose; EEffect ContextClose; EEffect BrowserClose; EEffect PlaywrightStop].

(** The sleep between two checks of the generation wait. *)
Definition is_poll_sleep (e : event) : bool :=
  match e with
  | EAct (WaitForTimeout ms) => ms =? OuraAutomator.poll_interval * 1000
  | _ => false
  end.

(** How often a trace sleeps between two checks of the generation wait. *)
Definition poll_sleeps (t : list event) : nat := length (filter (fun e => is_poll_sleep e = true) t).

(** A call to the world outside. *)
Definition external (e : event) : bool :=
  match e with
  | EAct _ | EAsk _ | EAskStr _ | EAttr _ _ | EEffect _ => true
  | _ => false
  end.

(** Keyword arguments without [next_run]. *)
Definition no_next_run (kwargs : list (string * pyval)) : bool :=
  forallb (fun kv => negb (String.eqb (fst kv) "next_run")) kwargs.

(** The three persisted files are the same in both states. *)
Definition same_files `{World} (s s' : State) : Prop :=
  session_file s' = session_file s /\ config_file s' = config_file s /\
  dashboard_file s' = dashboard_file s.

(** Every run of [m] relates the state before, the state after and the
    trace by [R]. *)
Definition respects `{World} (R : State -> State -> list event -> Prop) {A} (m : M A) : Prop :=
  forall s, R s (st (m s)) (tr (m s)).

(** The value [_is_logged_in] returns in state [s]. *)
Definition logged_in `{World} (s : State) : bool :=
  page s &&
  (let u := rstrip "/" (page_url (world s)) in
   String.eqb u OuraAutomator.base_url && negb (str_contains "login" u)
   && negb (str_contains "authn" u)).

(** Whether the page shows the invalid-code text, in Finnish or in
    English, as the check of [submit_otp] asks for it. *)
Definition invalid_code_shown `{World} (w : W) : Res bool :=
  match ask (IsVisible (ByText "Virheellinen koodi")) w with
  | (Ret true, _) => Ret true
  | (Ret false, w1) => fst (ask (IsVisible (ByText "Invalid code")) w1)
  | (Raise e, _) => Raise e
  end.

(** A run that only talked to the browser, and never slept the poll
    interval. *)
Definition browser_only `{World} (s s' : State) (t : list event) : Prop :=
  (exists w, s' = set_world w s) /\ poll_sleeps t = 0%nat /\
  Forall (fun e => external e = true) t.

(** A run that left the main configuration a dict with the same
    [next_run]. *)
Definition config_kept `{World} (s s' : State) (t : list event) : Prop :=
  forall m, ConfigManager.stored config_path s = PDict m ->
    exists m', ConfigManager.stored config_path s' = PDict m' /\
               m' !! "next_run" = m !! "next_run".

(** The same, for a run that never slept the poll interval. *)
Definition keeps_config `{World} (s s' : State) (t : list event) : Prop :=
  config_kept s s' t /\ poll_sleeps t = 0%nat.

(** A schedule time as the settings store it, ["HH:MM"]. *)
Definition hhmm (h m : Z) : string := fmt_digits 2 h +:+ ":" +:+ fmt_digits 2 m.

(** Day [d] at [h]:[m] sharp. *)
Definition at_time (d h m : Z) : datetime := mkDatetime d h m 0 0.

(** Whenever [m] returns, the value satisfies [Q]. *)
Definition returns `{World} {A} (Q : A -> Prop) (m : M A) : Prop :=
  forall s a, res (m s) = Ret a -> Q a.

(** The three results of an export: no file, the passcode-required signal,
    or the path of the saved file under [save_dir]. *)
Definition export_result `{World} (save_dir : string) (v : pyval) : Prop :=
  v = PNone \/
  v = OuraAutomator.mk_dict [("status", PStr "otp_required")] \/
  exists filename, v = PStr (path_join save_dir filename).

(** Microseconds since the start of day 0: the order of datetimes. *)
Definition dt_key (d : datetime) : Z :=
  (((ordinal d * 24 + hour d) * 60 + minute d) * 60 + second d) * 1000000 + microsecond d.

(** The world after the closes of [cleanup] in state [s]. *)
Definition after_teardown `{World} (s : State) : W :=
  let w := world s in
  let w := if context s then settle ContextClose w else w in
  let w := if browser s then settle BrowserClose w else w in
  if playwright s then settle PlaywrightStop w else w.

(** A sleep of the page, of any length. *)
Definition is_sleep (e : event) : bool :=
  match e with EAct (WaitForTimeout _) => true | _ => false end.

(** [m] never sleeps the poll interval. *)
Definition quiet `{World} {A} (m : M A) : Prop :=
  forall s, poll_sleeps (tr (m s)) = 0%nat.

(** The main configuration is a dict. *)
Definition config_is_dict `{World} (s : State) : Prop :=
  exists m, ConfigManager.stored config_path s = PDict m.

(** The status in the main configuration. *)
Definition stored_status `{World} (s : State) : option pyval :=
  ConfigManager.item (ConfigManager.stored config_path s) "status".

(** The statuses a trace writes to the main configuration, in order. *)
Definition statuses_written (t : list event) : list pyval :=
  flat_map (fun e => match e with
                     | ESave config_path (PDict m) =>
                         match m !! "status" with Some v => [v] | None => [] end
                     | _ => []
                     end) t.

(** The background tasks a trace queues, in order. *)
Definition tasks_added (t : list event) : list task :=
  flat_map (fun e => match e with EAddTask k => [k] | _ => [] end) t.

(** The elements a trace clicks, in order. *)
Definition clicks (t : list event) : list locator :=
  flat_map (fun e => match e with EAct (Click l _) => [l] | _ => [] end) t.

(** The handler of [run_ingestion_task]. *)
Definition run_handler `{World} (e : exn) : M unit :=
  ConfigManager.update_status (PStr ("Error: " +:+ str_exn e)) [] ;; OuraAutomator.cleanup.

(** The end state and result of a run that failed to download. *)
Definition ends_failed `{World} (r : Res unit) (s : State) : Prop :=
  r = Ret tt /\ stored_status s = Some (PStr "Failed to download export.").

(** Every ["HH:MM"] of a valid time of day parses to its hour and minute. *)
Definition hhmm_parse_check : bool :=
  forallb (fun h =>
    forallb (fun m =>
      match Api.parse_schedule (PStr (hhmm h m)) with
      | Ret (a, b) => (a =? h) && (b =? m)
      | Raise _ => false
      end) (map Z.of_nat (seq 0 60))) (map Z.of_nat (seq 0 24)).

(** * api/main.py and api/routes.py: the settings, dashboard and session endpoints *)

Module Main.
Section Defs.
Context `{World}.
Import ConfigManager OuraAutomator.

(** The [clear-session] endpoint of main.py. *)
Definition clear_session : M pyval :=
  try_except
    (cleared <- OuraAutomator.clear_session ;;
     if cleared then
       update_status (PStr "Session cleared.") [] ;;
       ret (mk_dict [("status", PStr "success");
                     ("message", PStr "Session cleared. Please login again.")])
     else
       ret (mk_dict [("status", PStr "info");
                     ("message", PStr "No session found to clear.")]))
    (fun e => ret (error_result (str_exn e))).

(** The [test-login] endpoint. *)
Definition test_login : M pyval :=
  try_except
    (update_status (PStr "Testing Login...") [] ;;
     cfg <- get_config ;;
     initialize (dict_get cfg "headless" (PBool false)) ;;
     modify (set_email (dict_get cfg "email" (PStr ""))) ;;
     res <- login ;;
     if truthy res && is_status_dict res "otp_required" then
       update_status (PStr "Waiting for OTP...") [] ;;
       ret (mk_dict [("status", PStr "otp_required"); ("message", PStr "OTP Required")])
     else
       update_status (PStr "Login Check Complete.") [] ;;
       cleanup ;;
       ret res)
    (fun e =>
       update_status (PStr ("Login Error: " +:+ str_exn e)) [] ;;
       ret (error_result (str_exn e))).

End Defs.
End Main.

Module Routes.
Section Defs.
Context `{World}.
Import ConfigManager OuraAutomator.

(** The [clear-session] endpoint of routes.py. *)
Definition clear_session : M pyval :=
  try_except
    (OuraAutomator.clear_session ;;
     ret (mk_dict [("message", PStr "Session cleared")]))
    (fun e => raise (HTTPException 500 (str_exn e))).

(** [save_settings] on a [SettingsRequest] with the fields
    [daily_sync_time] and [email]. *)
Definition save_settings (daily_sync_time : string) (email : option string) : M pyval :=
  try_except
    (let updates := [("schedule_time", PStr daily_sync_time)] in
     let updates := match email with
                    | Some e => updates ++ [("email", PStr e)]
                    | None => updates
                    end in
     update_config updates ;;
     ret (mk_dict [("message", PStr "Settings saved")]))
    (fun e => raise (HTTPException 500 (str_exn e))).

Definition get_settings : M pyval :=
  try_except
    (config <- get_config ;;
     ret (mk_dict [("daily_sync_time", dict_get config "schedule_time" (PStr "09:00"));
                   ("email", dict_get config "email" (PStr ""))]))
    (fun e => raise (HTTPException 500 (str_exn e))).

(** The request model [Dashboard] and its [dict()]. *)
Record Dashboard : Type := mkDashboard {
  dashboard_id : string;
  dashboard_name : string;
  dashboard_widgets : list pyval;
  dashboard_layout : list pyval
}.

Definition Dashboard_dict (d : Dashboard) : pyval :=
  mk_dict [("id", PStr (dashboard_id d)); ("name", PStr (dashboard_name d));
           ("widgets", PList (dashboard_widgets d)); ("layout", PList (dashboard_layout d))].

Record DashboardConfigRequest : Type := mkDashboardConfigRequest {
  dashboards : option (list Dashboard);
  activeDashboardId : option string;
  layout : option (list pyval);
  widgets : option (list pyval)
}.

(** The dict [save_dashboard_config] builds from the fields that are set. *)
Definition update_data (request : DashboardConfigRequest) : gmap string pyval :=
  let update_data : gmap string pyval := ∅ in
  let update_data := match dashboards request with
                     | Some ds => <["dashboards" := PList (map Dashboard_dict ds)]> update_data
                     | None => update_data
                     end in
  let update_data := match activeDashboardId request with
                     | Some i => <["activeDashboardId" := PStr i]> update_data
                     | None => update_data
                     end in
  let update_data := match layout request with
                     | Some l => <["layout" := PList l]> update_data
                     | None => update_data
                     end in
  match widgets request with
  | Some w => <["widgets" := PList w]> update_data
  | None => update_data
  end.

Definition save_dashboard_config (request : DashboardConfigRequest) : M pyval :=
  try_except
    (update_config [("dashboard", PDict (update_data request))] ;;
     ret (mk_dict [("message", PStr "Dashboard saved")]))
    (fun e => raise (HTTPException 500 (str_exn e))).

Definition get_dashboard_config : M pyval :=
  try_except
    (config <- get_config ;;
     ret (dict_get config "dashboard"
            (mk_dict [("dashboards", PList []); ("activeDashboardId", PNone)])))
    (fun e => raise (HTTPException 500 (str_exn e))).

End Defs.
End Routes.


(** * config.py: the files at start-up *)

Module ConfigFiles.
Section Defs.
Context `{World}.
Import ConfigManager.

Definition default_config : pyval :=
  PDict (list_to_map
    [("email", PStr ""); ("schedule_time", PStr "11:00"); ("last_run", PNone);
     ("next_run", PNone); ("status", PStr "Idle"); ("is_active", PBool true);
     ("headless", PBool true); ("llm_model", PStr "llama3.1:latest");
     ("llm_host", PStr "http://localhost:11434")]).

Definition default_dashboard : pyval :=
  PDict (list_to_map
    [("dashboard", PDict (list_to_map
        [("dashboards", PList []); ("activeDashboardId", PNone)]))]).

(** [os.path.exists(path)] on one of the two files. *)
Definition path_exists (p : cfg_path) : M bool :=
  gets (fun s => match get_cfile p s with Absent => false | _ => true end).

(** [_ensure_config], which the constructor of the manager runs. *)
Definition _ensure_config : M unit :=
  e <- path_exists config_path ;;
  when (negb e) (_save_file config_path default_config) ;;
  main_conf <- _load_file config_path ;;
  e <- path_exists dashboard_path ;;
  when (negb e) (_save_file dashboard_path default_dashboard).

End Defs.
End ConfigFiles.


(** * ingestion/base.py: rows of a CSV file and batches of records *)

Module IngestionBase.

(** The lines of the row loop of [_read_csv_robust] after the split of a
    line into [parts]: an id is generated when exactly the first column
    [id] is missing, a short row is padded with [None], a long row is cut.
    [new_id] is the [str(uuid.uuid4())] of the row. *)
Definition fix_parts (header : list string) (new_id : string) (parts : list (option string))
    : list (option string) :=
  let parts :=
    if (Z.of_nat (length parts) =? Z.of_nat (length header) - 1) &&
       match header with h :: _ => String.eqb h "id" | [] => false end
    then Some new_id :: parts else parts in
  let parts :=
    if (length parts <? length header)%nat
    then parts ++ repeat None (length header - length parts)
    else parts in
  if (length header <? length parts)%nat then firstn (length header) parts else parts.

Section BatchUpsert.
Variables (A S : Type).

(** [_upsert] on one batch: it changes the database and may raise. *)
Variable _upsert : list A -> S -> Res unit * S.

(** [range(0, total, step)] for a positive [step]. *)
Definition range_by (total step : nat) : list nat :=
  map (fun j => (j * step)%nat) (seq 0 ((total + step - 1) / step)).

(** [data[i : i + n]]. *)
Definition slice (data : list A) (i n : nat) : list A := firstn n (skipn i data).

(** The batches [_batch_upsert] cuts [data] into. *)
Definition batches (data : list A) (batch_size : nat) : list (list A) :=
  map (fun i => slice data i batch_size) (range_by (length data) batch_size).

(** The body of the [for] loop on the batches that are left. *)
Fixpoint upsert_each (bs : list (list A)) (db : S) : Res unit * S :=
  match bs with
  | [] => (Ret tt, db)
  | b :: rest =>
      match _upsert b db with
      | (Ret _, db') => upsert_each rest db'
      | (Raise e, db') => (Raise e, db')
      end
  end.

(** [_batch_upsert(model, data, index_elements, batch_size)]. *)
Definition _batch_upsert (data : list A) (batch_size : Z) (db : S) : Res unit * S :=
  match data with
  | [] => (Ret tt, db)
  | _ =>
      if batch_size =? 0 then (Raise (Exception "range() arg 3 must not be zero"), db)
      else if batch_size <? 0 then (Ret tt, db)
      else upsert_each (batches data (Z.to_nat batch_size)) db
  end.

End BatchUpsert.

End IngestionBase.


(** * Vocabulary of the further properties *)


(** The statuses [run_ingestion_task] can end with. *)
Definition run_end_status (v : option pyval) : Prop :=
  exists msg, v = Some (PStr msg) /\
    (msg = "Idle" \/ msg = "Waiting for OTP..." \/ msg = "Failed to download export." \/
     String.prefix "Ingestion Failed: " msg = true \/ String.prefix "Error: " msg = true).

(** Whenever [m] starts in a state with [P] and returns, the value and the
    state satisfy [Q]. *)
Definition post `{World} {A} (P : State -> Prop) (m : M A) (Q : A -> State -> Prop) : Prop :=
  forall s, P s -> forall a, res (m s) = Ret a -> Q a (st (m s)).

(** How [run_ingestion_task] leaves the process: with one of its end
    statuses, and with the browser torn down unless it waits for the
    passcode. *)
Definition run_settled `{World} (s : State) : Prop :=
  run_end_status (stored_status s) /\
  (stored_status s = Some (PStr "Waiting for OTP...") \/ _is_initialized s = false).

(** Keyword arguments that name neither [status] nor [dashboard]. *)
Definition plain_kwargs (kwargs : list (string * pyval)) : bool :=
  forallb (fun kv => negb (String.eqb (fst kv) "status") &&
                     negb (String.eqb (fst kv) "dashboard")) kwargs.

(** The two statuses of a process at rest. *)
Definition idle_or_error (v : option pyval) : Prop :=
  v = Some (PStr "Idle") \/ v = Some (PStr "Error").

(** How [run_full_sync_task] leaves the process: idle or in error, with
    the browser torn down. *)
Definition sync_settled `{World} (s : State) : Prop :=
  idle_or_error (stored_status s) /\ _is_initialized s = false.

(** How the [test-login] endpoint leaves the process and what it answers:
    waiting for the passcode; check complete, with the browser torn down;
    or a login error, which is also the answer. *)
Definition test_login_settled `{World} (r : pyval) (s : State) : Prop :=
  stored_status s = Some (PStr "Waiting for OTP...") \/
  (stored_status s = Some (PStr "Login Check Complete.") /\ _is_initialized s = false) \/
  exists msg, stored_status s = Some (PStr ("Login Error: " +:+ msg)) /\
              r = OuraAutomator.error_result msg.


(** What the loop of [update_config] makes of a main configuration [m]
    and of a dashboard record [d] that are dicts. *)
Fixpoint written_main (kwargs : list (string * pyval)) (m : gmap string pyval)
    : gmap string pyval :=
  match kwargs with
  | [] => m
  | (key, value) :: rest =>
      if is_none value then written_main rest m
      else if String.eqb key "dashboard" then written_main rest m
      else written_main rest (<[key := value]> m)
  end.

Fixpoint written_dash (kwargs : list (string * pyval)) (d : gmap string pyval)
    : gmap string pyval :=
  match kwargs with
  | [] => d
  | (key, value) :: rest =>
      if is_none value then written_dash rest d
      else if String.eqb key "dashboard" then written_dash rest (<["dashboard" := value]> d)
      else written_dash rest d
  end.


(** Every run of [m] from a state with [I] ends in a state with [I], and
    all its events satisfy [E]. *)
Definition holds `{World} (I : State -> Prop) (E : event -> Prop) {A} (m : M A) : Prop :=
  forall s, I s -> I (st (m s)) /\ List.Forall E (tr (m s)).

(** The last steps of [initialize]: the context is opened with the stored
    session, then the page. *)
Definition open_context `{World} : M unit :=
  state <- gets session_file ;;
  do_act (NewContext state) ;;
  modify (set_context true) ;;
  do_act NewPage ;;
  modify (set_page true) ;;
  modify (set_is_initialized true).

(** The lines of [initialize] after its early return. *)
Definition initialize_steps `{World} (headless : pyval) : M unit :=
  OuraAutomator._ensure_browser_installed false ;;
  headless <- (if is_none headless
               then config <- ConfigManager.get_config ;;
                    ret (dict_get config "headless" (PBool true))
               else ret headless) ;;
  em <- gets email ;;
  (if negb (truthy em)
   then config <- ConfigManager.get_config ;;
        modify (set_email (dict_get config "email" PNone)) ;;
        modify (set_password (dict_get config "password" PNone))
   else ret tt) ;;
  do_act PlaywrightStart ;;
  modify (set_playwright true) ;;
  try_except
    (do_act (Launch headless) ;; modify (set_browser true))
    (fun _ =>
       OuraAutomator._ensure_browser_installed true ;;
       do_act (Launch headless) ;; modify (set_browser true)) ;;
  open_context.

(** An event that is not the opening of a context with a session other
    than [sf]. *)
Definition restores (sf : option string) (e : event) : Prop :=
  forall x, e = EAct (NewContext x) -> x = sf.

(** Whenever [m] returns, the value and the trace satisfy [Q]. *)
Definition post_trace `{World} {A} (m : M A) (Q : A -> list event -> Prop) : Prop :=
  forall s a, res (m s) = Ret a -> Q a (tr (m s)).

(** The download button of the export page. *)
Definition download_btn : locator := First "button[aria-label='Download data']".

(** A trace in which the download button was clicked and the file saved
    as [p]. *)
Definition saved_as (p : string) (t : list event) : Prop :=
  In (EAskStr (ClickExpectDownload download_btn)) t /\ In (EAct (SaveAs p)) t.

(** A trace in which one of the two request buttons was clicked. *)
Definition request_clicked (t : list event) : Prop :=
  exists b, (b = OuraAutomator.request_btn_primary \/ b = OuraAutomator.request_btn_fallback) /\
            In (EAct (Click b (Some 5000))) t.



(** * Properties *)

Import ConfigManager OuraAutomator Api.

(** ** The monad *)

Section MonadFacts.
Context `{World}.

Lemma bind_ret {A B} (m : M A) (f : A -> M B) s a :
  res (m s) = Ret a ->
  bind m f s = mkOut (res (f a (st (m s)))) (st (f a (st (m s))))
                     (tr (m s) ++ tr (f a (st (m s)))).
Proof. unfold bind. now intros ->. Qed.

Lemma bind_raise {A B} (m : M A) (f : A -> M B) s e :
  res (m s) = Raise e ->
  bind m f s = mkOut (Raise e) (st (m s)) (tr (m s)).
Proof. unfold bind. now intros ->. Qed.

Lemma try_except_ret {A} (m : M A) h s a :
  res (m s) = Ret a -> try_except m h s = m s.
Proof. unfold try_except. now intros ->. Qed.

Lemma try_except_raise {A} (m : M A) h s e :
  res (m s) = Raise e ->
  try_except m h s = mkOut (res (h e (st (m s)))) (st (h e (st (m s))))
                           (tr (m s) ++ tr (h e (st (m s)))).
Proof. unfold try_except. now intros ->. Qed.

Lemma out_eta {A} (o : Out A) : mkOut (res o) (st o) (tr o) = o.
Proof. now destruct o. Qed.

(** A step that only computes a value. *)
Lemma bind_pure {A B} (m : M A) (f : A -> M B) s a :
  m s = mkOut (Ret a) s [] -> bind m f s = f a s.
Proof. unfold bind. intros ->. cbn. apply out_eta. Qed.

Lemma bind_gets {A B} (g : State -> A) (f : A -> M B) s :
  bind (gets g) f s = f (g s) s.
Proof. now apply bind_pure. Qed.

Lemma bind_effect {B} e (f : unit -> M B) s :
  bind (do_effect e) f s =
  let o := f tt (set_world (settle e (world s)) s) in
  mkOut (res o) (st o) (EEffect e :: tr o).
Proof. reflexivity. Qed.

Lemma bind_act {B} a (f : unit -> M B) s :
  bind (do_act a) f s =
  match act a (world s) with
  | (Ret _, w) => let o := f tt (set_world w s) in mkOut (res o) (st o) (EAct a :: tr o)
  | (Raise e, w) => mkOut (Raise e) (set_world w s) [EAct a]
  end.
Proof.
  unfold bind, do_act. destruct (act a (world s)) as [[[]|e] w]; reflexivity.
Qed.

Lemma bind_ask {B} q (f : bool -> M B) s :
  bind (do_ask q) f s =
  match ask q (world s) with
  | (Ret b, w) => let o := f b (set_world w s) in mkOut (res o) (st o) (EAsk q :: tr o)
  | (Raise e, w) => mkOut (Raise e) (set_world w s) [EAsk q]
  end.
Proof.
  unfold bind, do_ask. destruct (ask q (world s)) as [[b|e] w]; reflexivity.
Qed.

Lemma bind_modify {B} g (f : unit -> M B) s :
  bind (modify g) f s = f tt (g s).
Proof. unfold bind, modify. cbn. apply out_eta. Qed.

End MonadFacts.

(** ** The configuration manager *)

Section ConfigProps.
Context `{World}.

Lemma frame_insert key value rest m m' :
  value <> PNone ->
  frame rest (<[key := value]> m) m' ->
  frame ((key, value) :: rest) m m'.
Proof.
  intros Hv [Hf Hn]. split.
  - intros k Hk. rewrite Hf.
    + apply lookup_insert_ne. intros ->. apply Hv, Hk. now left.
    + intros v Hin. apply Hk. now right.
  - intros k Hk. apply Hn.
    destruct (decide (key = k)) as [->|Hne].
    + rewrite lookup_insert_eq. now exists value.
    + now rewrite lookup_insert_ne.
Qed.

Lemma frame_skip kv rest m m' :
  frame rest m m' -> frame (kv :: rest) m m'.
Proof.
  intros [Hf Hn]. split; [|exact Hn].
  intros k Hk. apply Hf. intros v Hin. apply Hk. now right.
Qed.

Lemma frame_insert_one key value rest m :
  value <> PNone -> frame ((key, value) :: rest) m (<[key := value]> m).
Proof.
  intros Hv. split.
  - intros k Hk. apply lookup_insert_ne. intros ->. apply Hv, Hk. now left.
  - intros k Hk. destruct (decide (key = k)) as [->|Hne].
    + rewrite lookup_insert_eq. now exists value.
    + now rewrite lookup_insert_ne.
Qed.

Lemma updated_skip kv rest v v' :
  updated rest v v' -> updated (kv :: rest) v v'.
Proof.
  intros [->|(m & m' & -> & -> & Hf)]; [now left|right].
  exists m, m'. split; [|split]; auto using frame_skip.
Qed.

Lemma updated_setitem key value rest v v1 v' :
  value <> PNone ->
  setitem v key value = Ret v1 ->
  updated rest v1 v' ->
  updated ((key, value) :: rest) v v'.
Proof.
  intros Hv Hset Hu. destruct v; try discriminate. simpl in Hset.
  injection Hset as <-. right. exists d.
  destruct Hu as [->|(m & m' & Hm & -> & Hf)].
  - eexists. split; [reflexivity|split; [reflexivity|]].
    now apply frame_insert_one.
  - injection Hm as <-. exists m'. split; [reflexivity|split; [reflexivity|]].
    now apply frame_insert.
Qed.

Lemma is_none_false v : is_none v = false -> v <> PNone.
Proof. now destruct v. Qed.

(** The loop of [update_config] changes a loaded record only within
    [frame], and leaves it as it was when its flag stays unset. *)
Lemma update_loop_spec kwargs : forall mc dc a b mc' dc' a' b',
  update_loop kwargs mc dc a b = Ret (mc', dc', a', b') ->
  updated kwargs mc mc' /\ updated kwargs dc dc' /\
  (a' = false -> a = false /\ mc' = mc) /\ (b' = false -> b = false /\ dc' = dc).
Proof.
  induction kwargs as [|[key value] rest IH]; intros mc dc a b mc' dc' a' b' E; simpl in E.
  - injection E as <- <- <- <-. repeat split; auto; now left.
  - destruct (is_none value) eqn:Hv.
    + apply IH in E as (Hm & Hd & Ha & Hb).
      repeat split; auto using updated_skip; try apply Ha; try apply Hb; auto.
    + apply is_none_false in Hv.
      destruct (String.eqb key "dashboard") eqn:Hk.
      * apply String.eqb_eq in Hk as ->.
        destruct (setitem dc "dashboard" value) as [dc1|] eqn:Hs; [|discriminate].
        apply IH in E as (Hm & Hd & Ha & Hb).
        split; [auto using updated_skip|].
        split; [eauto using updated_setitem|].
        split; [exact Ha|]. intros Hb'. now destruct (Hb Hb').
      * destruct (setitem mc key value) as [mc1|] eqn:Hs; [|discriminate].
        apply IH in E as (Hm & Hd & Ha & Hb).
        split; [eauto using updated_setitem|].
        split; [auto using updated_skip|].
        split; [|exact Hb]. intros Ha'. now destruct (Ha Ha').
Qed.

(** The state [update_config] leaves: on an exception nothing is saved;
    otherwise each file whose flag is set holds the new record. *)
Lemma update_config_state kwargs s :
  match update_loop kwargs (stored config_path s) (stored dashboard_path s) false false with
  | Raise _ => st (update_config kwargs s) = s
  | Ret (mc, dc, a, b) =>
      stored config_path (st (update_config kwargs s)) = (if a then mc else stored config_path s) /\
      stored dashboard_path (st (update_config kwargs s)) = (if b then dc else stored dashboard_path s)
  end.
Proof.
  unfold update_config, bind, _load_file, gets, stored. simpl.
  destruct (update_loop kwargs _ _ false false) as [[[[mc dc] a] b]|e]; simpl; [|reflexivity].
  destruct s as [w br cx pg pw ini em pa sf cf df].
  destruct a, b; simpl; auto.
Qed.

Lemma item_updated kwargs v v' k :
  updated kwargs v v' ->
  (forall x, In (k, x) kwargs -> x = PNone) ->
  item v' k = item v k.
Proof.
  intros [->|(m & m' & -> & -> & Hf & _)] Hk; [reflexivity|]. simpl. now apply Hf.
Qed.

Lemma non_null_updated kwargs v v' k :
  updated kwargs v v' -> non_null (item v k) -> non_null (item v' k).
Proof.
  intros [->|(m & m' & -> & -> & _ & Hn)] Hk; [exact Hk|]. simpl. now apply Hn.
Qed.

Lemma update_config_frame kwargs s p :
  updated kwargs (stored p s) (stored p (st (update_config kwargs s))).
Proof.
  pose proof (update_config_state kwargs s) as E.
  destruct (update_loop kwargs _ _ false false) as [[[[mc dc] a] b]|e] eqn:L.
  - apply update_loop_spec in L as (Hm & Hd & Ha & Hb). destruct E as [E1 E2].
    destruct p; [rewrite E1; destruct a | rewrite E2; destruct b]; auto; now left.
  - rewrite E. now left.
Qed.

Lemma update_status_frame status kwargs s p :
  updated (("status", status) :: kwargs) (stored p s)
          (stored p (st (update_status status kwargs s))).
Proof.
  unfold update_status. destruct (existsb _ kwargs).
  - now left.
  - apply update_config_frame.
Qed.

End ConfigProps.

(** C10.  [update_config] and [update_status] leave every stored key that
    the call does not supply, or supplies as [None], as it was, in both
    files; and a stored value that is not null is never made null or
    removed by either. *)
Theorem update_leaves_unsupplied_keys `{World}
    (kwargs : list (string * pyval)) (status : pyval) (s : State) (k : string) :
  (forall v, In (k, v) kwargs -> v = PNone) ->
  (forall p, item (stored p (st (update_config kwargs s))) k = item (stored p s) k) /\
  (k <> "status" \/ status = PNone ->
   forall p, item (stored p (st (update_status status kwargs s))) k = item (stored p s) k) /\
  (forall p k', non_null (item (stored p s) k') ->
     non_null (item (stored p (st (update_config kwargs s))) k') /\
     non_null (item (stored p (st (update_status status kwargs s))) k')).
Proof.
  intros Hk. split; [|split].
  - intros p. eapply item_updated; [apply update_config_frame|exact Hk].
  - intros Hs p. eapply item_updated; [apply update_status_frame|].
    intros v [E|Hin]; [|now apply Hk].
    injection E as E1 E2. destruct Hs as [Hs|Hs]; congruence.
  - intros p k' Hn. split.
    + eapply non_null_updated; [apply update_config_frame|exact Hn].
    + eapply non_null_updated; [apply update_status_frame|exact Hn].
Qed.

(** ** The session manager *)

Section SessionProps.
Context `{World}.

(** What [cleanup] does, in full. *)
Lemma cleanup_eq (s : State) :
  cleanup s =
  mkOut (Ret tt) (set_is_initialized false (set_world (after_teardown s) s)) (teardown_of s).
Proof.
  unfold cleanup, teardown_of, after_teardown.
  rewrite bind_gets.
  destruct s as [w br cx pg pw ini em pa sf cf df]. cbn [context browser playwright world].
  destruct cx; cbn [when].
  - rewrite bind_effect. cbv zeta. rewrite bind_gets. cbn [browser set_world].
    destruct br; cbn [when].
    + rewrite bind_effect. cbv zeta. rewrite bind_gets. cbn [playwright set_world].
      destruct pw; cbn [when]; reflexivity.
    + rewrite (bind_pure _ _ _ tt) by reflexivity. rewrite bind_gets. cbn [playwright].
      destruct pw; cbn [when]; reflexivity.
  - rewrite (bind_pure _ _ _ tt) by reflexivity. rewrite bind_gets. cbn [browser].
    destruct br; cbn [when].
    + rewrite bind_effect. cbv zeta. rewrite bind_gets. cbn [playwright set_world].
      destruct pw; cbn [when]; reflexivity.
    + rewrite (bind_pure _ _ _ tt) by reflexivity. rewrite bind_gets. cbn [playwright].
      destruct pw; cbn [when]; reflexivity.
Qed.

Lemma cleanup_out (s : State) :
  res (cleanup s) = Ret tt /\
  tr (cleanup s) = teardown_of s /\
  _is_initialized (st (cleanup s)) = false /\
  session_file (st (cleanup s)) = session_file s /\
  context (st (cleanup s)) = context s /\
  browser (st (cleanup s)) = browser s /\
  playwright (st (cleanup s)) = playwright s /\
  page (st (cleanup s)) = page s /\
  config_file (st (cleanup s)) = config_file s /\
  dashboard_file (st (cleanup s)) = dashboard_file s.
Proof. rewrite cleanup_eq. cbn. repeat split; reflexivity. Qed.

End SessionProps.

(** C8 (as amended).  [cleanup] closes the context, then the browser, then
    stops the automation runtime, each only when its handle is set, and
    nothing else: the page has no close of its own.  It always returns
    normally and clears the initialized flag; with no handle set it makes
    no external call at all and leaves the world as it is. *)
Theorem cleanup_closes_context_browser_runtime `{World} (s : State) :
  res (cleanup s) = Ret tt /\
  tr (cleanup s) = teardown_of s /\
  _is_initialized (st (cleanup s)) = false /\
  (context s = false /\ browser s = false /\ playwright s = false ->
   tr (cleanup s) = [] /\ world (st (cleanup s)) = world s).
Proof.
  rewrite cleanup_eq. cbn [res st tr _is_initialized set_is_initialized set_world world].
  repeat split; auto.
  - destruct H0 as (Hc & Hb & Hp). unfold teardown_of. now rewrite Hc, Hb, Hp.
  - destruct H0 as (Hc & Hb & Hp). unfold after_teardown. now rewrite Hc, Hb, Hp.
Qed.

(** C7.  [clear_session] runs [cleanup], then removes the session file when
    there is one, and returns whether there was one; it never raises.  A
    second call right after the first returns [False]. *)
Theorem clear_session_twice `{World} (s : State) :
  let o1 := clear_session s in
  let o2 := clear_session (st o1) in
  res o1 = Ret (match session_file s with Some _ => true | None => false end) /\
  tr o1 = tr (cleanup s) ++ match session_file s with Some _ => [ESessionRemove] | None => [] end /\
  st o1 = set_session_file None (st (cleanup s)) /\
  session_file (st o1) = None /\
  res o2 = Ret false /\
  session_file (st o2) = None.
Proof.
  assert (Hone : forall s0 : State,
    res (clear_session s0) = Ret (match session_file s0 with Some _ => true | None => false end) /\
    tr (clear_session s0) = tr (cleanup s0) ++ match session_file s0 with Some _ => [ESessionRemove] | None => [] end /\
    st (clear_session s0) = set_session_file None (st (cleanup s0)) /\
    session_file (st (clear_session s0)) = None).
  { intros s0. destruct (cleanup_out s0) as (Hr & _ & _ & Hf & _).
    unfold clear_session, bind.
    destruct (cleanup s0) as [r s1 t1]. cbn in Hr, Hf. subst r.
    unfold gets. cbn. rewrite Hf.
    destruct (session_file s0) eqn:E; cbn.
    - repeat split; auto.
    - rewrite app_nil_r. repeat split; auto.
      destruct s1; cbn in *. now subst. }
  intros o1 o2. subst o1 o2.
  destruct (Hone s) as (H1 & H2 & H3 & H4).
  destruct (Hone (st (clear_session s))) as (H5 & _ & _ & H8).
  rewrite H4 in H5. repeat split; auto.
Qed.

(** ** A rule per construct: relations that every run respects *)

Create HintDb resp.

Section Respects.
Context `{World}.
Variable R : State -> State -> list event -> Prop.
Hypothesis R_refl : forall s, R s s [].
Hypothesis R_trans : forall s1 s2 s3 t1 t2,
  R s1 s2 t1 -> R s2 s3 t2 -> R s1 s3 (t1 ++ t2).
Hypothesis R_call : forall s w e,
  external e = true -> is_poll_sleep e = false -> R s (set_world w s) [e].

Lemma respects_ret {A} (a : A) : respects R (ret a).
Proof. intros s. apply R_refl. Qed.

Lemma respects_raise {A} e : respects R (@raise _ A e).
Proof. intros s. apply R_refl. Qed.

Lemma respects_gets {A} (f : State -> A) : respects R (gets f).
Proof. intros s. apply R_refl. Qed.

Lemma respects_lift {A} (r : Res A) : respects R (lift r).
Proof. destruct r; [apply respects_ret | apply respects_raise]. Qed.

Lemma respects_bind {A B} (m : M A) (f : A -> M B) :
  respects R m -> (forall a, respects R (f a)) -> respects R (bind m f).
Proof.
  intros Hm Hf s. unfold bind. specialize (Hm s).
  destruct (res (m s)) as [a|e]; cbn; [|exact Hm].
  eapply R_trans; [exact Hm | apply Hf].
Qed.

Lemma respects_try_except {A} (m : M A) h :
  respects R m -> (forall e, respects R (h e)) -> respects R (try_except m h).
Proof.
  intros Hm Hh s. unfold try_except. specialize (Hm s).
  destruct (res (m s)) as [a|e]; cbn; [exact Hm|].
  eapply R_trans; [exact Hm | apply Hh].
Qed.

Lemma respects_try_finally {A} (m : M A) f :
  respects R m -> respects R f -> respects R (try_finally m f).
Proof.
  intros Hm Hf s. unfold try_finally. cbn.
  eapply R_trans; [apply Hm | apply Hf].
Qed.

Lemma respects_when c m : respects R m -> respects R (when c m).
Proof. destruct c; [auto | intros _; apply respects_ret]. Qed.

Lemma respects_do_act a :
  is_poll_sleep (EAct a) = false -> respects R (do_act a).
Proof.
  intros Ha s. unfold do_act. destruct (act a (world s)) as [r w]. cbn.
  now apply R_call.
Qed.

Lemma respects_do_ask q : respects R (do_ask q).
Proof.
  intros s. unfold do_ask. destruct (ask q (world s)) as [r w]. cbn.
  now apply R_call.
Qed.

Lemma respects_do_ask_str q : respects R (do_ask_str q).
Proof.
  intros s. unfold do_ask_str. destruct (ask_str q (world s)) as [r w]. cbn.
  now apply R_call.
Qed.

Lemma respects_do_get_attribute l n : respects R (do_get_attribute l n).
Proof.
  intros s. unfold do_get_attribute. destruct (get_attribute l n (world s)) as [r w]. cbn.
  now apply R_call.
Qed.

Lemma respects_do_effect e : respects R (do_effect e).
Proof. intros s. unfold do_effect. cbn. now apply R_call. Qed.

Lemma respects_andM a b : respects R a -> respects R b -> respects R (andM a b).
Proof.
  intros Ha Hb. apply respects_bind; [exact Ha|].
  intros [|]; [exact Hb | apply respects_ret].
Qed.

Lemma respects_orM a b : respects R a -> respects R b -> respects R (orM a b).
Proof.
  intros Ha Hb. apply respects_bind; [exact Ha|].
  intros [|]; [apply respects_ret | exact Hb].
Qed.

Lemma respects_notM a : respects R a -> respects R (notM a).
Proof. intros Ha. apply respects_bind; [exact Ha|]. intros ?; apply respects_ret. Qed.

#[local] Hint Resolve respects_ret respects_raise respects_gets respects_lift
  respects_do_ask respects_do_ask_str respects_do_get_attribute respects_do_effect : resp.

(** One step through a program: the rule of its head construct. *)
Ltac resp_step :=
  first
    [ solve [auto with resp]
    | apply respects_bind; [| intro]
    | apply respects_try_except; [| intro]
    | apply respects_try_finally
    | apply respects_when
    | apply respects_andM
    | apply respects_orM
    | apply respects_notM
    | apply respects_do_act; reflexivity
    | match goal with
      | |- respects _ (if ?c then _ else _) => destruct c
      | |- respects _ (match ?c with _ => _ end) => destruct c
      end ].

Ltac resp := cbv zeta; repeat resp_step.

(** *** Calls that only talk to the browser *)

Lemma respects__click_submit : respects R _click_submit.
Proof. unfold _click_submit. resp. Qed.
#[local] Hint Resolve respects__click_submit : resp.

Lemma respects__check_otp_screen : respects R _check_otp_screen.
Proof. unfold _check_otp_screen. resp. Qed.
#[local] Hint Resolve respects__check_otp_screen : resp.

Lemma respects_locate_otp_input : respects R locate_otp_input.
Proof. unfold locate_otp_input. resp. Qed.
#[local] Hint Resolve respects_locate_otp_input : resp.

Lemma respects_enter_otp otp : respects R (enter_otp otp).
Proof. unfold enter_otp. resp. Qed.

Lemma respects__is_logged_in : respects R _is_logged_in.
Proof. unfold _is_logged_in, url. resp. Qed.
#[local] Hint Resolve respects__is_logged_in : resp.

Lemma respects_export_ready : respects R export_ready.
Proof. unfold export_ready. resp. Qed.

Lemma respects__click_request_export_button : respects R _click_request_export_button.
Proof. unfold _click_request_export_button. resp. Qed.
#[local] Hint Resolve respects__click_request_export_button : resp.

Lemma respects__download_file d : respects R (_download_file d).
Proof. unfold _download_file. resp. Qed.
#[local] Hint Resolve respects__download_file : resp.

(** *** Calls that also touch the handles and the persisted files *)

Hypothesis R_field : forall s s',
  same_files s s' -> world s' = world s -> R s s' [].
Hypothesis R_session : forall s blob,
  R s (set_session_file (Some blob) s) [ESessionWrite blob].
Hypothesis R_update : forall status kwargs,
  no_next_run kwargs = true -> respects R (update_status status kwargs).

Lemma respects_modify_field f :
  (forall s, same_files s (f s) /\ world (f s) = world s) ->
  respects R (modify f).
Proof. intros Hf s. cbn. apply R_field; apply Hf. Qed.

Lemma get_config_pure s : st (get_config s) = s /\ tr (get_config s) = [].
Proof.
  unfold get_config, bind, _load_file, gets. cbn.
  destruct (config_file s) as [| | |[]]; cbn;
    destruct (dashboard_file s) as [| | |[]]; cbn; auto.
Qed.

Lemma respects_get_config : respects R get_config.
Proof. intros s. destruct (get_config_pure s) as [-> ->]. apply R_refl. Qed.
#[local] Hint Resolve respects_get_config : resp.

Ltac field :=
  solve [apply respects_modify_field; intros [? ? ? ? ? ? ? ? ? ? ?]; repeat split].

Ltac resp' := cbv zeta; repeat first [ resp_step | field | apply R_update; reflexivity ].

Lemma respects_save_context : respects R save_context.
Proof.
  unfold save_context.
  apply respects_bind; [resp|]. intros c. apply respects_when.
  apply respects_bind; [resp|]. intros blob s. cbn. apply R_session.
Qed.
#[local] Hint Resolve respects_save_context : resp.

Lemma respects__perform_login_actions : respects R _perform_login_actions.
Proof. unfold _perform_login_actions, url. resp'. Qed.
#[local] Hint Resolve respects__perform_login_actions : resp.

Lemma respects_login : respects R login.
Proof. unfold login, url. resp'. Qed.
#[local] Hint Resolve respects_login : resp.

Lemma respects__ensure_browser_installed force :
  respects R (_ensure_browser_installed force).
Proof. unfold _ensure_browser_installed. resp'. Qed.
#[local] Hint Resolve respects__ensure_browser_installed : resp.

Lemma respects_initialize headless : respects R (initialize headless).
Proof. unfold initialize. resp'. Qed.
#[local] Hint Resolve respects_initialize : resp.

Lemma respects_ensure_session : respects R ensure_session.
Proof. unfold ensure_session. resp'. Qed.
#[local] Hint Resolve respects_ensure_session : resp.

Lemma respects_navigate_loop n : respects R (navigate_loop n).
Proof. induction n; cbn [navigate_loop]; unfold url; resp'. Qed.
#[local] Hint Resolve respects_navigate_loop : resp.

Lemma respects__navigate_to_export_page : respects R _navigate_to_export_page.
Proof. unfold _navigate_to_export_page. resp'. Qed.
#[local] Hint Resolve respects__navigate_to_export_page : resp.

Lemma respects_cleanup : respects R cleanup.
Proof. unfold cleanup. resp'. Qed.
#[local] Hint Resolve respects_cleanup : resp.

Lemma respects_process_ingestion z : respects R (process_ingestion z).
Proof. unfold process_ingestion, datetime_now. resp'. Qed.
#[local] Hint Resolve respects_process_ingestion : resp.

Lemma respects_after_export r : respects R (after_export r).
Proof. unfold after_export. resp'. Qed.

(** *** Calls that include the generation wait *)

Hypothesis R_poll : forall s w,
  R s (set_world w s) [EAct (WaitForTimeout (poll_interval * 1000))].

Lemma respects_poll_sleep : respects R (do_act (WaitForTimeout (poll_interval * 1000))).
Proof.
  intros s. unfold do_act. destruct (act _ (world s)) as [r w]. cbn. apply R_poll.
Qed.
#[local] Hint Resolve respects_poll_sleep respects_export_ready : resp.

Lemma respects_wait_loop n : respects R (wait_loop n).
Proof. induction n; cbn [wait_loop]; resp'. Qed.
#[local] Hint Resolve respects_wait_loop : resp.

Lemma respects__wait_for_processing : respects R _wait_for_processing.
Proof. unfold _wait_for_processing. resp'. Qed.
#[local] Hint Resolve respects__wait_for_processing : resp.

Lemma respects_request_new_export_and_download d :
  respects R (request_new_export_and_download d).
Proof. unfold request_new_export_and_download, url. resp'. Qed.
#[local] Hint Resolve respects_request_new_export_and_download respects_after_export : resp.

Lemma respects_run_ingestion_task force : respects R (run_ingestion_task force).
Proof. unfold run_ingestion_task. resp'. Qed.
#[local] Hint Resolve respects_run_ingestion_task : resp.

Lemma respects_tick_action now sh sm cfg : respects R (tick_action now sh sm cfg).
Proof. unfold tick_action. resp'. Qed.

End Respects.

(** ** Two relations every step respects *)

Section Instances.
Context `{World}.

Lemma poll_sleeps_app t1 t2 : poll_sleeps (t1 ++ t2) = (poll_sleeps t1 + poll_sleeps t2)%nat.
Proof. unfold poll_sleeps. now rewrite filter_app, length_app. Qed.

Lemma poll_sleeps_one e : is_poll_sleep e = false -> poll_sleeps [e] = 0%nat.
Proof.
  intros He. unfold poll_sleeps. cbn.
  destruct (decide (is_poll_sleep e = true)) as [E|E]; [congruence|reflexivity].
Qed.

Lemma set_world_id (s : State) : set_world (world s) s = s.
Proof. now destruct s. Qed.

Lemma set_world_twice w1 w2 (s : State) : set_world w2 (set_world w1 s) = set_world w2 s.
Proof. reflexivity. Qed.

Lemma browser_only_refl s : browser_only s s [].
Proof.
  split; [exists (world s); symmetry; apply set_world_id | split; [reflexivity | constructor]].
Qed.

Lemma browser_only_trans s1 s2 s3 t1 t2 :
  browser_only s1 s2 t1 -> browser_only s2 s3 t2 -> browser_only s1 s3 (t1 ++ t2).
Proof.
  intros [[w1 ->] [H1 F1]] [[w2 ->] [H2 F2]]. split; [|split].
  - now exists w2.
  - rewrite poll_sleeps_app. lia.
  - now apply Forall_app.
Qed.

Lemma browser_only_call s w e :
  external e = true -> is_poll_sleep e = false -> browser_only s (set_world w s) [e].
Proof.
  intros Hx He. split; [now exists w | split; [now apply poll_sleeps_one | now repeat constructor]].
Qed.

Lemma config_kept_refl s t : config_kept s s t.
Proof. intros m Hm. now exists m. Qed.

Lemma config_kept_trans s1 s2 s3 t1 t2 t3 :
  config_kept s1 s2 t1 -> config_kept s2 s3 t2 -> config_kept s1 s3 t3.
Proof.
  intros K1 K2 m Hm. destruct (K1 m Hm) as (m1 & Hm1 & E1).
  destruct (K2 m1 Hm1) as (m2 & Hm2 & E2). exists m2. split; congruence.
Qed.

Lemma config_kept_field s s' t :
  config_file s' = config_file s -> config_kept s s' t.
Proof.
  intros Hc m Hm. exists m. split; [|reflexivity].
  unfold stored in *. cbn in *. now rewrite Hc.
Qed.

Lemma keeps_config_refl s : keeps_config s s [].
Proof. split; [apply config_kept_refl | reflexivity]. Qed.

Lemma keeps_config_trans s1 s2 s3 t1 t2 :
  keeps_config s1 s2 t1 -> keeps_config s2 s3 t2 -> keeps_config s1 s3 (t1 ++ t2).
Proof.
  intros [K1 H1] [K2 H2]. split.
  - eapply config_kept_trans; eassumption.
  - rewrite poll_sleeps_app. lia.
Qed.

Lemma keeps_config_field s s' t :
  config_file s' = config_file s -> poll_sleeps t = 0%nat -> keeps_config s s' t.
Proof. intros Hc Ht. split; [now apply config_kept_field | exact Ht]. Qed.

Lemma keeps_config_call s w e :
  external e = true -> is_poll_sleep e = false -> keeps_config s (set_world w s) [e].
Proof. intros _ He. apply keeps_config_field; [reflexivity | now apply poll_sleeps_one]. Qed.

Lemma update_config_trace kwargs s : poll_sleeps (tr (update_config kwargs s)) = 0%nat.
Proof.
  unfold update_config, bind, _load_file, gets. cbn.
  destruct (update_loop kwargs _ _ false false) as [[[[mc dc] a] b]|e]; cbn; [|reflexivity].
  destruct a, b; reflexivity.
Qed.

Lemma update_status_trace status kwargs s :
  poll_sleeps (tr (update_status status kwargs s)) = 0%nat.
Proof.
  unfold update_status. destruct (existsb _ kwargs); [reflexivity|].
  apply update_config_trace.
Qed.

Lemma no_next_run_spec kwargs v : no_next_run kwargs = true -> ~ In ("next_run", v) kwargs.
Proof.
  unfold no_next_run. rewrite forallb_forall. intros Hf Hin.
  specialize (Hf _ Hin). cbn in Hf. discriminate.
Qed.

Lemma config_kept_update status kwargs :
  no_next_run kwargs = true -> respects config_kept (update_status status kwargs).
Proof.
  intros Hk s m Hm.
  destruct (update_status_frame status kwargs s config_path) as [E|(m0 & m' & E0 & E' & Hf & _)].
  - exists m. split; [congruence|reflexivity].
  - exists m'. split; [exact E'|].
    assert (m0 = m) as -> by congruence.
    apply Hf. intros v [E|Hin]; [discriminate|].
    now apply no_next_run_spec in Hin.
Qed.

Lemma keeps_config_update status kwargs :
  no_next_run kwargs = true -> respects keeps_config (update_status status kwargs).
Proof.
  intros Hk s. split; [now apply config_kept_update | apply update_status_trace].
Qed.

End Instances.

(** ** Submitting the passcode *)

Section OtpProps.
Context `{World}.

Lemma _is_logged_in_out s : _is_logged_in s = mkOut (Ret (logged_in s)) s [].
Proof.
  unfold _is_logged_in, logged_in, bind, gets, url, ret. cbn.
  destruct (page s); reflexivity.
Qed.

Lemma enter_otp_browser_only otp : respects browser_only (enter_otp otp).
Proof.
  apply respects_enter_otp;
    first [exact browser_only_refl | exact browser_only_trans | exact browser_only_call].
Qed.

(** The check at the end of [submit_otp], case by case. *)
Lemma verify_otp_spec s :
  let o := verify_otp s in
  if logged_in s then
    if context s then
      match ask_str StorageState (world s) with
      | (Ret blob, w) =>
          o = mkOut (Ret (success_result "Login successful!"))
                    (set_session_file (Some blob) (set_world w s))
                    [EAskStr StorageState; ESessionWrite blob]
      | (Raise e, w) => o = mkOut (Raise e) (set_world w s) [EAskStr StorageState]
      end
    else o = mkOut (Ret (success_result "Login successful!")) s []
  else
    session_file (st o) = session_file s /\
    (forall blob, ~ In (ESessionWrite blob) (tr o)) /\
    res o = match invalid_code_shown (world s) with
            | Ret true => Ret (error_result "Invalid OTP code.")
            | Ret false => Ret (error_result "Login failed (Unknown state).")
            | Raise e => Raise e
            end.
Proof.
  unfold verify_otp. rewrite (bind_pure _ _ _ _ (_is_logged_in_out s)).
  destruct (logged_in s).
  - unfold save_context, bind, gets, when. cbn.
    destruct (context s); cbn; [|reflexivity].
    unfold do_ask_str. destruct (ask_str StorageState (world s)) as [[blob|e] w]; reflexivity.
  - unfold invalid_code_shown, orM, bind, do_ask. cbn.
    destruct (ask (IsVisible (ByText "Virheellinen koodi")) (world s)) as [[[|]|e] w]; cbn.
    + repeat split; auto. intros blob [E|[]]; discriminate.
    + destruct (ask (IsVisible (ByText "Invalid code")) w) as [[[|]|e] w']; cbn;
        (repeat split; auto; intros blob [E|[E|[]]]; discriminate).
    + repeat split; auto. intros blob [E|[]]; discriminate.
Qed.

End OtpProps.

Section OtpOutcome.
Context `{World}.

Lemma submit_otp_unfold otp s :
  submit_otp otp s =
  if page s
  then try_except (enter_otp otp ;; verify_otp)
                  (fun e => ret (error_result (str_exn e))) s
  else mkOut (Ret (error_result "Page not initialized")) s [].
Proof. unfold submit_otp. rewrite bind_gets. now destruct (page s). Qed.

(** [submit_otp] once the page is there: what it returns, the state and
    the trace it leaves, from the outcome of entering the code and of the
    check. *)
Lemma submit_otp_run otp s :
  page s = true ->
  let eo := enter_otp otp s in
  let vo := verify_otp (st eo) in
  submit_otp otp s =
  match res eo with
  | Raise e => mkOut (Ret (error_result (str_exn e))) (st eo) (tr eo ++ [])
  | Ret _ =>
      match res vo with
      | Ret r => mkOut (Ret r) (st vo) (tr eo ++ tr vo)
      | Raise e => mkOut (Ret (error_result (str_exn e))) (st vo) ((tr eo ++ tr vo) ++ [])
      end
  end.
Proof.
  intros Hp eo vo. rewrite submit_otp_unfold, Hp.
  unfold try_except, bind. fold eo.
  destruct (res eo) as [[]|e] eqn:E1; cbn [res st tr]; [|reflexivity].
  fold vo. destruct (res vo) as [r|e] eqn:E2; reflexivity.
Qed.

End OtpOutcome.

(** C5 (as amended).  [submit_otp] never raises and always returns a status
    dict, success or error.  Once the code was entered and submitted: on a
    verified login it saves the session and returns success; when the
    invalid-code text shows, in either language, it returns the
    invalid-code error; otherwise the unknown-state error.  When there is
    no page, when no passcode field is found or when a browser call fails,
    it returns an error that carries that fault's message instead. *)
Theorem submit_otp_outcomes `{World} (otp : string) (s : State) :
  let o := submit_otp otp s in
  (exists r, res o = Ret r /\
     (r = success_result "Login successful!" \/ exists msg, r = error_result msg)) /\
  (page s = false -> res o = Ret (error_result "Page not initialized")) /\
  (page s = true -> forall e, res (enter_otp otp s) = Raise e ->
     res o = Ret (error_result (str_exn e))) /\
  (page s = true -> res (enter_otp otp s) = Ret tt ->
   let s1 := st (enter_otp otp s) in
   if logged_in s1 then
     context s1 = true ->
     match ask_str StorageState (world s1) with
     | (Ret blob, _) =>
         res o = Ret (success_result "Login successful!") /\
         session_file (st o) = Some blob
     | (Raise e, _) => res o = Ret (error_result (str_exn e))
     end
   else
     match invalid_code_shown (world s1) with
     | Ret true => res o = Ret (error_result "Invalid OTP code.")
     | Ret false => res o = Ret (error_result "Login failed (Unknown state).")
     | Raise e => res o = Ret (error_result (str_exn e))
     end).
Proof.
  intros o. subst o.
  destruct (page s) eqn:Hp.
  2:{ rewrite submit_otp_unfold, Hp. cbn. repeat split; try discriminate.
      eexists; split; [reflexivity|]. right. now eexists. }
  rewrite (submit_otp_run otp s Hp). cbv zeta.
  pose proof (verify_otp_spec (st (enter_otp otp s))) as Hv. cbv zeta in Hv.
  destruct (res (enter_otp otp s)) as [[]|e] eqn:E1.
  2:{ cbn. repeat split; try discriminate.
      - eexists; split; [reflexivity|]. right. now eexists.
      - intros _ e' [= <-]. reflexivity. }
  set (s1 := st (enter_otp otp s)) in *.
  destruct (logged_in s1).
  - destruct (context s1).
    + destruct (ask_str StorageState (world s1)) as [[blob|e] w]; rewrite Hv; cbn.
      * repeat split; try discriminate; auto.
        eexists; split; [reflexivity|]. now left.
      * repeat split; try discriminate; auto.
        eexists; split; [reflexivity|]. right. now eexists.
    + rewrite Hv. cbn. repeat split; try discriminate.
      eexists; split; [reflexivity|]. now left.
  - destruct Hv as (_ & _ & Hr). rewrite Hr.
    destruct (invalid_code_shown (world s1)) as [[|]|e]; cbn;
      (repeat split; try discriminate; auto;
       eexists; split; [reflexivity|]; right; now eexists).
Qed.

(** C6.  A [submit_otp] call that does not return success leaves the
    session file as it was; the file is written only by the [save_context]
    that follows a verified login, and then the call returns success. *)
Theorem submit_otp_writes_session_only_on_success `{World} (otp : string) (s : State) :
  let o := submit_otp otp s in
  (res o <> Ret (success_result "Login successful!") ->
   session_file (st o) = session_file s) /\
  (forall blob, In (ESessionWrite blob) (tr o) ->
   logged_in (st (enter_otp otp s)) = true /\
   res o = Ret (success_result "Login successful!") /\
   session_file (st o) = Some blob).
Proof.
  intros o. subst o.
  destruct (page s) eqn:Hp.
  2:{ rewrite submit_otp_unfold, Hp. cbn. split; [reflexivity|]. intros blob []. }
  rewrite (submit_otp_run otp s Hp). cbv zeta.
  pose proof (verify_otp_spec (st (enter_otp otp s))) as Hv. cbv zeta in Hv.
  destruct (enter_otp_browser_only otp s) as ([w Hw] & _ & Hx).
  assert (Hnw : forall blob, ~ In (ESessionWrite blob) (tr (enter_otp otp s))).
  { intros blob Hin. rewrite List.Forall_forall in Hx. apply Hx in Hin. discriminate. }
  set (s1 := st (enter_otp otp s)) in *.
  assert (Hs1 : session_file s1 = session_file s) by now rewrite Hw.
  destruct (res (enter_otp otp s)) as [[]|e] eqn:E1.
  2:{ cbn. split; [auto|]. intros blob Hin. rewrite app_nil_r in Hin.
      now apply Hnw in Hin. }
  destruct (logged_in s1).
  - destruct (context s1).
    + destruct (ask_str StorageState (world s1)) as [[blob|e] w']; rewrite Hv; cbn.
      * split; [congruence|]. intros b Hin.
        apply in_app_or in Hin as [Hin|[E|[E|[]]]]; [now apply Hnw in Hin|discriminate|].
        injection E as <-. auto.
      * split; [auto|]. intros b Hin. rewrite app_nil_r in Hin.
        apply in_app_or in Hin as [Hin|[E|[]]]; [now apply Hnw in Hin|discriminate].
    + rewrite Hv. cbn. split; [congruence|]. intros b Hin.
      rewrite app_nil_r in Hin. now apply Hnw in Hin.
  - destruct Hv as (Hf & Hn & Hr). rewrite Hr.
    assert (Hno : forall b, ~ In (ESessionWrite b) (tr (enter_otp otp s) ++ tr (verify_otp s1))).
    { intros b Hin. apply in_app_or in Hin as [Hin|Hin]; [now apply Hnw in Hin|now apply Hn in Hin]. }
    destruct (invalid_code_shown (world s1)) as [[|]|e]; cbn;
      (split; [intros _; congruence|]; intros b Hin; try rewrite app_nil_r in Hin;
       now apply Hno in Hin).
Qed.

(** ** The two entry points of the export *)

Section ExportResults.
Context `{World}.

Lemma res_bind {A B} (m : M A) (f : A -> M B) s :
  res (bind m f s) =
  match res (m s) with Ret a => res (f a (st (m s))) | Raise e => Raise e end.
Proof. unfold bind. now destruct (res (m s)). Qed.

Lemma returns_bind {A B} (Q : B -> Prop) (m : M A) (f : A -> M B) :
  (forall a, returns Q (f a)) -> returns Q (bind m f).
Proof.
  intros Hf s b. rewrite res_bind. destruct (res (m s)) as [a|e]; [|discriminate].
  apply Hf.
Qed.

Lemma returns_ret {A} (Q : A -> Prop) a : Q a -> returns Q (ret a).
Proof. intros Ha s b [= <-]. exact Ha. Qed.

Lemma try_except_total {A} (Q : A -> Prop) (m : M A) h :
  returns Q m ->
  (forall e s, exists a, res (h e s) = Ret a /\ Q a) ->
  forall s, exists a, res (try_except m h s) = Ret a /\ Q a.
Proof.
  intros Hm Hh s. unfold try_except.
  destruct (res (m s)) as [a|e] eqn:E.
  - exists a. split; [exact E | now apply (Hm s)].
  - cbn. apply Hh.
Qed.

Lemma returns__download_file save_dir :
  returns (export_result save_dir) (_download_file save_dir).
Proof.
  unfold _download_file. cbv zeta.
  apply returns_bind; intros _. apply returns_bind; intros [|].
  - apply returns_bind; intros filename. apply returns_bind; intros _.
    apply returns_ret. right; right. now exists filename.
  - apply returns_ret. now left.
Qed.

(** The guarded block of [request_new_export_and_download]. *)
Lemma returns_request_body save_dir :
  returns (export_result save_dir)
    (ok <- _navigate_to_export_page ;;
     if negb ok then
       u <- url ;;
       if str_contains "login" u || str_contains "authn" u
       then ret (mk_dict [("status", PStr "otp_required")])
       else ret PNone
     else
       _click_request_export_button ;;
       is_ready <- _wait_for_processing ;;
       if negb is_ready then ret PNone
       else _download_file save_dir).
Proof.
  apply returns_bind; intros [|]; cbn [negb].
  - apply returns_bind; intros _. apply returns_bind; intros [|]; cbn [negb].
    + apply returns__download_file.
    + apply returns_ret. now left.
  - apply returns_bind; intros u.
    destruct (_ || _); apply returns_ret; [right; now left | now left].
Qed.

(** The guarded block of [download_existing_export]. *)
Lemma returns_download_body save_dir :
  returns (export_result save_dir)
    (ok <- _navigate_to_export_page ;;
     if negb ok then ret (mk_dict [("status", PStr "otp_required")])
     else _download_file save_dir).
Proof.
  apply returns_bind; intros [|]; cbn [negb].
  - apply returns__download_file.
  - apply returns_ret. right; now left.
Qed.

End ExportResults.

(** C2 (as amended).  Once the session is set up (the lines before the
    guarded block returned), neither entry point raises.
    [request_new_export_and_download] returns the saved path, the
    passcode-required signal or [None], and [None] for any fault.
    [download_existing_export] returns the saved path, the
    passcode-required signal, [None], or for a fault an error dict with
    the fault's message. *)
Theorem export_entry_points_return `{World} (save_dir : string) (s : State) :
  res (ensure_session s) = Ret tt ->
  let s1 := st (ensure_session s) in
  (exists v, res (request_new_export_and_download save_dir s) = Ret v /\
             export_result save_dir v) /\
  (exists v, res (download_existing_export save_dir s) = Ret v /\
             (export_result save_dir v \/ exists msg, v = error_result msg)) /\
  (forall e, res (_navigate_to_export_page s1) = Raise e ->
     res (request_new_export_and_download save_dir s) = Ret PNone /\
     res (download_existing_export save_dir s) = Ret (error_result (str_exn e))).
Proof.
  intros He s1. subst s1. unfold request_new_export_and_download, download_existing_export.
  rewrite !(bind_ret _ _ _ _ He). cbn [res].
  split; [|split].
  - apply try_except_total.
    + apply returns_request_body.
    + intros e s'. exists PNone. split; [reflexivity | now left].
  - apply (try_except_total (fun v => export_result save_dir v \/ exists msg, v = error_result msg)).
    + intros s' a Ha. left. eapply returns_download_body, Ha.
    + intros e s'. eexists. split; [reflexivity|]. right. now eexists.
  - intros e Hn. unfold try_except.
    rewrite !res_bind, Hn. cbn. auto.
Qed.

(** ** The scheduler *)

Section Dates.

Lemma dt_compare_key a b :
  dt_valid a -> dt_valid b -> dt_compare a b = (dt_key a ?= dt_key b).
Proof.
  intros (_ & Ha1 & Ha2 & Ha3 & Ha4) (_ & Hb1 & Hb2 & Hb3 & Hb4).
  unfold dt_compare, dt_key.
  destruct (Z.compare_spec (ordinal a) (ordinal b));
    [destruct (Z.compare_spec (hour a) (hour b));
      [destruct (Z.compare_spec (minute a) (minute b));
        [destruct (Z.compare_spec (second a) (second b));
          [destruct (Z.compare_spec (microsecond a) (microsecond b))| |]| |]| |]| |];
    symmetry;
    first [apply Z.compare_eq_iff; lia | apply Z.compare_lt_iff; lia
          | apply Z.compare_gt_iff; lia].
Qed.

Lemma dt_le_key a b : dt_valid a -> dt_valid b -> (dt_le a b <-> dt_key a <= dt_key b).
Proof.
  intros Ha Hb. unfold dt_le. rewrite (dt_compare_key a b Ha Hb).
  unfold Z.le. reflexivity.
Qed.

Lemma dt_gtb_key a b : dt_valid a -> dt_valid b -> (dt_gtb a b = true <-> dt_key a > dt_key b).
Proof.
  intros Ha Hb. unfold dt_gtb. rewrite (dt_compare_key a b Ha Hb).
  unfold Z.gt. destruct (dt_key a ?= dt_key b); split; congruence.
Qed.

Lemma at_time_valid d h m :
  1 <= d <= MAXORDINAL -> 0 <= h < 24 -> 0 <= m < 60 -> dt_valid (at_time d h m).
Proof. intros. unfold dt_valid, at_time. cbn. lia. Qed.

Lemma replace_time_ok now h m :
  0 <= h < 24 -> 0 <= m < 60 -> replace_time now h m = Ret (at_time (ordinal now) h m).
Proof.
  intros Hh Hm. unfold replace_time.
  destruct (Z.leb_spec 0 h); [|lia]. destruct (Z.ltb_spec h 24); [|lia].
  destruct (Z.leb_spec 0 m); [|lia]. destruct (Z.ltb_spec m 60); [|lia].
  reflexivity.
Qed.

Lemma add_days_ok d h m :
  1 <= d + 1 <= MAXORDINAL -> add_days (at_time d h m) 1 = Ret (at_time (d + 1) h m).
Proof.
  intros Hd. unfold add_days. cbn [ordinal at_time].
  destruct (Z.leb_spec 1 (d + 1)); [|lia].
  destruct (Z.leb_spec (d + 1) MAXORDINAL); [|lia]. reflexivity.
Qed.

(** The next run is today's or tomorrow's occurrence of the schedule time,
    and the earliest occurrence that is not before now. *)
Lemma compute_next_run_spec now h m :
  dt_valid now -> ordinal now < MAXORDINAL -> 0 <= h < 24 -> 0 <= m < 60 ->
  let today := at_time (ordinal now) h m in
  let next_run := if dt_gtb now today then at_time (ordinal now + 1) h m else today in
  compute_next_run now h m = Ret next_run /\
  dt_le now next_run /\
  (forall d, 1 <= d <= MAXORDINAL -> dt_le now (at_time d h m) ->
             dt_le next_run (at_time d h m)).
Proof.
  intros Hv Hmax Hh Hm today next_run.
  assert (Ho : 1 <= ordinal now <= MAXORDINAL) by apply Hv.
  assert (Hvt : dt_valid today) by (now apply at_time_valid).
  assert (Hvn : dt_valid (at_time (ordinal now + 1) h m)) by (apply at_time_valid; lia).
  unfold compute_next_run. rewrite replace_time_ok by assumption. fold today.
  pose proof (dt_gtb_key now today Hv Hvt) as Hg.
  destruct Hv as (_ & H1 & H2 & H3 & H4).
  subst next_run. destruct (dt_gtb now today) eqn:G.
  - split; [apply add_days_ok; lia|].
    assert (Hk : dt_key now > dt_key today) by now apply Hg.
    split.
    + apply dt_le_key; [unfold dt_valid; lia | exact Hvn |].
      unfold dt_key, at_time in *. cbn in *. lia.
    + intros d Hd Hle. assert (Hvd : dt_valid (at_time d h m)) by now apply at_time_valid.
      apply dt_le_key in Hle; [|unfold dt_valid; lia|exact Hvd].
      apply dt_le_key; [exact Hvn | exact Hvd |].
      unfold dt_key, at_time in *. cbn in *. lia.
  - split; [reflexivity|].
    assert (Hk : ~ dt_key now > dt_key today) by (intros K; apply Hg in K; congruence).
    split.
    + apply dt_le_key; [unfold dt_valid; lia | exact Hvt |]. lia.
    + intros d Hd Hle. assert (Hvd : dt_valid (at_time d h m)) by now apply at_time_valid.
      apply dt_le_key in Hle; [|unfold dt_valid; lia|exact Hvd].
      apply dt_le_key; [exact Hvt | exact Hvd |].
      unfold dt_key, today, at_time in *. cbn in *. lia.
Qed.

Lemma hhmm_parse_check_true : hhmm_parse_check = true.
Proof. vm_compute. reflexivity. Qed.

Lemma parse_schedule_hhmm h m :
  0 <= h < 24 -> 0 <= m < 60 -> parse_schedule (PStr (hhmm h m)) = Ret (h, m).
Proof.
  intros Hh Hm.
  pose proof hhmm_parse_check_true as C.
  unfold hhmm_parse_check in C. rewrite forallb_forall in C.
  assert (Hin : forall n k, 0 <= k < Z.of_nat n -> In k (map Z.of_nat (seq 0 n))).
  { intros n k Hk. apply in_map_iff. exists (Z.to_nat k). split; [lia|].
    apply in_seq. lia. }
  specialize (C h (Hin 24%nat h Hh)). rewrite forallb_forall in C.
  specialize (C m (Hin 60%nat m Hm)).
  destruct (parse_schedule (PStr (hhmm h m))) as [[a b]|e]; [|discriminate].
  apply andb_prop in C as [Ea Eb].
  apply Z.eqb_eq in Ea, Eb. now subst.
Qed.

End Dates.

Section StatusWrites.
Context `{World}.

Lemma get_config_ret s cfg :
  res (get_config s) = Ret cfg ->
  get_config s = mkOut (Ret cfg) s [] /\
  exists m d, stored config_path s = PDict m /\ stored dashboard_path s = PDict d /\
              cfg = d ∪ m.
Proof.
  intros Hr. destruct (get_config_pure s) as [Hs Ht]. split.
  - rewrite <- (out_eta (get_config s)). now rewrite Hr, Hs, Ht.
  - revert Hr. unfold get_config, _load_file. rewrite !bind_gets. fold (stored config_path s).
    fold (stored dashboard_path s).
    destruct (stored config_path s) as [| | | | |m]; try discriminate;
      destruct (stored dashboard_path s) as [| | | | |d]; try discriminate.
    intros [= <-]. now exists m, d.
Qed.

(** [update_status(status)] on a main configuration that is a dict. *)
Lemma update_status_only (status : string) s m0 :
  stored config_path s = PDict m0 ->
  let m1 := <["status" := PStr status]> m0 in
  update_status (PStr status) [] s =
  mkOut (Ret tt) (set_cfile config_path (Json (PDict m1)) s) [ESave config_path (PDict m1)].
Proof.
  intros Hm m1. unfold update_status, update_config. cbn [existsb].
  unfold _load_file. rewrite !bind_gets. fold (stored config_path s).
  fold (stored dashboard_path s). rewrite Hm. reflexivity.
Qed.

(** [update_status(status, next_run=v)] on such a configuration. *)
Lemma update_status_next_run status (v : string) s m0 :
  stored config_path s = PDict m0 ->
  let m1 := <["next_run" := PStr v]> (if is_none status then m0 else <["status" := status]> m0) in
  update_status status [("next_run", PStr v)] s =
  mkOut (Ret tt) (set_cfile config_path (Json (PDict m1)) s) [ESave config_path (PDict m1)].
Proof.
  intros Hm m1. unfold update_status.
  replace (existsb _ [("next_run", PStr v)]) with false by reflexivity.
  unfold update_config, _load_file. rewrite !bind_gets. fold (stored config_path s).
  fold (stored dashboard_path s). rewrite Hm. subst m1.
  destruct status; reflexivity.
Qed.

(** A [try] whose handler only logs. *)
Lemma try_except_swallow (m : M unit) s :
  res (try_except m (fun _ => ret tt) s) = Ret tt /\
  st (try_except m (fun _ => ret tt) s) = st (m s) /\
  tr (try_except m (fun _ => ret tt) s) = tr (m s).
Proof.
  unfold try_except. destruct (res (m s)) as [[]|e] eqn:E; cbn.
  - now rewrite E.
  - now rewrite app_nil_r.
Qed.

End StatusWrites.

(** One round of the scheduler, when the configuration reads and the
    schedule time parses: the next run is written first, then the round
    does what [tick_action] says, then it sleeps a minute. *)
Lemma scheduler_tick_run `{World} (s : State) cfg sh sm next m0 :
  res (get_config s) = Ret cfg ->
  stored config_path s = PDict m0 ->
  parse_schedule (dict_get cfg "schedule_time" (PStr "11:00")) = Ret (sh, sm) ->
  compute_next_run (clock (world s)) sh sm = Ret next ->
  let status := dict_get cfg "status" (PStr "Idle") in
  let m1 := <["next_run" := PStr (strftime next)]>
              (if is_none status then m0 else <["status" := status]> m0) in
  let s1 := set_cfile config_path (Json (PDict m1)) s in
  let a := tick_action (clock (world s)) sh sm cfg s1 in
  res (scheduler_tick s) = Ret tt /\
  tr (scheduler_tick s) =
    ESave config_path (PDict m1) :: tr a ++ [EEffect (AsyncioSleep 60)] /\
  st (scheduler_tick s) = set_world (settle (AsyncioSleep 60) (world (st a))) (st a).
Proof.
  intros Hg Hm0 Hp Hn status m1 s1 a.
  destruct (get_config_ret s cfg Hg) as [Hg' _].
  assert (Hb : tick_body (clock (world s)) cfg s =
               mkOut (res a) (st a) (ESave config_path (PDict m1) :: tr a)).
  { unfold tick_body. cbv zeta. rewrite Hp.
    rewrite (bind_pure _ _ s (sh, sm)) by reflexivity.
    rewrite Hn. rewrite (bind_pure _ _ s next) by reflexivity.
    pose proof (update_status_next_run status (strftime next) s m0 Hm0) as HU.
    cbv zeta in HU. fold m1 in HU. fold s1 in HU.
    unfold bind. fold status. rewrite HU. cbn [res st tr]. reflexivity. }
  destruct (try_except_swallow (tick_body (clock (world s)) cfg) s) as (T1 & T2 & T3).
  rewrite Hb in T2, T3. cbn [st tr] in T2, T3.
  assert (HB : (now <- datetime_now ;; cfg0 <- get_config ;;
                try_except (tick_body now cfg0) (fun _ => ret tt) ;;
                do_effect (AsyncioSleep 60)) s =
               mkOut (Ret tt) (set_world (settle (AsyncioSleep 60) (world (st a))) (st a))
                     ((ESave config_path (PDict m1) :: tr a) ++ [EEffect (AsyncioSleep 60)])).
  { unfold datetime_now. rewrite bind_gets. rewrite (bind_pure _ _ _ _ Hg').
    rewrite (bind_ret _ _ _ _ T1). rewrite T2, T3. reflexivity. }
  unfold scheduler_tick. rewrite (try_except_ret _ _ s tt) by now rewrite HB.
  rewrite HB. cbn [res st tr]. auto.
Qed.

(** C3.  For a schedule time ["HH:MM"] and any valid current time before
    the last representable day, the round of the scheduler computes the
    next run as today at that time when it is not yet past, tomorrow
    otherwise: the earliest occurrence that is not before now.  It writes it
    to the main configuration before it does anything else, and it is still
    there when the round ends, whatever the round started. *)
Theorem scheduler_writes_next_run `{World} (s : State) (cfg : gmap string pyval) (h m : Z) :
  res (get_config s) = Ret cfg ->
  cfg !! "schedule_time" = Some (PStr (hhmm h m)) ->
  0 <= h < 24 -> 0 <= m < 60 ->
  dt_valid (clock (world s)) -> ordinal (clock (world s)) < MAXORDINAL ->
  let now := clock (world s) in
  let today := at_time (ordinal now) h m in
  let next_run := if dt_gtb now today then at_time (ordinal now + 1) h m else today in
  compute_next_run now h m = Ret next_run /\
  dt_le now next_run /\
  (forall d, 1 <= d <= MAXORDINAL -> dt_le now (at_time d h m) ->
             dt_le next_run (at_time d h m)) /\
  (exists m1 t, tr (scheduler_tick s) = ESave config_path (PDict m1) :: t /\
                m1 !! "next_run" = Some (PStr (strftime next_run))) /\
  item (stored config_path (st (scheduler_tick s))) "next_run"
    = Some (PStr (strftime next_run)).
Proof.
  intros Hg Hs Hh Hm Hv Hmax now today next_run.
  destruct (compute_next_run_spec now h m Hv Hmax Hh Hm) as (Hc & Hle & Hmin).
  fold today in Hc, Hle, Hmin. fold next_run in Hc, Hle, Hmin.
  repeat (split; [assumption|]).
  destruct (get_config_ret s cfg Hg) as [_ (m0 & d & Hm0 & Hd & Hcfg)].
  assert (Hp : parse_schedule (dict_get cfg "schedule_time" (PStr "11:00")) = Ret (h, m)).
  { unfold dict_get. rewrite Hs. now apply parse_schedule_hhmm. }
  destruct (scheduler_tick_run s cfg h m next_run m0 Hg Hm0 Hp Hc) as (_ & Ht & Hst).
  cbv zeta in Ht, Hst.
  set (m1 := <["next_run" := PStr (strftime next_run)]> _) in *.
  set (s1 := set_cfile config_path (Json (PDict m1)) s) in *.
  split.
  - exists m1. eexists. split; [exact Ht|]. subst m1. apply lookup_insert_eq.
  - rewrite Hst.
    assert (K : config_kept s1 (st (tick_action now h m cfg s1))
                  (tr (tick_action now h m cfg s1))).
    { apply respects_tick_action.
      - intros; apply config_kept_refl.
      - intros; eapply config_kept_trans; eassumption.
      - intros; now apply config_kept_field.
      - intros ? ? [_ [Hc' _]] _. now apply config_kept_field.
      - intros; now apply config_kept_field.
      - intros; now apply config_kept_update.
      - intros; now apply config_kept_field. }
    destruct (K m1) as (m2 & Hm2 & E2); [reflexivity|].
    replace (stored config_path (set_world _ _)) with (PDict m2)
      by (rewrite <- Hm2; unfold stored; now destruct (st _)).
    cbn [item]. rewrite E2. subst m1. apply lookup_insert_eq.
Qed.

(** ** The generation wait *)

Section WaitProps.
Context `{World}.

Lemma poll_sleeps_cons e t :
  poll_sleeps (e :: t) = ((if is_poll_sleep e then 1 else 0) + poll_sleeps t)%nat.
Proof.
  unfold poll_sleeps. cbn.
  destruct (decide (is_poll_sleep e = true)) as [E|E].
  - now rewrite E.
  - destruct (is_poll_sleep e); [congruence|reflexivity].
Qed.

Lemma export_ready_browser_only : respects browser_only export_ready.
Proof.
  apply respects_export_ready;
    first [exact browser_only_refl | exact browser_only_trans | exact browser_only_call].
Qed.

Lemma export_ready_no_sleep s : Forall (fun e => is_sleep e = false) (tr (export_ready s)).
Proof.
  unfold export_ready, andM, bind, do_ask. cbv zeta.
  destruct (ask (IsVisible request_btn_primary) (world s)) as [[v|e] w]; cbn;
    [|repeat constructor].
  destruct (ask (IsVisible _) w) as [[[|]|e] w']; cbn; [|repeat constructor..].
  destruct (ask (IsEnabled _) w') as [[b|e] w'']; cbn; repeat constructor.
Qed.

(** One round of the wait after a negative check: sleep, reload, settle. *)
Lemma wait_round_spec n s :
  let m := (do_act (WaitForTimeout (poll_interval * 1000)) ;; do_act Reload ;;
            do_act (WaitForLoadState "networkidle" None) ;; wait_loop n) in
  exists t,
    tr (m s) = EAct (WaitForTimeout (poll_interval * 1000)) :: t /\
    ((exists e, res (m s) = Raise e /\ poll_sleeps t = 0%nat /\
                Forall (fun e => is_sleep e = false) t) \/
     (exists s', res (m s) = res (wait_loop n s') /\
                 exists t0, t = t0 ++ tr (wait_loop n s') /\ poll_sleeps t0 = 0%nat /\
                            Forall (fun e => is_sleep e = false) t0)).
Proof.
  cbv zeta. rewrite bind_act.
  destruct (act (WaitForTimeout _) (world s)) as [[[]|e] w1].
  2:{ eexists. split; [reflexivity|]. left. exists e. repeat split; constructor. }
  rewrite bind_act. cbn [world set_world].
  destruct (act Reload _) as [[[]|e] w2].
  2:{ eexists. split; [reflexivity|]. left. exists e. repeat split; repeat constructor. }
  rewrite bind_act. cbn [world set_world].
  destruct (act (WaitForLoadState _ _) _) as [[[]|e] w3].
  2:{ eexists. split; [reflexivity|]. left. exists e. repeat split; repeat constructor. }
  cbv zeta. cbn [res st tr].
  eexists. split; [reflexivity|]. right. eexists. split; [reflexivity|].
  exists [EAct Reload; EAct (WaitForLoadState "networkidle" None)].
  repeat split; repeat constructor.
Qed.

End WaitProps.

Section WaitLoop.
Context `{World}.

Lemma no_sleep_only_poll t :
  Forall (fun e => is_sleep e = false) t ->
  Forall (fun e => is_sleep e = true -> is_poll_sleep e = true) t.
Proof. intros F. eapply Forall_impl; [exact F|]. cbn. intros e E1 E2. congruence. Qed.

(** The wait with [n] rounds left sleeps the poll interval at most [n]
    times, sleeps no other length, and a positive answer comes after fewer
    than [n] sleeps. *)
Lemma wait_loop_spec n : forall s,
  (poll_sleeps (tr (wait_loop n s)) <= n)%nat /\
  (res (wait_loop n s) = Ret true -> (poll_sleeps (tr (wait_loop n s)) < n)%nat) /\
  Forall (fun e => is_sleep e = true -> is_poll_sleep e = true) (tr (wait_loop n s)).
Proof.
  induction n as [|n IH]; intros s.
  - cbn. repeat split; [lia | discriminate | constructor].
  - destruct (export_ready_browser_only s) as (_ & Hq & _).
    pose proof (export_ready_no_sleep s) as Hns.
    remember (wait_loop (S n) s) as o eqn:Eo.
    cbn [wait_loop] in Eo. unfold bind at 1 in Eo.
    destruct (res (export_ready s)) as [[|]|e]; subst o.
    + cbn [res st tr]. rewrite poll_sleeps_app, Hq. cbn.
      repeat split; [lia | intros _; lia |].
      rewrite app_nil_r. now apply no_sleep_only_poll.
    + destruct (wait_round_spec n (st (export_ready s))) as (t & Ht & Hcase).
      cbv zeta in Ht, Hcase. cbn [res st tr]. rewrite Ht.
      rewrite poll_sleeps_app, Hq, poll_sleeps_cons.
      replace (is_poll_sleep (EAct (WaitForTimeout (poll_interval * 1000)))) with true
        by reflexivity.
      destruct Hcase as [(e & He & Hc & Hf)|(s' & Hr & t0 & -> & Hc & Hf)].
      * rewrite He, Hc. repeat split; [lia | discriminate |].
        apply Forall_app. split; [now apply no_sleep_only_poll|].
        constructor; [reflexivity | now apply no_sleep_only_poll].
      * destruct (IH s') as (I1 & I2 & I3). rewrite Hr.
        rewrite poll_sleeps_app, Hc. repeat split; [lia | intros E; specialize (I2 E); lia |].
        apply Forall_app. split; [now apply no_sleep_only_poll|].
        constructor; [reflexivity|].
        apply Forall_app. split; [now apply no_sleep_only_poll | exact I3].
    + cbn [res st tr]. rewrite Hq.
      repeat split; [lia | discriminate | now apply no_sleep_only_poll].
Qed.

End WaitLoop.

(** ** A whole run *)

Section RunProps.
Context `{World}.

Lemma keeps_config_same_files s s' :
  same_files s s' -> world s' = world s -> keeps_config s s' [].
Proof. intros (_ & Hc & _) _. now apply keeps_config_field. Qed.

Lemma keeps_config_session s blob :
  keeps_config s (set_session_file (Some blob) s) [ESessionWrite blob].
Proof. now apply keeps_config_field. Qed.

Ltac kc :=
  first [ exact keeps_config_refl | exact keeps_config_trans | exact keeps_config_call
        | exact keeps_config_same_files | exact keeps_config_session
        | exact keeps_config_update ].

Lemma kc_update_status status : respects keeps_config (update_status status []).
Proof. now apply keeps_config_update. Qed.

Lemma kc_initialize headless : respects keeps_config (initialize headless).
Proof. apply respects_initialize; kc. Qed.

Lemma kc_login : respects keeps_config login.
Proof. apply respects_login; kc. Qed.

Lemma kc_ensure_session : respects keeps_config ensure_session.
Proof. apply respects_ensure_session; kc. Qed.

Lemma kc__navigate_to_export_page : respects keeps_config _navigate_to_export_page.
Proof. apply respects__navigate_to_export_page; kc. Qed.

Lemma kc__click_request_export_button : respects keeps_config _click_request_export_button.
Proof. apply respects__click_request_export_button; kc. Qed.

Lemma kc__download_file d : respects keeps_config (_download_file d).
Proof. apply respects__download_file; kc. Qed.

Lemma kc_cleanup : respects keeps_config cleanup.
Proof. apply respects_cleanup; kc. Qed.

Lemma kc_after_export r : respects keeps_config (after_export r).
Proof. apply respects_after_export; kc. Qed.

Lemma config_kept_request d : respects config_kept (request_new_export_and_download d).
Proof.
  apply respects_request_new_export_and_download.
  - intros; apply config_kept_refl.
  - intros; eapply config_kept_trans; eassumption.
  - intros; now apply config_kept_field.
  - intros ? ? (_ & Hc & _) _. now apply config_kept_field.
  - intros; now apply config_kept_field.
  - intros; now apply config_kept_update.
  - intros; now apply config_kept_field.
Qed.

Lemma respects_quiet {A} (m : M A) : respects keeps_config m -> quiet m.
Proof. intros Hm s. apply Hm. Qed.

Lemma respects_dict {A} (m : M A) s :
  respects keeps_config m -> config_is_dict s -> config_is_dict (st (m s)).
Proof.
  intros Hm [m0 Hd]. destruct (Hm s) as [K _]. destruct (K m0 Hd) as (m1 & E & _).
  now exists m1.
Qed.

(** A guarded block seen from its first step. *)
Lemma try_bind_peel {A B} (m : M A) (f : A -> M B) h s :
  try_except (bind m f) h s =
  match res (m s) with
  | Ret a =>
      let o := try_except (f a) h (st (m s)) in
      mkOut (res o) (st o) (tr (m s) ++ tr o)
  | Raise e =>
      let o := h e (st (m s)) in
      mkOut (res o) (st o) (tr (m s) ++ tr o)
  end.
Proof.
  unfold try_except, bind.
  destruct (res (m s)) as [a|e]; cbn [res st tr]; [|reflexivity].
  destruct (res (f a (st (m s)))) as [b|e] eqn:E; cbn [res st tr]; [now rewrite E|].
  now rewrite app_assoc.
Qed.

(** When the first step of a guarded block and its handler never sleep the
    poll interval, a run with [n] such sleeps went past the first step, and
    all [n] sleeps are in what follows. *)
Lemma peel_dict {A B} (m : M A) (f : A -> M B) h s (P : Res B -> State -> Prop) n :
  respects keeps_config m ->
  (forall e, quiet (h e)) ->
  config_is_dict s ->
  (forall a, config_is_dict (st (m s)) ->
     let o := try_except (f a) h (st (m s)) in
     poll_sleeps (tr o) = S n -> P (res o) (st o)) ->
  let o := try_except (bind m f) h s in
  poll_sleeps (tr o) = S n -> P (res o) (st o).
Proof.
  intros Hm Hh Hd Hk. cbv zeta. rewrite try_bind_peel.
  pose proof (respects_quiet m Hm s) as Hq.
  pose proof (respects_dict m s Hm Hd) as Hd'.
  destruct (res (m s)) as [a|e]; cbv zeta; cbn [res st tr];
    rewrite poll_sleeps_app, Hq; cbn [Nat.add].
  - apply Hk, Hd'.
  - rewrite Hh. discriminate.
Qed.

(** A guarded block that never sleeps the poll interval, nor its handler. *)
Lemma try_quiet {A} (m : M A) h s :
  quiet m -> (forall e, quiet (h e)) -> poll_sleeps (tr (try_except m h s)) = 0%nat.
Proof.
  intros Hm Hh. unfold try_except.
  destruct (res (m s)) as [a|e]; cbn [tr]; [apply Hm|].
  now rewrite poll_sleeps_app, Hm, Hh.
Qed.

Lemma peel_quiet {A B} (m : M A) (f : A -> M B) h s (P : Res B -> State -> Prop) n :
  respects keeps_config m ->
  (forall e, quiet (h e)) ->
  (forall a,
     let o := try_except (f a) h (st (m s)) in
     poll_sleeps (tr o) = S n -> P (res o) (st o)) ->
  let o := try_except (bind m f) h s in
  poll_sleeps (tr o) = S n -> P (res o) (st o).
Proof.
  intros Hm Hh Hk. cbv zeta. rewrite try_bind_peel.
  pose proof (respects_quiet m Hm s) as Hq.
  destruct (res (m s)) as [a|e]; cbv zeta; cbn [res st tr];
    rewrite poll_sleeps_app, Hq; cbn [Nat.add].
  - apply Hk.
  - rewrite Hh. discriminate.
Qed.

Lemma quiet_ret {A} (a : A) : quiet (ret a).
Proof. intros s. reflexivity. Qed.

(** After thirty sleeps of the poll interval the export has no file. *)
Lemma request_exhausted d s :
  poll_sleeps (tr (request_new_export_and_download d s)) = 30%nat ->
  res (request_new_export_and_download d s) = Ret PNone.
Proof.
  remember (request_new_export_and_download d s) as o eqn:Eo.
  unfold request_new_export_and_download in Eo. unfold bind at 1 in Eo.
  pose proof (respects_quiet _ kc_ensure_session s) as Hq.
  destruct (res (ensure_session s)) as [[]|e]; subst o; cbn [res st tr].
  2:{ rewrite Hq. discriminate. }
  rewrite poll_sleeps_app, Hq. cbn [Nat.add].
  apply (peel_quiet _ _ _ _ (fun r _ => r = Ret PNone));
    [exact kc__navigate_to_export_page | intros e; apply quiet_ret |].
  intros [|]; cbn [negb]; cbv zeta.
  - apply (peel_quiet _ _ _ _ (fun r _ => r = Ret PNone));
      [exact kc__click_request_export_button | intros e; apply quiet_ret |].
    intros _. cbv zeta. rewrite try_bind_peel.
    match goal with |- context [res (_wait_for_processing ?s0)] => set (s3 := s0) end.
    destruct (wait_loop_spec max_retries s3) as (_ & Hlt & _).
    fold _wait_for_processing in Hlt.
    destruct (res (_wait_for_processing s3)) as [[|]|e]; cbv zeta; cbn [negb res st tr].
    + rewrite poll_sleeps_app.
      rewrite (try_quiet (_download_file d)); [|exact (respects_quiet _ (kc__download_file d))
                                               |intros e; apply quiet_ret].
      specialize (Hlt eq_refl). unfold max_retries in Hlt. lia.
    + reflexivity.
    + reflexivity.
  - intros Hc. exfalso. revert Hc. rewrite try_quiet; [discriminate| |intros e; apply quiet_ret].
    intros s0. unfold url. rewrite bind_gets. now destruct (_ || _).
Qed.

Lemma kc_set_email v : respects keeps_config (modify (set_email v)).
Proof.
  apply respects_modify_field; [exact keeps_config_same_files|].
  intros [? ? ? ? ? ? ? ? ? ? ?]. repeat split.
Qed.

Lemma kc_handler e : respects keeps_config (run_handler e).
Proof.
  unfold run_handler. apply respects_bind; [exact keeps_config_trans | apply kc_update_status |].
  intros _. apply kc_cleanup.
Qed.

(** What [after_export] does with no file, on a configuration that is a
    dict. *)
Lemma after_export_none s :
  config_is_dict s ->
  res (after_export PNone s) = Ret tt /\
  stored_status (st (after_export PNone s)) = Some (PStr "Failed to download export.").
Proof.
  intros [m0 Hd]. unfold after_export. cbn [is_status_dict truthy].
  pose proof (update_status_only "Failed to download export." s m0 Hd) as HU.
  cbv zeta in HU. unfold bind. rewrite HU. cbn [res st tr].
  rewrite cleanup_eq. cbn [res st tr]. split; [reflexivity|].
  unfold stored_status, stored. destruct s. cbn. apply lookup_insert_eq.
Qed.

Lemma quiet_run_handler e : quiet (run_handler e).
Proof. exact (respects_quiet _ (kc_handler e)). Qed.

(** The export and what follows it, after thirty sleeps of the poll
    interval. *)
Lemma run_export_exhausted s :
  config_is_dict s ->
  let o := try_except
             (result <- request_new_export_and_download user_data_dir ;;
              after_export result) run_handler s in
  poll_sleeps (tr o) = 30%nat -> ends_failed (res o) (st o).
Proof.
  intros Hd. cbv zeta. rewrite try_bind_peel.
  pose proof (request_exhausted user_data_dir s) as Hreq.
  assert (Hd6 : config_is_dict (st (request_new_export_and_download user_data_dir s))).
  { destruct Hd as [m5 E5]. destruct (config_kept_request user_data_dir s m5 E5) as (m6 & E6 & _).
    now exists m6. }
  destruct (res (request_new_export_and_download user_data_dir s)) as [v|e];
    cbv zeta; cbn [res st tr]; rewrite poll_sleeps_app; intros Hc.
  - pose proof (try_quiet (after_export v) run_handler
                  (st (request_new_export_and_download user_data_dir s))
                  (respects_quiet _ (kc_after_export v)) quiet_run_handler) as Hq0.
    assert (Hc' : poll_sleeps (tr (request_new_export_and_download user_data_dir s)) = 30%nat)
      by lia.
    specialize (Hreq Hc'). injection Hreq as ->.
    destruct (after_export_none _ Hd6) as [R1 R2].
    rewrite (try_except_ret _ _ _ _ R1). split; assumption.
  - pose proof (quiet_run_handler e (st (request_new_export_and_download user_data_dir s)))
      as Hq0.
    assert (Hc' : poll_sleeps (tr (request_new_export_and_download user_data_dir s)) = 30%nat)
      by lia.
    specialize (Hreq Hc'). discriminate.
Qed.

(** The same from the login result on. *)
Lemma run_after_login_exhausted login_res s :
  config_is_dict s ->
  let o := try_except
             (if truthy login_res && is_status_dict login_res "otp_required" then
                update_status (PStr "Waiting for OTP...") []
              else
                update_status (PStr "Running Automation...") [] ;;
                result <- request_new_export_and_download user_data_dir ;;
                after_export result) run_handler s in
  poll_sleeps (tr o) = 30%nat -> ends_failed (res o) (st o).
Proof.
  intros Hd.
  destruct (truthy login_res && is_status_dict login_res "otp_required").
  - cbv zeta. intros Hc. exfalso. revert Hc.
    rewrite try_quiet;
      [discriminate | exact (respects_quiet _ (kc_update_status _)) | exact quiet_run_handler].
  - apply (peel_dict _ _ _ _ ends_failed);
      [apply kc_update_status | exact quiet_run_handler | exact Hd |].
    intros _ Hd'. now apply run_export_exhausted.
Qed.

(** The guarded block of [run_ingestion_task] after thirty sleeps of the
    poll interval. *)
Lemma run_body_exhausted cfg s :
  config_is_dict s ->
  let o :=
    try_except
      (update_status (PStr "Initializing...") [] ;;
       initialize (dict_get cfg "headless" (PBool true)) ;;
       modify (set_email (dict_get cfg "email" (PStr ""))) ;;
       login_res <- login ;;
       if truthy login_res && is_status_dict login_res "otp_required" then
         update_status (PStr "Waiting for OTP...") []
       else
         update_status (PStr "Running Automation...") [] ;;
         result <- request_new_export_and_download user_data_dir ;;
         after_export result)
      run_handler s in
  poll_sleeps (tr o) = 30%nat -> ends_failed (res o) (st o).
Proof.
  intros Hd.
  apply (peel_dict _ _ _ _ ends_failed);
    [apply kc_update_status | exact quiet_run_handler | exact Hd |].
  intros _ Hd1.
  apply (peel_dict _ _ _ _ ends_failed);
    [apply kc_initialize | exact quiet_run_handler | exact Hd1 |].
  intros _ Hd2.
  apply (peel_dict _ _ _ _ ends_failed);
    [apply kc_set_email | exact quiet_run_handler | exact Hd2 |].
  intros _ Hd3.
  apply (peel_dict _ _ _ _ ends_failed);
    [apply kc_login | exact quiet_run_handler | exact Hd3 |].
  intros login_res Hd4. now apply run_after_login_exhausted.
Qed.

(** A run of [run_ingestion_task] whose trace has thirty sleeps of the poll
    interval ends normally with the failure status. *)
Lemma run_exhausted force s :
  poll_sleeps (tr (run_ingestion_task force s)) = 30%nat ->
  res (run_ingestion_task force s) = Ret tt /\
  stored_status (st (run_ingestion_task force s)) = Some (PStr "Failed to download export.").
Proof.
  remember (run_ingestion_task force s) as o eqn:Eo.
  unfold run_ingestion_task in Eo.
  destruct (res (get_config s)) as [cfg|e] eqn:Hg.
  2:{ rewrite (bind_raise _ _ _ _ Hg) in Eo. subst o. cbn [tr].
      destruct (get_config_pure s) as [_ ->]. discriminate. }
  destruct (get_config_ret s cfg Hg) as [Hg' (m0 & d & Hm0 & _)].
  rewrite (bind_pure _ _ _ _ Hg') in Eo.
  destruct (negb force && negb (truthy (dict_get cfg "is_active" (PBool true)))).
  { subst o. discriminate. }
  pose proof (update_status_only "Starting..." s m0 Hm0) as HU. cbv zeta in HU.
  unfold bind at 1 in Eo. rewrite HU in Eo. cbn [res st tr] in Eo.
  subst o. cbn [res st tr]. rewrite poll_sleeps_app.
  rewrite (poll_sleeps_one (ESave _ _)) by reflexivity. cbn [Nat.add].
  apply (run_body_exhausted cfg).
  eexists. unfold stored. destruct s. reflexivity.
Qed.

End RunProps.

(** C4.  The generation wait has a budget of 30 rounds with 300 seconds
    between two checks: it sleeps that interval at most 30 times and no
    other length, and a positive answer comes after fewer than 30 sleeps.
    When all 30 sleeps have passed, the wait does not answer yes, the
    export returns [None] instead of raising, and the run ends normally
    with the status "Failed to download export.", which is not "Idle". *)
Theorem generation_wait_budget `{World} (s : State) (save_dir : string) (force : bool) :
  max_retries = 30%nat /\ poll_interval = 300 /\
  (poll_sleeps (tr (_wait_for_processing s)) <= 30)%nat /\
  Forall (fun e => is_sleep e = true -> e = EAct (WaitForTimeout 300000))
         (tr (_wait_for_processing s)) /\
  (res (_wait_for_processing s) = Ret true ->
   (poll_sleeps (tr (_wait_for_processing s)) < 30)%nat) /\
  (poll_sleeps (tr (_wait_for_processing s)) = 30%nat ->
   res (_wait_for_processing s) = Ret false \/
   exists e, res (_wait_for_processing s) = Raise e) /\
  (poll_sleeps (tr (request_new_export_and_download save_dir s)) = 30%nat ->
   res (request_new_export_and_download save_dir s) = Ret PNone) /\
  (poll_sleeps (tr (run_ingestion_task force s)) = 30%nat ->
   res (run_ingestion_task force s) = Ret tt /\
   stored_status (st (run_ingestion_task force s))
     = Some (PStr "Failed to download export.") /\
   stored_status (st (run_ingestion_task force s)) <> Some (PStr "Idle")).
Proof.
  destruct (wait_loop_spec max_retries s) as (H1 & H2 & H3).
  fold _wait_for_processing in H1, H2, H3. change max_retries with 30%nat in H1, H2.
  split; [reflexivity|]. split; [reflexivity|]. split; [exact H1|].
  split.
  { eapply Forall_impl; [exact H3|]. cbn. intros e He Hs. specialize (He Hs).
    destruct e as [[]| | | | | | | |]; try discriminate.
    cbn in He. apply Z.eqb_eq in He. now subst. }
  split; [exact H2|]. split.
  { intros Hc. destruct (res (_wait_for_processing s)) as [[|]|e]; [|auto|eauto].
    specialize (H2 eq_refl). lia. }
  split; [apply request_exhausted|].
  intros Hc. destruct (run_exhausted force s Hc) as [R1 R2].
  split; [exact R1|]. split; [exact R2|]. rewrite R2. discriminate.
Qed.

(** ** Starting a run *)

Section RunStart.
Context `{World}.

(** [update_status(status, k=v)] for a key of the main configuration. *)
Lemma update_status_kw (status : string) k (v : string) s m0 :
  String.eqb k "status" = false -> String.eqb k "dashboard" = false ->
  stored config_path s = PDict m0 ->
  let m1 := <[k := PStr v]> (<["status" := PStr status]> m0) in
  update_status (PStr status) [(k, PStr v)] s =
  mkOut (Ret tt) (set_cfile config_path (Json (PDict m1)) s) [ESave config_path (PDict m1)].
Proof.
  intros Hk1 Hk2 Hm m1. unfold update_status. cbn [existsb fst]. rewrite Hk1. cbn [orb].
  unfold update_config, _load_file. rewrite !bind_gets. fold (stored config_path s).
  fold (stored dashboard_path s). rewrite Hm.
  cbn [update_loop is_none]. replace (String.eqb "status" "dashboard") with false by reflexivity.
  cbn [setitem]. rewrite Hk2. reflexivity.
Qed.

(** A computation that begins by setting the status. *)
Lemma starts_with_status {A} (status : string) (k : M A) s m0 :
  stored config_path s = PDict m0 ->
  let m1 := <["status" := PStr status]> m0 in
  tr ((update_status (PStr status) [] ;; k) s) =
    ESave config_path (PDict m1) :: tr (k (set_cfile config_path (Json (PDict m1)) s)).
Proof.
  intros Hm m1. pose proof (update_status_only status s m0 Hm) as HU. cbv zeta in HU.
  fold m1 in HU. unfold bind. rewrite HU. reflexivity.
Qed.

Lemma request_export_run s cfg :
  res (get_config s) = Ret cfg ->
  request_export s =
  if py_eq_str (dict_get cfg "status" PNone) "Processing"
  then mkOut (Raise (HTTPException 409 "Sync already in progress")) s []
  else mkOut (Ret (mk_dict [("message", PStr "Full sync started in background.")])) s
             [EAddTask run_full_sync].
Proof.
  intros Hg. destruct (get_config_ret s cfg Hg) as [Hg' _].
  unfold request_export. rewrite (bind_pure _ _ _ _ Hg').
  now destruct (py_eq_str _ _).
Qed.

Lemma run_ingestion_task_start force s cfg m0 :
  res (get_config s) = Ret cfg ->
  stored config_path s = PDict m0 ->
  if negb force && negb (truthy (dict_get cfg "is_active" (PBool true)))
  then run_ingestion_task force s = mkOut (Ret tt) s []
  else exists t,
    tr (run_ingestion_task force s) =
      ESave config_path (PDict (<["status" := PStr "Starting..."]> m0)) :: t.
Proof.
  intros Hg Hm. destruct (get_config_ret s cfg Hg) as [Hg' _].
  unfold run_ingestion_task. rewrite (bind_pure _ _ _ _ Hg').
  destruct (negb force && _); [reflexivity|].
  eexists. now apply starts_with_status.
Qed.

Lemma run_automation_start s m0 :
  stored config_path s = PDict m0 ->
  exists t, tr (run_automation s) =
    ESave config_path (PDict (<["status" := PStr "Starting manual run..."]> m0)) :: t.
Proof. intros Hm. eexists. unfold run_automation. now apply starts_with_status. Qed.

Lemma run_full_sync_task_start s m0 :
  stored config_path s = PDict m0 ->
  exists t, tr (run_full_sync_task s) =
    ESave config_path
      (PDict (<["message" := PStr "Starting full sync..."]>
                (<["status" := PStr "Processing"]> m0))) :: t.
Proof.
  intros Hm. eexists. unfold run_full_sync_task.
  pose proof (update_status_kw "Processing" "message" "Starting full sync..." s m0
                eq_refl eq_refl Hm) as HU. cbv zeta in HU.
  unfold bind. rewrite HU. reflexivity.
Qed.

Lemma tick_action_daily now sh sm cfg s :
  (hour now =? sh) && (minute now =? sm) = true ->
  tick_action now sh sm cfg s = run_ingestion_task false s.
Proof. intros Hc. unfold tick_action. now rewrite Hc. Qed.

Lemma tick_action_waiting now sh sm cfg s :
  (hour now =? sh) && (minute now =? sm) = false ->
  py_in "Waiting" (dict_get cfg "status" (PStr "")) = Ret true ->
  minute now mod 5 = 0 ->
  tick_action now sh sm cfg s = run_ingestion_task false s.
Proof.
  intros Hc Hw H5. unfold tick_action. rewrite Hc, Hw.
  rewrite (bind_pure _ _ _ true) by reflexivity.
  apply Z.eqb_eq in H5. now rewrite H5.
Qed.

End RunStart.

(** C1 (as amended).  [request-export] is rejected with the conflict 409,
    leaving the state as it is and queueing nothing, exactly when the stored
    status is "Processing"; with any other status it queues a full sync.
    The run-now endpoint and the daily trigger of the scheduler do not look
    at the status: run-now always starts, the daily trigger starts
    [run_ingestion_task], which only skips when the schedule is inactive.
    Every run that starts writes its status ("Processing", "Starting manual
    run...", "Starting...") as its first effect, before any call to the
    browser. *)
Theorem run_start_guards `{World} (s : State) (cfg : gmap string pyval) :
  res (get_config s) = Ret cfg ->
  (request_export s =
   if py_eq_str (dict_get cfg "status" PNone) "Processing"
   then mkOut (Raise (HTTPException 409 "Sync already in progress")) s []
   else mkOut (Ret (mk_dict [("message", PStr "Full sync started in background.")])) s
              [EAddTask run_full_sync]) /\
  (exists m1 t, tr (run_full_sync_task s) = ESave config_path (PDict m1) :: t /\
                m1 !! "status" = Some (PStr "Processing")) /\
  (exists m1 t, tr (run_automation s) = ESave config_path (PDict m1) :: t /\
                m1 !! "status" = Some (PStr "Starting manual run...")) /\
  (forall now sh sm, (hour now =? sh) && (minute now =? sm) = true ->
     tick_action now sh sm cfg s = run_ingestion_task false s) /\
  (forall force,
     if negb force && negb (truthy (dict_get cfg "is_active" (PBool true)))
     then run_ingestion_task force s = mkOut (Ret tt) s []
     else exists m1 t, tr (run_ingestion_task force s) = ESave config_path (PDict m1) :: t /\
                       m1 !! "status" = Some (PStr "Starting...")).
Proof.
  intros Hg. destruct (get_config_ret s cfg Hg) as [_ (m0 & d & Hm0 & _)].
  split; [now apply request_export_run|].
  split.
  { destruct (run_full_sync_task_start s m0 Hm0) as [t Ht]. eexists. exists t.
    split; [exact Ht|]. rewrite lookup_insert_ne by discriminate. apply lookup_insert_eq. }
  split.
  { destruct (run_automation_start s m0 Hm0) as [t Ht]. eexists. exists t.
    split; [exact Ht|]. apply lookup_insert_eq. }
  split; [intros; now apply tick_action_daily|].
  intros force. pose proof (run_ingestion_task_start force s cfg m0 Hg Hm0) as Hr.
  destruct (negb force && _); [exact Hr|].
  destruct Hr as [t Ht]. eexists. exists t. split; [exact Ht|]. apply lookup_insert_eq.
Qed.

(** C9 (as amended).  On a round that is not the schedule minute, with a
    status that contains "Waiting" and a minute that is a multiple of 5,
    the scheduler calls [run_ingestion_task()], the very call of the daily
    trigger: there is no separate resume path.  Unless the schedule is
    inactive, that call starts over by writing "Starting...". *)
Theorem waiting_poll_runs_ingestion_task `{World}
    (now : datetime) (sh sm : Z) (cfg : gmap string pyval) (s : State) :
  (hour now =? sh) && (minute now =? sm) = false ->
  py_in "Waiting" (dict_get cfg "status" (PStr "")) = Ret true ->
  minute now mod 5 = 0 ->
  tick_action now sh sm cfg s = run_ingestion_task false s /\
  (forall now', (hour now' =? sh) && (minute now' =? sm) = true ->
     tick_action now' sh sm cfg s = tick_action now sh sm cfg s) /\
  (forall cfg', res (get_config s) = Ret cfg' ->
     truthy (dict_get cfg' "is_active" (PBool true)) = true ->
     exists m1 t, tr (tick_action now sh sm cfg s) = ESave config_path (PDict m1) :: t /\
                  m1 !! "status" = Some (PStr "Starting...")).
Proof.
  intros Hc Hw H5. pose proof (tick_action_waiting now sh sm cfg s Hc Hw H5) as E.
  split; [exact E|]. split.
  - intros now' Hc'. rewrite E. now apply tick_action_daily.
  - intros cfg' Hg Ha. rewrite E.
    destruct (get_config_ret s cfg' Hg) as [_ (m0 & d & Hm0 & _)].
    pose proof (run_ingestion_task_start false s cfg' m0 Hg Hm0) as Hr.
    rewrite Ha in Hr. cbn [negb andb] in Hr.
    destruct Hr as [t Ht]. eexists. exists t. split; [exact Ht|]. apply lookup_insert_eq.
Qed.

(** * Further properties of the scheduler and of the runs *)

Section SchedulerRounds.
Context `{World}.

(** X1.  One round of the scheduler never raises, whatever the state and
    the world, and the last thing it does is sleep 60 seconds. *)
Theorem scheduler_tick_always_sleeps (s : State) :
  res (scheduler_tick s) = Ret tt /\
  exists t, tr (scheduler_tick s) = t ++ [EEffect (AsyncioSleep 60)].
Proof.
  unfold scheduler_tick.
  set (body := (now <- datetime_now ;; cfg <- get_config ;;
                try_except (tick_body now cfg) (fun _ => ret tt) ;;
                do_effect (AsyncioSleep 60))).
  assert (Hb : (exists e, res (body s) = Raise e) \/
               (res (body s) = Ret tt /\
                exists t, tr (body s) = t ++ [EEffect (AsyncioSleep 60)])).
  { subst body. unfold datetime_now. rewrite bind_gets.
    destruct (res (get_config s)) as [cfg|e] eqn:Hg.
    - right. destruct (get_config_ret s cfg Hg) as [Hg' _].
      rewrite (bind_pure _ _ _ _ Hg').
      destruct (try_except_swallow (tick_body (clock (world s)) cfg) s) as (T1 & _ & _).
      rewrite (bind_ret _ _ _ _ T1). cbn [res tr]. split; [reflexivity|].
      eexists. reflexivity.
    - left. exists e. now rewrite (bind_raise _ _ _ _ Hg). }
  unfold try_except.
  destruct Hb as [[e He]|[Hr [t Ht]]].
  - rewrite He. cbn [res tr]. split; [reflexivity|]. eexists. reflexivity.
  - rewrite Hr. split; [exact Hr|]. exists t. exact Ht.
Qed.



(** X3.  A round outside the schedule minute, with a status that does not
    contain "Waiting" or at a minute that is no multiple of 5, writes the
    next run and the status it read, sleeps, and does nothing else. *)
Theorem scheduler_tick_idle_round (s : State) (cfg : gmap string pyval)
    (sh sm : Z) (next : datetime) (m0 : gmap string pyval) (waiting : bool) :
  res (get_config s) = Ret cfg ->
  stored config_path s = PDict m0 ->
  parse_schedule (dict_get cfg "schedule_time" (PStr "11:00")) = Ret (sh, sm) ->
  compute_next_run (clock (world s)) sh sm = Ret next ->
  (hour (clock (world s)) =? sh) && (minute (clock (world s)) =? sm) = false ->
  py_in "Waiting" (dict_get cfg "status" (PStr "")) = Ret waiting ->
  waiting = false \/ minute (clock (world s)) mod 5 <> 0 ->
  let status := dict_get cfg "status" (PStr "Idle") in
  let m1 := <["next_run" := PStr (strftime next)]>
              (if is_none status then m0 else <["status" := status]> m0) in
  let s1 := set_cfile config_path (Json (PDict m1)) s in
  tr (scheduler_tick s) = [ESave config_path (PDict m1); EEffect (AsyncioSleep 60)] /\
  st (scheduler_tick s) = set_world (settle (AsyncioSleep 60) (world s)) s1.
Proof.
  intros Hg Hm0 Hp Hn Hc Hw Hidle status m1 s1.
  destruct (scheduler_tick_run s cfg sh sm next m0 Hg Hm0 Hp Hn) as (_ & Ht & Hs).
  cbv zeta in Ht, Hs. fold status in Ht, Hs. fold m1 in Ht, Hs. fold s1 in Ht, Hs.
  assert (Ha : tick_action (clock (world s)) sh sm cfg s1 = mkOut (Ret tt) s1 []).
  { unfold tick_action. rewrite Hc, Hw.
    rewrite (bind_pure _ _ _ waiting) by reflexivity.
    destruct Hidle as [->|Hm]; [reflexivity|].
    destruct waiting; [|reflexivity].
    destruct (Z.eqb_spec (minute (clock (world s)) mod 5) 0); [contradiction|reflexivity]. }
  rewrite Ha in Ht, Hs. cbn [tr st app] in Ht, Hs. split; assumption.
Qed.

End SchedulerRounds.


(** Side conditions of the rules for [config_kept]. *)
Ltac ck :=
  first [ exact (fun s => config_kept_refl s [])
        | intros; apply config_kept_refl
        | intros; eapply config_kept_trans; eassumption
        | intros ? ? (_ & ? & _) _; now apply config_kept_field
        | intros; now apply config_kept_field
        | intros; now apply config_kept_update ].

Section RunOutcomes.
Context `{World}.

Lemma ck_initialize headless : respects config_kept (initialize headless).
Proof. apply respects_initialize; ck. Qed.

Lemma ck_login : respects config_kept login.
Proof. apply respects_login; ck. Qed.

Lemma ck_set_email v : respects config_kept (modify (set_email v)).
Proof. intros s. now apply config_kept_field. Qed.

Lemma ck_do_act a : respects config_kept (do_act a).
Proof. intros s. unfold do_act. destruct (act a (world s)). now apply config_kept_field. Qed.

Lemma kept_dict {A} (m : M A) s :
  respects config_kept m -> config_is_dict s -> config_is_dict (st (m s)).
Proof. intros Hm [m0 E]. destruct (Hm s m0 E) as (m1 & E1 & _). now exists m1. Qed.

Lemma post_bind {A B} (m : M A) (f : A -> M B) Q :
  respects config_kept m ->
  (forall a, post config_is_dict (f a) Q) ->
  post config_is_dict (bind m f) Q.
Proof.
  intros Hm Hf s Hd b. unfold bind.
  destruct (res (m s)) as [a|e] eqn:E; cbn [res st]; [|discriminate].
  apply Hf. now apply kept_dict.
Qed.

(** [update_status(status)] on a configuration that is a dict: it returns,
    the status is stored, the automator is untouched. *)
Lemma update_status_sets (status : string) s :
  config_is_dict s ->
  res (update_status (PStr status) [] s) = Ret tt /\
  stored_status (st (update_status (PStr status) [] s)) = Some (PStr status) /\
  _is_initialized (st (update_status (PStr status) [] s)) = _is_initialized s.
Proof.
  intros [m0 Hm]. rewrite (update_status_only status s m0 Hm). cbn [res st].
  split; [reflexivity|]. split; [|now destruct s].
  unfold stored_status, item, stored. destruct s. cbn. apply lookup_insert_eq.
Qed.

Lemma cleanup_settles s :
  res (cleanup s) = Ret tt /\ stored_status (st (cleanup s)) = stored_status s /\
  _is_initialized (st (cleanup s)) = false.
Proof.
  rewrite cleanup_eq. cbn [res st]. split; [reflexivity|]. split; [now destruct s|reflexivity].
Qed.

Lemma end_status_idle : run_end_status (Some (PStr "Idle")).
Proof. eexists. split; [reflexivity|]. auto. Qed.

Lemma end_status_waiting : run_end_status (Some (PStr "Waiting for OTP...")).
Proof. eexists. split; [reflexivity|]. auto. Qed.

Lemma end_status_failed : run_end_status (Some (PStr "Failed to download export.")).
Proof. eexists. split; [reflexivity|]. auto. Qed.

Lemma end_status_ingestion msg : run_end_status (Some (PStr ("Ingestion Failed: " +:+ msg))).
Proof. eexists. split; [reflexivity|]. right; right; right; left. now destruct msg. Qed.

Lemma end_status_error msg : run_end_status (Some (PStr ("Error: " +:+ msg))).
Proof. eexists. split; [reflexivity|]. right; right; right; right. now destruct msg. Qed.

(** When [process_ingestion] returns, the status is "Idle" or says that
    the ingestion failed. *)
Lemma post_process_ingestion z :
  post config_is_dict (process_ingestion z)
       (fun _ s => run_end_status (stored_status s)).
Proof.
  unfold process_ingestion.
  apply post_bind; [now apply config_kept_update|]. intros _.
  apply post_bind; [apply ck_do_act|]. intros _.
  intros s Hd a. unfold try_finally. cbn [res st].
  set (inner := try_except _ _).
  replace (stored_status (st (do_effect DbClose (st (inner s)))))
    with (stored_status (st (inner s))) by (now destruct (st (inner s))).
  intros Hr. subst inner. unfold try_except in *.
  set (body := (do_act (ParseZip z) ;; now <- datetime_now ;;
                update_status (PStr "Idle") [("last_run", PStr (strftime now))])) in *.
  assert (Hk : respects config_kept body).
  { subst body. apply respects_bind; [ck | apply ck_do_act |]. intros _.
    apply respects_bind; [ck | apply respects_gets; ck |]. intros now.
    now apply config_kept_update. }
  destruct (res (body s)) as [[]|e] eqn:E.
  - (* the parser returned: the last write is Idle *)
    revert E. subst body. rewrite res_bind.
    destruct (res (do_act (ParseZip z) s)) as [[]|e] eqn:E1; [|discriminate].
    intros E.
    assert (Hd1 : config_is_dict (st (do_act (ParseZip z) s)))
      by (apply kept_dict; [apply ck_do_act | exact Hd]).
    unfold bind at 1. rewrite E1. cbn [st].
    unfold datetime_now. rewrite bind_gets.
    destruct Hd1 as [m1 Hm1].
    rewrite (update_status_kw "Idle" "last_run" _ _ m1 eq_refl eq_refl Hm1). cbn [st].
    replace (stored_status _) with (Some (PStr "Idle")); [apply end_status_idle|].
    unfold stored_status, stored. destruct (st (do_act (ParseZip z) s)). cbn.
    rewrite lookup_insert_ne by discriminate. now rewrite lookup_insert_eq.
  - (* the parser raised: the handler wrote the failure *)
    cbn [res st] in *.
    assert (Hd1 : config_is_dict (st (body s))) by (now apply kept_dict).
    destruct (update_status_sets ("Ingestion Failed: " +:+ str_exn e) _ Hd1) as (_ & Hs & _).
    rewrite Hs. apply end_status_ingestion.
Qed.

Lemma settled_waiting s :
  stored_status s = Some (PStr "Waiting for OTP...") -> run_settled s.
Proof. intros E. split; [rewrite E; apply end_status_waiting | now left]. Qed.

Lemma post_waiting :
  post config_is_dict (update_status (PStr "Waiting for OTP...") []) (fun _ => run_settled).
Proof.
  intros s Hd a _. apply settled_waiting. now apply update_status_sets.
Qed.

Lemma post_after_export r : post config_is_dict (after_export r) (fun _ => run_settled).
Proof.
  unfold after_export. destruct (is_status_dict r "otp_required"); [apply post_waiting|].
  intros s Hd a. rewrite res_bind.
  set (inner := if truthy r then _ else _).
  destruct (res (inner s)) as [[]|e] eqn:E; [|discriminate]. intros _.
  unfold bind. rewrite E.
  destruct (cleanup_settles (st (inner s))) as (_ & Hs & Hf). cbn [st].
  split; [|now right]. rewrite Hs. subst inner.
  destruct (truthy r).
  - assert (P : post config_is_dict
                  (update_status (PStr "Downloading...") [] ;; process_ingestion r)
                  (fun _ s => run_end_status (stored_status s))).
    { apply post_bind; [now apply config_kept_update|]. intros _.
      apply post_process_ingestion. }
    exact (P s Hd tt E).
  - destruct (update_status_sets "Failed to download export." s Hd) as (_ & -> & _).
    apply end_status_failed.
Qed.

Lemma handler_settles e s :
  config_is_dict s ->
  res (run_handler e s) = Ret tt /\ run_settled (st (run_handler e s)).
Proof.
  intros Hd. unfold run_handler.
  destruct (update_status_sets ("Error: " +:+ str_exn e) s Hd) as (Hr & Hs & _).
  rewrite (bind_ret _ _ _ _ Hr). cbn [res st].
  destruct (cleanup_settles (st (update_status (PStr ("Error: " +:+ str_exn e)) [] s)))
    as (Hc & Hcs & Hf).
  split; [exact Hc|]. split; [|now right].
  rewrite Hcs, Hs. apply end_status_error.
Qed.

Lemma guarded_settles (m : M unit) s :
  config_is_dict s -> respects config_kept m ->
  post config_is_dict m (fun _ => run_settled) ->
  res (try_except m run_handler s) = Ret tt /\
  run_settled (st (try_except m run_handler s)).
Proof.
  intros Hd Hk Hp. destruct (res (m s)) as [[]|e] eqn:E.
  - rewrite (try_except_ret _ _ _ _ E). split; [exact E|]. exact (Hp s Hd tt E).
  - rewrite (try_except_raise _ _ _ _ E). cbn [res st].
    apply handler_settles. now apply kept_dict.
Qed.

Lemma run_body_kept cfg :
  respects config_kept
    (update_status (PStr "Initializing...") [] ;;
     initialize (dict_get cfg "headless" (PBool true)) ;;
     modify (set_email (dict_get cfg "email" (PStr ""))) ;;
     login_res <- login ;;
     if truthy login_res && is_status_dict login_res "otp_required" then
       update_status (PStr "Waiting for OTP...") []
     else
       update_status (PStr "Running Automation...") [] ;;
       result <- request_new_export_and_download user_data_dir ;;
       after_export result).
Proof.
  apply respects_bind; [ck | now apply config_kept_update |]. intros _.
  apply respects_bind; [ck | apply ck_initialize |]. intros _.
  apply respects_bind; [ck | apply ck_set_email |]. intros _.
  apply respects_bind; [ck | apply ck_login |]. intros lr.
  destruct (truthy lr && _); [now apply config_kept_update|].
  apply respects_bind; [ck | now apply config_kept_update |]. intros _.
  apply respects_bind; [ck | apply config_kept_request |]. intros r.
  apply respects_after_export; ck.
Qed.

Lemma run_body_post cfg :
  post config_is_dict
    (update_status (PStr "Initializing...") [] ;;
     initialize (dict_get cfg "headless" (PBool true)) ;;
     modify (set_email (dict_get cfg "email" (PStr ""))) ;;
     login_res <- login ;;
     if truthy login_res && is_status_dict login_res "otp_required" then
       update_status (PStr "Waiting for OTP...") []
     else
       update_status (PStr "Running Automation...") [] ;;
       result <- request_new_export_and_download user_data_dir ;;
       after_export result)
    (fun _ => run_settled).
Proof.
  apply post_bind; [now apply config_kept_update|]. intros _.
  apply post_bind; [apply ck_initialize|]. intros _.
  apply post_bind; [apply ck_set_email|]. intros _.
  apply post_bind; [apply ck_login|]. intros lr.
  destruct (truthy lr && _); [apply post_waiting|].
  apply post_bind; [now apply config_kept_update|]. intros _.
  apply post_bind; [apply config_kept_request|]. intros r.
  apply post_after_export.
Qed.

(** X4. [run_ingestion_task] raises only what its first line, the read of
    the configuration, raises: every later fault is caught and reported
    in the status. *)
Theorem run_ingestion_task_raises_only_on_config (force : bool) (s : State) :
  res (run_ingestion_task force s) =
  match res (get_config s) with Ret _ => Ret tt | Raise e => Raise e end.
Proof.
  unfold run_ingestion_task. rewrite res_bind.
  destruct (res (get_config s)) as [cfg|e] eqn:Hg; [|reflexivity].
  destruct (get_config_ret s cfg Hg) as (Hg' & m & d & Hm & _).
  rewrite Hg'. cbn [st].
  destruct (negb force && _); [reflexivity|].
  assert (Hd : config_is_dict s) by (now exists m).
  destruct (update_status_sets "Starting..." s Hd) as (Hr & _).
  rewrite res_bind, Hr.
  apply (guarded_settles _ _ (kept_dict _ _ (config_kept_update _ [] eq_refl) Hd)
                         (run_body_kept cfg) (run_body_post cfg)).
Qed.

(** X5. A run that is forced or active ends with one of five statuses
    (idle, waiting for the passcode, failed download, failed ingestion,
    error), and with the browser torn down unless it waits for the
    passcode. *)
Theorem run_ingestion_task_settles (force : bool) (s : State) (cfg : gmap string pyval) :
  res (get_config s) = Ret cfg ->
  force || truthy (dict_get cfg "is_active" (PBool true)) = true ->
  run_settled (st (run_ingestion_task force s)).
Proof.
  intros Hg Hf.
  destruct (get_config_ret s cfg Hg) as (Hg' & m & d & Hm & _).
  unfold run_ingestion_task. rewrite (bind_pure _ _ _ _ Hg').
  replace (negb force && _) with false
    by (destruct force, (truthy (dict_get cfg "is_active" (PBool true))); easy).
  assert (Hd : config_is_dict s) by (now exists m).
  destruct (update_status_sets "Starting..." s Hd) as (Hr & _).
  rewrite (bind_ret _ _ _ _ Hr). cbn [st].
  apply (guarded_settles _ _ (kept_dict _ _ (config_kept_update _ [] eq_refl) Hd)
                         (run_body_kept cfg) (run_body_post cfg)).
Qed.

End RunOutcomes.


(** * Further properties of the configuration manager *)

Section ConfigRoundTrip.
Context `{World}.

Lemma update_loop_dicts kwargs : forall m d a b,
  exists a' b',
    update_loop kwargs (PDict m) (PDict d) a b =
    Ret (PDict (written_main kwargs m), PDict (written_dash kwargs d), a', b').
Proof.
  induction kwargs as [|[key value] rest IH]; intros m d a b; cbn [update_loop written_main written_dash].
  - now exists a, b.
  - destruct (is_none value); [apply IH|].
    destruct (String.eqb key "dashboard"); cbn [setitem]; apply IH.
Qed.

(** [update_config] on two files that hold dicts. *)
Lemma update_config_on_dicts kwargs s m d :
  stored config_path s = PDict m -> stored dashboard_path s = PDict d ->
  res (update_config kwargs s) = Ret tt /\
  stored config_path (st (update_config kwargs s)) = PDict (written_main kwargs m) /\
  stored dashboard_path (st (update_config kwargs s)) = PDict (written_dash kwargs d).
Proof.
  intros Hm Hd. pose proof (update_config_state kwargs s) as E.
  rewrite Hm, Hd in E.
  destruct (update_loop_dicts kwargs m d false false) as (a' & b' & L).
  rewrite L in E. destruct E as [E1 E2].
  apply update_loop_spec in L as (_ & _ & Ha & Hb).
  split; [|split].
  - unfold update_config, _load_file. rewrite !bind_gets.
    fold (stored config_path s). fold (stored dashboard_path s). rewrite Hm, Hd.
    destruct (update_loop_dicts kwargs m d false false) as (a2 & b2 & ->).
    cbn. destruct a2, b2; reflexivity.
  - rewrite E1. destruct a'; [reflexivity|]. symmetry. now apply Ha.
  - rewrite E2. destruct b'; [reflexivity|]. symmetry. now apply Hb.
Qed.

Lemma written_main_skip kwargs : forall m k,
  ~ In k (map fst kwargs) -> written_main kwargs m !! k = m !! k.
Proof.
  induction kwargs as [|[key value] rest IH]; intros m k Hk; cbn [written_main]; [reflexivity|].
  cbn in Hk. destruct (is_none value); [apply IH; tauto|].
  destruct (String.eqb key "dashboard"); [apply IH; tauto|].
  rewrite IH by tauto. apply lookup_insert_ne. tauto.
Qed.

Lemma written_dash_other kwargs : forall d k,
  k <> "dashboard" -> written_dash kwargs d !! k = d !! k.
Proof.
  induction kwargs as [|[key value] rest IH]; intros d k Hk; cbn [written_dash]; [reflexivity|].
  destruct (is_none value); [now apply IH|].
  destruct (String.eqb key "dashboard"); [|now apply IH].
  rewrite IH by exact Hk. apply lookup_insert_ne. congruence.
Qed.

Lemma written_dash_skip kwargs : forall d,
  ~ In "dashboard" (map fst kwargs) -> written_dash kwargs d = d.
Proof.
  induction kwargs as [|[key value] rest IH]; intros d Hk; cbn [written_dash]; [reflexivity|].
  cbn in Hk. destruct (is_none value); [apply IH; tauto|].
  destruct (String.eqb key "dashboard") eqn:E; [|apply IH; tauto].
  apply String.eqb_eq in E. tauto.
Qed.

Lemma written_main_lookup kwargs : forall m k v,
  List.NoDup (map fst kwargs) -> In (k, v) kwargs -> v <> PNone -> k <> "dashboard" ->
  written_main kwargs m !! k = Some v.
Proof.
  induction kwargs as [|[key value] rest IH]; intros m k v Hn Hin Hv Hk; [destruct Hin|].
  cbn in Hn. apply List.NoDup_cons_iff in Hn as [Hnot Hn].
  cbn [written_main]. destruct Hin as [E|Hin].
  - injection E as -> ->.
    replace (is_none v) with false by (now destruct v).
    replace (String.eqb k "dashboard") with false
      by (symmetry; now apply String.eqb_neq).
    rewrite written_main_skip by exact Hnot. apply lookup_insert_eq.
  - destruct (is_none value); [now apply IH|].
    destruct (String.eqb key "dashboard"); now apply IH.
Qed.

Lemma written_dash_lookup kwargs : forall d v,
  List.NoDup (map fst kwargs) -> In ("dashboard", v) kwargs -> v <> PNone ->
  written_dash kwargs d !! "dashboard" = Some v.
Proof.
  induction kwargs as [|[key value] rest IH]; intros d v Hn Hin Hv; [destruct Hin|].
  cbn in Hn. apply List.NoDup_cons_iff in Hn as [Hnot Hn].
  cbn [written_dash]. destruct Hin as [E|Hin].
  - injection E as -> ->.
    replace (is_none v) with false by (now destruct v).
    replace (String.eqb "dashboard" "dashboard") with true by reflexivity.
    rewrite written_dash_skip by exact Hnot. apply lookup_insert_eq.
  - destruct (is_none value); [now apply IH|].
    destruct (String.eqb key "dashboard"); now apply IH.
Qed.

Lemma get_config_on_dicts s m d :
  stored config_path s = PDict m -> stored dashboard_path s = PDict d ->
  get_config s = mkOut (Ret (d ∪ m)) s [].
Proof.
  intros Hm Hd. unfold get_config, _load_file. rewrite !bind_gets.
  fold (stored config_path s). fold (stored dashboard_path s). now rewrite Hm, Hd.
Qed.

(** X6. What [update_config] is given, [get_config] reads back: a value
    other than [None] supplied for a key is the value of that key in the
    merged configuration read next, provided both files hold dicts and,
    for a key other than [dashboard], the dashboard file does not hold the
    key (its entries shadow the main file's). *)
Theorem update_config_then_get_config (kwargs : list (string * pyval)) (s : State)
    (m d : gmap string pyval) (k : string) (v : pyval) :
  stored config_path s = PDict m -> stored dashboard_path s = PDict d ->
  List.NoDup (map fst kwargs) -> In (k, v) kwargs -> v <> PNone ->
  k = "dashboard" \/ d !! k = None ->
  res (update_config kwargs s) = Ret tt /\
  exists cfg, res (get_config (st (update_config kwargs s))) = Ret cfg /\
              cfg !! k = Some v.
Proof.
  intros Hm Hd Hn Hin Hv Hk.
  destruct (update_config_on_dicts kwargs s m d Hm Hd) as (Hr & E1 & E2).
  split; [exact Hr|]. eexists. split.
  - now rewrite (get_config_on_dicts _ _ _ E1 E2).
  - destruct (decide (k = "dashboard")) as [->|Hne].
    + apply lookup_union_Some_l. now apply written_dash_lookup.
    + destruct Hk as [Hk|Hk]; [contradiction|].
      rewrite lookup_union_r by (rewrite written_dash_other by exact Hne; exact Hk).
      now apply written_main_lookup.
Qed.

(** X7. A key the dashboard file holds shadows the main file: a value
    written for it with [update_config] is stored in the main file, and
    [get_config] still reads the dashboard file's value. *)
Theorem dashboard_file_shadows_update (s : State) (m d : gmap string pyval)
    (k : string) (v old : pyval) :
  stored config_path s = PDict m -> stored dashboard_path s = PDict d ->
  v <> PNone -> k <> "dashboard" -> d !! k = Some old ->
  let s' := st (update_config [(k, v)] s) in
  item (stored config_path s') k = Some v /\
  exists cfg, res (get_config s') = Ret cfg /\ cfg !! k = Some old.
Proof.
  intros Hm Hd Hv Hk Hold s'. subst s'.
  destruct (update_config_on_dicts [(k, v)] s m d Hm Hd) as (Hr & E1 & E2).
  split.
  - rewrite E1. cbn [item]. apply written_main_lookup; auto.
    + cbn. constructor; [intros []|constructor].
    + now left.
  - eexists. split; [now rewrite (get_config_on_dicts _ _ _ E1 E2)|].
    apply lookup_union_Some_l. now rewrite written_dash_other.
Qed.

(** X8. An [update_config] that raises has written nothing: the loop
    works on the loaded copies, and both files are saved only after it. *)
Theorem update_config_failure_writes_nothing (kwargs : list (string * pyval))
    (s : State) (e : exn) :
  res (update_config kwargs s) = Raise e ->
  update_config kwargs s = mkOut (Raise e) s [].
Proof.
  unfold update_config, _load_file. rewrite !bind_gets.
  destruct (update_loop kwargs _ _ false false) as [[[[mc dc] a] b]|e'] eqn:L.
  - cbn. destruct a, b; discriminate.
  - cbn. now intros [= ->].
Qed.

(** X9. With every supplied value [None], [update_config] is a no-op
    whatever the files hold: it returns, saves nothing, and leaves the
    state as it is. *)
Theorem update_config_all_none (kwargs : list (string * pyval)) (s : State) :
  forallb (fun kv => is_none (snd kv)) kwargs = true ->
  update_config kwargs s = mkOut (Ret tt) s [].
Proof.
  intros Hall.
  assert (L : forall mc dc, update_loop kwargs mc dc false false = Ret (mc, dc, false, false)).
  { induction kwargs as [|[key value] rest IH]; intros mc dc; [reflexivity|].
    cbn in Hall. apply andb_true_iff in Hall as [Hv Hrest].
    cbn [update_loop]. rewrite Hv. now apply IH. }
  unfold update_config, _load_file. rewrite !bind_gets, L. reflexivity.
Qed.

End ConfigRoundTrip.


(** * Further properties of the background tasks *)

Section TaskOutcomes.
Context `{World}.

Lemma update_config_flag kwargs s :
  _is_initialized (st (update_config kwargs s)) = _is_initialized s.
Proof.
  unfold update_config, _load_file. rewrite !bind_gets.
  destruct (update_loop kwargs _ _ false false) as [[[[mc dc] a] b]|e]; cbn; [|reflexivity].
  destruct s. destruct a, b; reflexivity.
Qed.

Lemma update_loop_main_dict kwargs : forall m dc a b,
  forallb (fun kv => negb (String.eqb (fst kv) "dashboard")) kwargs = true ->
  exists a', update_loop kwargs (PDict m) dc a b =
             Ret (PDict (written_main kwargs m), dc, a', b).
Proof.
  induction kwargs as [|[key value] rest IH]; intros m dc a b Hp;
    cbn [update_loop written_main].
  - now exists a.
  - cbn in Hp. apply andb_true_iff in Hp as [Hk Hp].
    destruct (is_none value); [now apply IH|].
    destruct (String.eqb key "dashboard"); [discriminate|].
    cbn [setitem]. now apply IH.
Qed.

(** [update_status(status, **kwargs)] on a main configuration that is a
    dict, with plain keyword arguments: it returns, the status is stored,
    the automator is untouched. *)
Lemma update_status_plain (status : string) kwargs s :
  config_is_dict s -> plain_kwargs kwargs = true ->
  res (update_status (PStr status) kwargs s) = Ret tt /\
  stored_status (st (update_status (PStr status) kwargs s)) = Some (PStr status) /\
  _is_initialized (st (update_status (PStr status) kwargs s)) = _is_initialized s.
Proof.
  intros [m Hm] Hp. unfold update_status.
  assert (Hs : existsb (fun kv => String.eqb (fst kv) "status") kwargs = false).
  { apply not_true_is_false. intros E. apply existsb_exists in E as (kv & Hin & E).
    unfold plain_kwargs in Hp. rewrite forallb_forall in Hp. specialize (Hp kv Hin).
    rewrite E in Hp. discriminate. }
  assert (Hd : forallb (fun kv => negb (String.eqb (fst kv) "dashboard"))
                 (("status", PStr status) :: kwargs) = true).
  { cbn. unfold plain_kwargs in Hp. rewrite forallb_forall in *. intros kv Hin.
    specialize (Hp kv Hin). now apply andb_true_iff in Hp as [_ ->]. }
  rewrite Hs. split; [|split; [|apply update_config_flag]].
  - unfold update_config, _load_file. rewrite !bind_gets. fold (stored config_path s). rewrite Hm.
    destruct (update_loop_main_dict _ m (match get_cfile dashboard_path s with
                                         | Json v => v | _ => PDict ∅ end) false false Hd)
      as (a' & ->). cbn. destruct a'; reflexivity.
  - pose proof (update_config_state (("status", PStr status) :: kwargs) s) as E.
    rewrite Hm in E.
    destruct (update_loop_main_dict _ m (stored dashboard_path s) false false Hd) as (a' & L).
    rewrite L in E. destruct E as [E _].
    apply update_loop_spec in L as (_ & _ & Ha & _).
    unfold stored_status. rewrite E.
    assert (Hw : written_main (("status", PStr status) :: kwargs) m !! "status"
                 = Some (PStr status)).
    { cbn [written_main is_none]. replace (String.eqb "status" "dashboard") with false by reflexivity.
      rewrite written_main_skip; [apply lookup_insert_eq|].
      intros Hin. apply in_map_iff in Hin as (kv & Hk & Hin).
      unfold plain_kwargs in Hp. rewrite forallb_forall in Hp. specialize (Hp kv Hin).
      rewrite Hk in Hp. discriminate. }
    destruct a'; [exact Hw|].
    destruct (Ha eq_refl) as [_ Hsame]. rewrite <- Hsame. exact Hw.
Qed.

(** A status write that returned has stored the status. *)
Lemma update_status_ret (status : string) s :
  res (update_status (PStr status) [] s) = Ret tt ->
  stored_status (st (update_status (PStr status) [] s)) = Some (PStr status).
Proof.
  intros Hr. destruct (stored config_path s) as [| | | | |m] eqn:Hm;
    try (exfalso; revert Hr; unfold update_status, update_config, _load_file;
         cbn [existsb]; rewrite !bind_gets; fold (stored config_path s); rewrite Hm;
         discriminate).
  apply update_status_sets. now exists m.
Qed.

Lemma post_any_bind {A B} (m : M A) (f : A -> M B) Q :
  (forall a, post (fun _ => True) (f a) Q) ->
  post (fun _ => True) (bind m f) Q.
Proof.
  intros Hf s _ b. unfold bind.
  destruct (res (m s)) as [a|e] eqn:E; cbn [res st]; [|discriminate].
  now apply Hf.
Qed.

(** X10. [run_download_existing_task] never raises, whatever the
    configuration files hold and whatever the browser does; when it is
    over the browser is torn down, unless the status says that the run
    waits for the passcode. *)
Theorem run_download_existing_task_settles (s : State) :
  res (run_download_existing_task s) = Ret tt /\
  (_is_initialized (st (run_download_existing_task s)) = false \/
   stored_status (st (run_download_existing_task s)) = Some (PStr "Waiting for OTP...")).
Proof.
  unfold run_download_existing_task.
  set (body := (cfg <- get_config ;; _)).
  assert (P : post (fun _ => True) body
                (fun _ s' => _is_initialized s' = false \/
                             stored_status s' = Some (PStr "Waiting for OTP..."))).
  { subst body.
    apply post_any_bind. intros cfg. apply post_any_bind. intros init.
    apply post_any_bind. intros _. apply post_any_bind. intros _.
    apply post_any_bind. intros result.
    destruct (is_status_dict result "otp_required").
    - intros s' _ [] Hr. right. now apply update_status_ret.
    - apply post_any_bind. intros _. intros s' _ [] _. left. apply cleanup_settles. }
  destruct (res (body s)) as [[]|e] eqn:E.
  - rewrite (try_except_ret _ _ _ _ E). split; [exact E|]. exact (P s I tt E).
  - rewrite (try_except_raise _ _ _ _ E). cbn [res st].
    split; [|left]; apply cleanup_settles.
Qed.

Lemma post_status_finally_effect {A} (m : M A) e (Q : option pyval -> Prop) :
  post config_is_dict m (fun _ s => Q (stored_status s)) ->
  post config_is_dict (try_finally m (do_effect e)) (fun _ s => Q (stored_status s)).
Proof.
  intros Hm s Hd a. unfold try_finally. cbn [res st].
  replace (stored_status (st (do_effect e (st (m s))))) with (stored_status (st (m s)))
    by (now destruct (st (m s))).
  apply Hm, Hd.
Qed.

Lemma ck_do_ask_str q : respects config_kept (do_ask_str q).
Proof. intros s. unfold do_ask_str. destruct (ask_str q (world s)). now apply config_kept_field. Qed.

Lemma ck_do_effect e : respects config_kept (do_effect e).
Proof. intros s. now apply config_kept_field. Qed.

Lemma post_plain (status : string) kwargs (Q : option pyval -> Prop) :
  plain_kwargs kwargs = true -> Q (Some (PStr status)) ->
  post config_is_dict (update_status (PStr status) kwargs) (fun _ s => Q (stored_status s)).
Proof.
  intros Hp HQ s Hd a _.
  destruct (update_status_plain status kwargs s Hd Hp) as (_ & -> & _). exact HQ.
Qed.

Lemma sync_ingest_post result :
  post config_is_dict
    (do_act SessionLocal ;;
     try_finally
       (do_act (ParseZip result) ;;
        now <- datetime_now ;;
        update_status (PStr "Idle")
          [("message", PStr "Sync and ingestion complete!");
           ("last_run", PStr (strftime now))])
       (do_effect DbClose))
    (fun _ s => idle_or_error (stored_status s)).
Proof.
  apply post_bind; [apply ck_do_act|]. intros _.
  apply post_status_finally_effect.
  apply post_bind; [apply ck_do_act|]. intros _.
  apply post_bind; [apply respects_gets; ck|]. intros now.
  apply post_plain; [reflexivity | now left].
Qed.

Lemma sync_guarded_post temp_dir :
  post config_is_dict
    (update_status (PStr "Processing")
       [("message", PStr "Requesting and waiting for export (this may take hours)...")] ;;
     result <- request_new_export_and_download temp_dir ;;
     if is_status_dict result "otp_required" then
       update_status (PStr "Error")
         [("message", PStr "OTP required. Please login manually in settings.")]
     else
       match result with
       | PStr zip_path =>
           if negb (String.eqb zip_path "") then
             update_status (PStr "Processing")
               [("message", PStr ("Downloaded to " +:+ zip_path +:+ ". Ingesting..."))] ;;
             do_act SessionLocal ;;
             try_finally
               (do_act (ParseZip result) ;;
                now <- datetime_now ;;
                update_status (PStr "Idle")
                  [("message", PStr "Sync and ingestion complete!");
                   ("last_run", PStr (strftime now))])
               (do_effect DbClose)
           else
             update_status (PStr "Error") [("message", PStr "No file downloaded (timeout?)")]
       | _ =>
           update_status (PStr "Error") [("message", PStr "No file downloaded (timeout?)")]
       end)
    (fun _ s => idle_or_error (stored_status s)).
Proof.
  apply post_bind; [now apply config_kept_update|]. intros _.
  apply post_bind; [apply config_kept_request|]. intros result.
  destruct (is_status_dict result "otp_required");
    [apply post_plain; [reflexivity | now right]|].
  destruct result; try (apply post_plain; [reflexivity | now right]).
  destruct (negb _); [|apply post_plain; [reflexivity | now right]].
  apply post_bind; [now apply config_kept_update|]. intros _.
  apply sync_ingest_post.
Qed.

Lemma sync_guarded_kept temp_dir :
  respects config_kept
    (update_status (PStr "Processing")
       [("message", PStr "Requesting and waiting for export (this may take hours)...")] ;;
     result <- request_new_export_and_download temp_dir ;;
     if is_status_dict result "otp_required" then
       update_status (PStr "Error")
         [("message", PStr "OTP required. Please login manually in settings.")]
     else
       match result with
       | PStr zip_path =>
           if negb (String.eqb zip_path "") then
             update_status (PStr "Processing")
               [("message", PStr ("Downloaded to " +:+ zip_path +:+ ". Ingesting..."))] ;;
             do_act SessionLocal ;;
             try_finally
               (do_act (ParseZip result) ;;
                now <- datetime_now ;;
                update_status (PStr "Idle")
                  [("message", PStr "Sync and ingestion complete!");
                   ("last_run", PStr (strftime now))])
               (do_effect DbClose)
           else
             update_status (PStr "Error") [("message", PStr "No file downloaded (timeout?)")]
       | _ =>
           update_status (PStr "Error") [("message", PStr "No file downloaded (timeout?)")]
       end).
Proof.
  apply respects_bind; [ck | now apply config_kept_update |]. intros _.
  apply respects_bind; [ck | apply config_kept_request |]. intros result.
  destruct (is_status_dict result "otp_required"); [now apply config_kept_update|].
  destruct result; try (now apply config_kept_update).
  destruct (negb _); [|now apply config_kept_update].
  apply respects_bind; [ck | now apply config_kept_update |]. intros _.
  apply respects_bind; [ck | apply ck_do_act |]. intros _.
  apply respects_try_finally; [ck | | apply ck_do_effect].
  apply respects_bind; [ck | apply ck_do_act |]. intros _.
  apply respects_bind; [ck | apply respects_gets; ck |]. intros now.
  now apply config_kept_update.
Qed.

(** X11. With a main configuration that is a dict, [run_full_sync_task]
    never raises, ends with the status "Idle" or "Error" (never
    "Processing"), and has torn the browser down. *)
Theorem run_full_sync_task_settles (s : State) :
  config_is_dict s ->
  res (run_full_sync_task s) = Ret tt /\ sync_settled (st (run_full_sync_task s)).
Proof.
  intros Hd. unfold run_full_sync_task.
  destruct (update_status_plain "Processing" [("message", PStr "Starting full sync...")]
              s Hd eq_refl) as (Hr & _).
  assert (Hd1 : config_is_dict
                  (st (update_status (PStr "Processing")
                         [("message", PStr "Starting full sync...")] s)))
    by (apply kept_dict; [now apply config_kept_update | exact Hd]).
  rewrite (bind_ret _ _ _ _ Hr). cbn [res st].
  set (s1 := st (update_status _ _ s)) in *. clearbody s1. clear Hr.
  set (guarded := try_except _ _).
  assert (G : res (guarded s1) = Ret tt /\ idle_or_error (stored_status (st (guarded s1)))).
  { subst guarded.
    set (body := (temp_dir <- do_ask_str TemporaryDirectory ;; _)).
    assert (Kb : respects config_kept body).
    { subst body. apply respects_bind; [ck | apply ck_do_ask_str |]. intros temp_dir.
      apply respects_try_finally; [ck | apply sync_guarded_kept | apply ck_do_effect]. }
    assert (Pb : post config_is_dict body (fun _ s' => idle_or_error (stored_status s'))).
    { subst body. apply post_bind; [apply ck_do_ask_str|]. intros temp_dir.
      apply post_status_finally_effect, sync_guarded_post. }
    destruct (res (body s1)) as [[]|e] eqn:E.
    - rewrite (try_except_ret _ _ _ _ E). split; [exact E|]. exact (Pb s1 Hd1 tt E).
    - rewrite (try_except_raise _ _ _ _ E). cbn [res st].
      assert (Hd2 : config_is_dict (st (body s1))) by (now apply kept_dict).
      destruct (update_status_plain "Error"
                  [("message", PStr ("Sync failed: " +:+ str_exn e))] _ Hd2 eq_refl)
        as (Hr & Hs & _).
      split; [exact Hr|]. right. exact Hs. }
  destruct G as [Gr Gs]. unfold try_finally. cbn [res st].
  destruct (cleanup_settles (st (guarded s1))) as (Hc & Hcs & Hf).
  rewrite Hc. split; [exact Gr|]. split; [|exact Hf].
  rewrite Hcs. exact Gs.
Qed.

(** X12. The startup step of [lifespan]: when both files hold dicts and
    the dashboard file holds no [status], the stored status after it is
    "Idle" or "Error"; a status that was one of the two is not written
    again. *)
Theorem startup_reset_unsticks (s : State) (m d : gmap string pyval) :
  stored config_path s = PDict m -> stored dashboard_path s = PDict d ->
  d !! "status" = None ->
  res (startup_reset s) = Ret tt /\
  idle_or_error (stored_status (st (startup_reset s))) /\
  (idle_or_error (stored_status s) -> startup_reset s = mkOut (Ret tt) s []).
Proof.
  intros Hm Hd Hs. unfold startup_reset.
  rewrite (bind_pure _ _ _ _ (get_config_on_dicts s m d Hm Hd)).
  assert (Hst : dict_get (d ∪ m) "status" PNone =
                match stored_status s with Some v => v | None => PNone end).
  { unfold dict_get, stored_status. rewrite Hm. cbn [item].
    now rewrite lookup_union_r by exact Hs. }
  rewrite Hst.
  destruct (stored_status s) as [v|] eqn:Ev.
  - destruct (py_eq_str v "Idle") eqn:E1; [|destruct (py_eq_str v "Error") eqn:E2].
    + destruct v; try discriminate. apply String.eqb_eq in E1 as ->.
      cbn. repeat split; auto. rewrite Ev. now left.
    + destruct v; try discriminate. apply String.eqb_eq in E2 as ->.
      cbn. repeat split; auto. rewrite Ev. now right.
    + cbn [orb negb when].
      destruct (update_status_sets "Idle" s (ex_intro _ m Hm)) as (Hr & Hs' & _).
      split; [exact Hr|]. split; [now left|].
      intros [E|E]; injection E as ->; discriminate.
  - cbn [py_eq_str orb negb when].
    destruct (update_status_sets "Idle" s (ex_intro _ m Hm)) as (Hr & Hs' & _).
    split; [exact Hr|]. split; [now left|].
    intros [E|E]; discriminate.
Qed.

End TaskOutcomes.


(** * Properties of the settings, dashboard and session endpoints *)

Section Endpoints.
Context `{World}.

(** X13. Settings round trip: after [save_settings], [get_settings]
    reports the saved sync time, and the saved email or, when the request
    carried none, the email that was stored (the empty string when there
    was none).  Both files hold dicts, and the dashboard file holds
    neither key. *)
Theorem settings_round_trip (s : State) (m d : gmap string pyval)
    (daily_sync_time : string) (email : option string) :
  stored config_path s = PDict m -> stored dashboard_path s = PDict d ->
  d !! "schedule_time" = None -> d !! "email" = None ->
  res (Routes.save_settings daily_sync_time email s) =
    Ret (mk_dict [("message", PStr "Settings saved")]) /\
  res (Routes.get_settings (st (Routes.save_settings daily_sync_time email s))) =
    Ret (mk_dict [("daily_sync_time", PStr daily_sync_time);
                  ("email", match email with
                            | Some e => PStr e
                            | None => dict_get m "email" (PStr "")
                            end)]).
Proof.
  intros Hm Hd Hs He. unfold Routes.save_settings.
  set (updates := match email with Some e => _ | None => _ end).
  destruct (update_config_on_dicts updates s m d Hm Hd) as (Hr & E1 & E2).
  set (body := (update_config updates ;; _)).
  assert (Hb : res (body s) = Ret (mk_dict [("message", PStr "Settings saved")]) /\
               st (body s) = st (update_config updates s)).
  { subst body. rewrite (bind_ret _ _ _ _ Hr). now cbn. }
  destruct Hb as [Hb1 Hb2].
  rewrite (try_except_ret _ _ _ _ Hb1). split; [exact Hb1|]. rewrite Hb2.
  unfold Routes.get_settings.
  set (gbody := (config <- get_config ;; _)).
  assert (Hg : res (gbody (st (update_config updates s))) =
               Ret (mk_dict [("daily_sync_time",
                              dict_get (written_dash updates d ∪ written_main updates m)
                                       "schedule_time" (PStr "09:00"));
                             ("email",
                              dict_get (written_dash updates d ∪ written_main updates m)
                                       "email" (PStr ""))])).
  { subst gbody. now rewrite (bind_pure _ _ _ _ (get_config_on_dicts _ _ _ E1 E2)). }
  rewrite (try_except_ret _ _ _ _ Hg), Hg. do 2 f_equal.
  assert (Hdash : forall k, k = "schedule_time" \/ k = "email" ->
            (written_dash updates d ∪ written_main updates m) !! k = written_main updates m !! k).
  { intros k Hk. apply lookup_union_r. rewrite written_dash_other.
    - now destruct Hk as [-> | ->].
    - destruct Hk as [-> | ->]; discriminate. }
  unfold dict_get. rewrite !Hdash by auto.
  subst updates. destruct email as [e|]; cbn [written_main app is_none];
    repeat (replace (String.eqb _ "dashboard") with false by reflexivity).
  - rewrite lookup_insert_ne by discriminate. rewrite lookup_insert_eq.
    now rewrite lookup_insert_eq.
  - rewrite lookup_insert_eq. rewrite lookup_insert_ne by discriminate. reflexivity.
Qed.

(** X14. Dashboard round trip: [save_dashboard_config] replaces the
    stored dashboard as a whole by the fields that the request sets, and
    writes the dashboard file only; [get_dashboard_config] then returns
    exactly those fields, so a field the request leaves out is gone. *)
Theorem dashboard_round_trip (s : State) (m d : gmap string pyval)
    (request : Routes.DashboardConfigRequest) :
  stored config_path s = PDict m -> stored dashboard_path s = PDict d ->
  let o := Routes.save_dashboard_config request s in
  res o = Ret (mk_dict [("message", PStr "Dashboard saved")]) /\
  tr o = [ESave dashboard_path
            (PDict (<["dashboard" := PDict (Routes.update_data request)]> d))] /\
  config_file (st o) = config_file s /\
  res (Routes.get_dashboard_config (st o)) = Ret (PDict (Routes.update_data request)).
Proof.
  intros Hm Hd o. subst o. unfold Routes.save_dashboard_config.
  set (kwargs := [("dashboard", PDict (Routes.update_data request))]).
  assert (E : update_config kwargs s =
              mkOut (Ret tt)
                (set_cfile dashboard_path
                   (Json (PDict (<["dashboard" := PDict (Routes.update_data request)]> d))) s)
                [ESave dashboard_path
                   (PDict (<["dashboard" := PDict (Routes.update_data request)]> d))]).
  { unfold update_config, _load_file. rewrite !bind_gets.
    fold (stored config_path s). fold (stored dashboard_path s). rewrite Hm, Hd.
    reflexivity. }
  set (body := (update_config kwargs ;; _)).
  assert (Hb : body s =
               mkOut (Ret (mk_dict [("message", PStr "Dashboard saved")]))
                 (st (update_config kwargs s)) (tr (update_config kwargs s))).
  { subst body. unfold bind. rewrite E. reflexivity. }
  rewrite (try_except_ret _ _ _ _ (f_equal res Hb)), Hb, E. cbn [res st tr].
  split; [reflexivity|]. split; [reflexivity|]. split; [now destruct s|].
  unfold Routes.get_dashboard_config.
  set (s' := set_cfile dashboard_path _ s).
  assert (E1 : stored config_path s' = PDict m) by (subst s'; now destruct s).
  assert (E2 : stored dashboard_path s' =
               PDict (<["dashboard" := PDict (Routes.update_data request)]> d))
    by (subst s'; now destruct s).
  set (gbody := (config <- get_config ;; _)).
  assert (Hg : res (gbody s') = Ret (PDict (Routes.update_data request))).
  { subst gbody. rewrite (bind_pure _ _ _ _ (get_config_on_dicts _ _ _ E1 E2)).
    cbn. unfold dict_get.
    now rewrite (lookup_union_Some_l _ _ _ _ (lookup_insert_eq _ _ _)). }
  now rewrite (try_except_ret _ _ _ _ Hg).
Qed.

Lemma clear_session_run (s : State) :
  res (OuraAutomator.clear_session s) =
    Ret (match session_file s with Some _ => true | None => false end) /\
  session_file (st (OuraAutomator.clear_session s)) = None /\
  _is_initialized (st (OuraAutomator.clear_session s)) = false.
Proof.
  unfold OuraAutomator.clear_session.
  destruct (cleanup_settles s) as (Hc & _ & Hf).
  rewrite (bind_ret _ _ _ _ Hc). cbn [res st]. rewrite bind_gets.
  assert (Hsf : session_file (st (cleanup s)) = session_file s)
    by (rewrite cleanup_eq; now destruct s).
  rewrite Hsf. destruct (session_file s); cbn; auto.
Qed.

Lemma update_status_keeps_session status s :
  session_file (st (update_status status [] s)) = session_file s /\
  _is_initialized (st (update_status status [] s)) = _is_initialized s.
Proof.
  unfold update_status. cbn [existsb].
  unfold update_config, _load_file. rewrite !bind_gets.
  destruct (update_loop _ _ _ false false) as [[[[mc dc] a] b]|e]; cbn; [|auto].
  destruct s. destruct a, b; auto.
Qed.

(** The [clear-session] endpoint of main.py, by cases. *)
Lemma main_clear_session_out (s : State) :
  let s1 := st (OuraAutomator.clear_session s) in
  match session_file s with
  | None =>
      res (Main.clear_session s) =
        Ret (mk_dict [("status", PStr "info"); ("message", PStr "No session found to clear.")]) /\
      st (Main.clear_session s) = s1
  | Some _ =>
      st (Main.clear_session s) = st (update_status (PStr "Session cleared.") [] s1) /\
      res (Main.clear_session s) =
        match res (update_status (PStr "Session cleared.") [] s1) with
        | Ret _ => Ret (mk_dict [("status", PStr "success");
                                 ("message", PStr "Session cleared. Please login again.")])
        | Raise e => Ret (error_result (str_exn e))
        end
  end.
Proof.
  intros s1. subst s1. destruct (clear_session_run s) as (Hr & _).
  unfold Main.clear_session. set (body := (cleared <- OuraAutomator.clear_session ;; _)).
  destruct (session_file s) as [blob|].
  - destruct (res (update_status (PStr "Session cleared.") [] (st (OuraAutomator.clear_session s))))
      as [[]|e] eqn:Eu.
    + assert (Hb : res (body s) = Ret (mk_dict [("status", PStr "success");
                                 ("message", PStr "Session cleared. Please login again.")]) /\
                   st (body s) = st (update_status (PStr "Session cleared.") []
                                       (st (OuraAutomator.clear_session s)))).
      { subst body. rewrite (bind_ret _ _ _ _ Hr). cbn [res st].
        rewrite (bind_ret _ _ _ _ Eu). now cbn. }
      destruct Hb as [Hb1 Hb2]. rewrite (try_except_ret _ _ _ _ Hb1). now split.
    + assert (Hb : res (body s) = Raise e /\
                   st (body s) = st (update_status (PStr "Session cleared.") []
                                       (st (OuraAutomator.clear_session s)))).
      { subst body. rewrite (bind_ret _ _ _ _ Hr). cbn [res st].
        rewrite (bind_raise _ _ _ _ Eu). now cbn. }
      destruct Hb as [Hb1 Hb2]. rewrite (try_except_raise _ _ _ _ Hb1). cbn. now split.
  - assert (Hb : res (body s) = Ret (mk_dict [("status", PStr "info");
                                 ("message", PStr "No session found to clear.")]) /\
                 st (body s) = st (OuraAutomator.clear_session s)).
    { subst body. rewrite (bind_ret _ _ _ _ Hr). now cbn. }
    destruct Hb as [Hb1 Hb2]. rewrite (try_except_ret _ _ _ _ Hb1). now split.
Qed.

(** X15. Both clear-session endpoints never raise, and leave no session
    file and no initialised browser, whatever happens; the endpoint of
    main.py answers "info" exactly when there was no session, and
    otherwise "success" or, when the status could not be written, "error"
    - with the session removed all the same. *)
Theorem clear_session_endpoints (s : State) :
  (exists r, res (Main.clear_session s) = Ret r /\
     (is_status_dict r "info" = true <-> session_file s = None)) /\
  session_file (st (Main.clear_session s)) = None /\
  _is_initialized (st (Main.clear_session s)) = false /\
  res (Routes.clear_session s) = Ret (mk_dict [("message", PStr "Session cleared")]) /\
  session_file (st (Routes.clear_session s)) = None /\
  _is_initialized (st (Routes.clear_session s)) = false.
Proof.
  destruct (clear_session_run s) as (Hr & Hs & Hf).
  pose proof (main_clear_session_out s) as Hm. cbv zeta in Hm.
  assert (Hb : res ((OuraAutomator.clear_session ;;
                     ret (mk_dict [("message", PStr "Session cleared")])) s) =
               Ret (mk_dict [("message", PStr "Session cleared")]) /\
               st ((OuraAutomator.clear_session ;;
                     ret (mk_dict [("message", PStr "Session cleared")])) s) =
               st (OuraAutomator.clear_session s)).
  { rewrite (bind_ret _ _ _ _ Hr). now cbn. }
  destruct Hb as [Hb1 Hb2].
  split; [|split; [|split; [|split; [|split]]]].
  - destruct (session_file s) as [blob|].
    + destruct Hm as [_ Hm]. rewrite Hm.
      destruct (res (update_status _ _ _)) as [[]|e];
        (eexists; split; [reflexivity|]; split; discriminate).
    + destruct Hm as [Hm _]. rewrite Hm. eexists. split; [reflexivity|]. split; reflexivity.
  - destruct (session_file s) as [blob|]; destruct Hm as [Hm1 Hm2].
    + rewrite Hm1. now rewrite (proj1 (update_status_keeps_session _ _)).
    + now rewrite Hm2.
  - destruct (session_file s) as [blob|]; destruct Hm as [Hm1 Hm2].
    + rewrite Hm1. now rewrite (proj2 (update_status_keeps_session _ _)).
    + now rewrite Hm2.
  - unfold Routes.clear_session. now rewrite (try_except_ret _ _ _ _ Hb1).
  - unfold Routes.clear_session. rewrite (try_except_ret _ _ _ _ Hb1). now rewrite Hb2.
  - unfold Routes.clear_session. rewrite (try_except_ret _ _ _ _ Hb1). now rewrite Hb2.
Qed.

End Endpoints.


(** * Further properties of the automator *)

Section AutomatorProps.
Context `{World}.

(** X16. [_is_logged_in] is true exactly when there is a page and its URL
    is the base URL, up to trailing slashes: its tests for "login" and
    "authn" never decide, and any other page of the site counts as not
    logged in.  It touches nothing. *)
Theorem _is_logged_in_is_base_url (s : State) :
  _is_logged_in s =
  mkOut (Ret (page s && String.eqb (rstrip "/" (page_url (world s))) base_url)) s [].
Proof.
  rewrite _is_logged_in_out. f_equal. f_equal. unfold logged_in. f_equal.
  cbv zeta. destruct (String.eqb _ base_url) eqn:E; [|reflexivity].
  apply String.eqb_eq in E. rewrite E. reflexivity.
Qed.

Lemma post_gets {A B} (g : State -> A) (f : A -> M B) (P : State -> Prop) Q :
  (forall s, P s -> forall b, res (f (g s) s) = Ret b -> Q b (st (f (g s) s))) ->
  post P (bind (gets g) f) Q.
Proof. intros Hf s Hp b. rewrite bind_gets. now apply Hf. Qed.

Lemma navigate_loop_true n :
  post (fun _ => True) (navigate_loop n)
       (fun ok s => ok = true -> str_contains "/data-export" (page_url (world s)) = true).
Proof.
  induction n as [|n IH]; cbn [navigate_loop].
  - unfold url. apply post_gets. intros s _ b. cbn. now intros [= <-].
  - apply post_any_bind. intros _. unfold url. apply post_gets. intros s _ b.
    destruct (str_contains "/data-export" (page_url (world s))) eqn:E; [now cbn|].
    assert (Hgo : post (fun _ => True)
                    (do_act (Goto export_url 30000) ;; do_act (WaitForTimeout 1000) ;;
                     navigate_loop n)
                    (fun ok s => ok = true ->
                       str_contains "/data-export" (page_url (world s)) = true)).
    { apply post_any_bind. intros _. apply post_any_bind. intros _. exact IH. }
    destruct (_ || _).
    + match goal with |- res (?K s) = Ret b -> _ =>
        assert (PK : post (fun _ => True) K
                       (fun ok s => ok = true ->
                          str_contains "/data-export" (page_url (world s)) = true));
          [| exact (PK s I b)] end.
      apply post_any_bind. intros login_result.
      destruct (truthy login_result && _); [|exact Hgo].
      intros s' _ b'. cbn. now intros [= <-].
    + destruct (String.eqb _ base_url); [exact (Hgo s I b)|].
      match goal with |- res (?K s) = Ret b -> _ =>
        assert (PK : post (fun _ => True) K
                       (fun ok s => ok = true ->
                          str_contains "/data-export" (page_url (world s)) = true));
          [| exact (PK s I b)] end.
      apply post_any_bind. intros _. exact IH.
Qed.

(** X17. [_navigate_to_export_page] returns [True] only with the page on
    the export URL: when it does, the URL of the page contains
    "/data-export". *)
Theorem navigate_true_on_export_page (s : State) :
  res (_navigate_to_export_page s) = Ret true ->
  str_contains "/data-export" (page_url (world (st (_navigate_to_export_page s)))) = true.
Proof.
  intros Hr.
  assert (P : post (fun _ => True) _navigate_to_export_page
                (fun ok s => ok = true ->
                   str_contains "/data-export" (page_url (world s)) = true)).
  { unfold _navigate_to_export_page. apply post_any_bind. intros _.
    apply navigate_loop_true. }
  exact (P s I true Hr eq_refl).
Qed.

End AutomatorProps.


(** ** Invariants of the start of the browser *)

Section Holds.
Context `{World}.
Variable I : State -> Prop.
Variable E : event -> Prop.
Hypothesis I_world : forall s w, I s -> I (set_world w s).
Hypothesis I_cfile : forall s p c, I s -> I (set_cfile p c s).
Hypothesis I_email : forall s v, I s -> I (set_email v s).
Hypothesis I_password : forall s v, I s -> I (set_password v s).
Hypothesis I_playwright : forall s b, I s -> I (set_playwright b s).
Hypothesis I_browser : forall s b, I s -> I (set_browser b s).
Hypothesis E_other : forall e, (forall x, e <> EAct (NewContext x)) -> E e.

Lemma holds_ret {A} (a : A) : holds I E (ret a).
Proof. intros s Hs. split; [exact Hs | constructor]. Qed.

Lemma holds_raise {A} e : holds I E (@raise _ A e).
Proof. intros s Hs. split; [exact Hs | constructor]. Qed.

Lemma holds_gets {A} (g : State -> A) : holds I E (gets g).
Proof. intros s Hs. split; [exact Hs | constructor]. Qed.

Lemma holds_bind {A B} (m : M A) (f : A -> M B) :
  holds I E m -> (forall a, holds I E (f a)) -> holds I E (bind m f).
Proof.
  intros Hm Hf s Hs. destruct (Hm s Hs) as [H1 H2]. unfold bind.
  destruct (res (m s)) as [a|e]; cbn [st tr]; [|now split].
  destruct (Hf a _ H1) as [H3 H4]. split; [exact H3|].
  apply List.Forall_app. now split.
Qed.

Lemma holds_try_except {A} (m : M A) h :
  holds I E m -> (forall e, holds I E (h e)) -> holds I E (try_except m h).
Proof.
  intros Hm Hh s Hs. destruct (Hm s Hs) as [H1 H2]. unfold try_except.
  destruct (res (m s)) as [a|e]; cbn [st tr]; [now split|].
  destruct (Hh e _ H1) as [H3 H4]. split; [exact H3|].
  apply List.Forall_app. now split.
Qed.

Lemma holds_do_act a : (forall x, a <> NewContext x) -> holds I E (do_act a).
Proof.
  intros Ha s Hs. unfold do_act. destruct (act a (world s)) as [r w]. cbn [st tr].
  split; [now apply I_world|]. constructor; [|constructor].
  apply E_other. intros x [= ->]. now apply (Ha x).
Qed.

Lemma holds_do_ask q : holds I E (do_ask q).
Proof.
  intros s Hs. unfold do_ask. destruct (ask q (world s)) as [r w]. cbn [st tr].
  split; [now apply I_world|]. constructor; [|constructor].
  apply E_other. discriminate.
Qed.

Lemma holds_modify f : (forall s, I s -> I (f s)) -> holds I E (modify f).
Proof. intros Hf s Hs. split; [now apply Hf | constructor]. Qed.

Lemma holds_get_config : holds I E get_config.
Proof.
  intros s Hs. destruct (get_config_pure s) as [-> ->]. split; [exact Hs | constructor].
Qed.

Lemma holds__save_file p data : holds I E (_save_file p data).
Proof.
  intros s Hs. unfold _save_file, bind, modify, emit. cbn [res st tr].
  split; [now apply I_cfile|]. repeat constructor. apply E_other. discriminate.
Qed.

Lemma holds_when c m : holds I E m -> holds I E (when c m).
Proof. intros Hm. destruct c; [exact Hm | apply holds_ret]. Qed.

Lemma holds_update_config kwargs : holds I E (update_config kwargs).
Proof.
  unfold update_config, _load_file.
  apply holds_bind; [apply holds_gets|]. intros mc.
  apply holds_bind; [apply holds_gets|]. intros dc.
  apply holds_bind.
  { destruct (update_loop kwargs mc dc false false); [apply holds_ret | apply holds_raise]. }
  intros [[[mc' dc'] a] b].
  apply holds_bind; [apply holds_when, holds__save_file|]. intros _.
  apply holds_when, holds__save_file.
Qed.

Lemma holds_update_status status kwargs : holds I E (update_status status kwargs).
Proof.
  unfold update_status. destruct (existsb _ kwargs);
    [apply holds_raise | apply holds_update_config].
Qed.

Lemma holds__ensure_browser_installed force : holds I E (_ensure_browser_installed force).
Proof.
  unfold _ensure_browser_installed.
  apply holds_bind; [destruct force; [apply holds_ret | apply holds_do_ask]|].
  intros present. destruct present; [apply holds_ret|].
  apply holds_bind; [apply holds_update_status|]. intros _.
  apply holds_try_except; [apply holds_do_act; discriminate | intros e; apply holds_raise].
Qed.

(** Whatever is passed along the steps of [initialize] up to the opening
    of the context, and holds of that, holds of the whole. *)
Lemma initialize_chain (T : M unit -> Prop) headless :
  (forall A (m : M A) (f : A -> M unit), holds I E m -> (forall a, T (f a)) -> T (bind m f)) ->
  T open_context -> T (initialize_steps headless).
Proof.
  intros T_bind T_tail. unfold initialize_steps.
  apply T_bind; [apply holds__ensure_browser_installed|]. intros _.
  apply T_bind.
  { destruct (is_none headless); [|apply holds_ret].
    apply holds_bind; [apply holds_get_config|]. intros c. apply holds_ret. }
  intros h. apply T_bind; [apply holds_gets|]. intros em.
  apply T_bind.
  { destruct (negb (truthy em)); [|apply holds_ret].
    apply holds_bind; [apply holds_get_config|]. intros c.
    apply holds_bind; apply holds_modify || intros _; auto.
    apply holds_modify; auto. }
  intros _. apply T_bind; [apply holds_do_act; discriminate|]. intros _.
  apply T_bind; [apply holds_modify; auto|]. intros _.
  apply T_bind; [|intros _; exact T_tail].
  apply holds_try_except.
  - apply holds_bind; [apply holds_do_act; discriminate|]. intros _. apply holds_modify; auto.
  - intros _. apply holds_bind; [apply holds__ensure_browser_installed|]. intros _.
    apply holds_bind; [apply holds_do_act; discriminate|]. intros _. apply holds_modify; auto.
Qed.

End Holds.

Section StartOfBrowser.
Context `{World}.

Lemma initialize_unfold headless s :
  initialize headless s =
  if _is_initialized s then mkOut (Ret tt) s [] else initialize_steps headless s.
Proof. unfold initialize. rewrite bind_gets. now destruct (_is_initialized s). Qed.

(** X18. [initialize] has set the flag exactly when it returned: a start
    of the browser that raises, at whatever step, leaves the automator
    not initialised, so the next call starts it again. *)
Theorem initialize_flag_iff_returned (headless : pyval) (s : State) :
  _is_initialized (st (initialize headless s)) = true <->
  res (initialize headless s) = Ret tt.
Proof.
  rewrite initialize_unfold. destruct (_is_initialized s) eqn:Hf; [now cbn|].
  revert s Hf.
  set (I := fun s : State => _is_initialized s = false).
  set (T := fun k : M unit => forall s, I s ->
              (_is_initialized (st (k s)) = true <-> res (k s) = Ret tt)).
  assert (T_bind : forall A (m : M A) (f : A -> M unit),
            holds I (fun _ => True) m -> (forall a, T (f a)) -> T (bind m f)).
  { intros A m f Hm Hf s Hs. destruct (Hm s Hs) as [H1 _]. unfold bind.
    destruct (res (m s)) as [a|e]; cbn [res st].
    - now apply Hf.
    - unfold I in H1. rewrite H1. split; discriminate. }
  assert (Hw : forall s w, I s -> I (set_world w s)) by (intros s w Hs; exact Hs).
  assert (T_tail : T open_context).
  { unfold open_context.
    apply T_bind; [apply holds_gets|]. intros state.
    apply T_bind.
    { intros s Hs. unfold do_act. destruct (act _ (world s)). cbn. split; [exact Hs|].
      repeat constructor. }
    intros _. apply T_bind; [apply holds_modify; auto|]. intros _.
    apply T_bind.
    { intros s Hs. unfold do_act. destruct (act _ (world s)). cbn. split; [exact Hs|].
      repeat constructor. }
    intros _. apply T_bind; [apply holds_modify; auto|]. intros _.
    intros s _. now cbn. }
  apply (initialize_chain I (fun _ => True)); auto.
  intros s [] c Hs; exact Hs.
Qed.

(** X19. [initialize] opens the browser context with the session that is
    stored, and with no other: a context opened in its run carries the
    content of the session file, so after [clear_session] it carries
    none. *)
Theorem initialize_restores_stored_session (headless : pyval) (s : State)
    (x : option string) :
  (In (EAct (NewContext x)) (tr (initialize headless s)) -> x = session_file s) /\
  (In (EAct (NewContext x)) (tr (initialize headless (st (clear_session s)))) -> x = None).
Proof.
  assert (G : forall s0, In (EAct (NewContext x)) (tr (initialize headless s0)) ->
                         x = session_file s0).
  { intros s0. rewrite initialize_unfold. destruct (_is_initialized s0); [intros []|].
    set (sf := session_file s0).
    set (I := fun s : State => session_file s = sf).
    assert (Hw : forall s w, I s -> I (set_world w s)) by (intros ? ? Hs; exact Hs).
    assert (Ho : forall e, (forall y, e <> EAct (NewContext y)) -> restores sf e).
    { intros e He y ->. now destruct (He y). }
    assert (T_tail : holds I (restores sf) open_context).
    { unfold open_context. intros s1 Hs1. rewrite bind_gets. revert s1 Hs1.
      intros s1 Hs1. rewrite Hs1. revert s1 Hs1.
      change (holds I (restores sf)
                (do_act (NewContext sf) ;; modify (set_context true) ;; do_act NewPage ;;
                 modify (set_page true) ;; modify (set_is_initialized true))).
      apply holds_bind.
      { intros s1 Hs1. unfold do_act. destruct (act _ (world s1)). cbn. split; [exact Hs1|].
        constructor; [|constructor]. now intros y [= ->]. }
      intros _. apply holds_bind; [apply holds_modify; auto|]. intros _.
      apply holds_bind; [apply holds_do_act; auto; discriminate|]. intros _.
      apply holds_bind; [apply holds_modify; auto|]. intros _.
      apply holds_modify; auto. }
    assert (Hall : holds I (restores sf) (initialize_steps headless)).
    { apply (initialize_chain I (restores sf)); auto.
      - intros s1 [] c Hs1; exact Hs1.
      - intros A m f. apply holds_bind. }
    destruct (Hall s0 eq_refl) as [_ Hev]. intros Hin.
    rewrite List.Forall_forall in Hev. exact (Hev _ Hin x eq_refl). }
  split; [apply G|]. intros Hin. rewrite (G _ Hin).
  apply clear_session_run.
Qed.

End StartOfBrowser.


(** ** What the trace of an export holds when it succeeds *)

Section ExportTraces.
Context `{World}.

Lemma post_trace_bind {A B} (m : M A) (f : A -> M B) (V : A -> Prop) Q :
  returns V m ->
  (forall a, V a -> post_trace (f a) Q) ->
  (forall b t1 t2, Q b t2 -> Q b (t1 ++ t2)) ->
  post_trace (bind m f) Q.
Proof.
  intros Hv Hf Hmono s b. unfold bind.
  destruct (res (m s)) as [a|e] eqn:E; cbn [res tr]; [|discriminate].
  intros Hr. apply Hmono. apply (Hf a (Hv s a E)), Hr.
Qed.

Lemma post_trace_then {A B} (m : M A) (f : A -> M B) Q :
  (forall a, post_trace (f a) Q) ->
  (forall b t1 t2, Q b t2 -> Q b (t1 ++ t2)) ->
  post_trace (bind m f) Q.
Proof.
  intros Hf. apply (post_trace_bind m f (fun _ => True)); [easy|]. intros a _. apply Hf.
Qed.

Lemma post_trace_try_except {A} (m : M A) h Q :
  post_trace m Q -> (forall e, post_trace (h e) Q) ->
  (forall b t1 t2, Q b t2 -> Q b (t1 ++ t2)) ->
  post_trace (try_except m h) Q.
Proof.
  intros Hm Hh Hmono s b. unfold try_except.
  destruct (res (m s)) as [a|e] eqn:E; cbn [res tr].
  - intros Hr. apply Hm. congruence.
  - intros Hr. apply Hmono. now apply Hh.
Qed.

Lemma in_tr_do_act {B} a (f : unit -> M B) s : In (EAct a) (tr (bind (do_act a) f s)).
Proof.
  unfold bind, do_act. destruct (act a (world s)) as [[[]|e] w]; cbn; now left.
Qed.

Lemma in_tr_do_ask_str {B} q (f : string -> M B) s : In (EAskStr q) (tr (bind (do_ask_str q) f s)).
Proof.
  unfold bind, do_ask_str. destruct (ask_str q (world s)) as [[x|e] w]; cbn; now left.
Qed.

Lemma saved_as_app p t1 t2 : saved_as p t2 -> saved_as p (t1 ++ t2).
Proof. intros [H1 H2]. split; apply in_or_app; now right. Qed.

Lemma _download_file_saved d :
  post_trace (_download_file d) (fun v t => forall p, v = PStr p -> saved_as p t).
Proof.
  assert (Hmono : forall (b : pyval) t1 t2,
            (forall p, b = PStr p -> saved_as p t2) ->
            forall p, b = PStr p -> saved_as p (t1 ++ t2))
    by (intros b t1 t2 Hq p Hp; apply saved_as_app; auto).
  unfold _download_file. apply post_trace_then; [|exact Hmono]. intros _.
  apply post_trace_then; [|exact Hmono]. intros v.
  destruct v; [|intros s a; cbn; intros [= <-] p; discriminate].
  intros s a Hr p Hp. subst a. split; [apply in_tr_do_ask_str|].
  rewrite res_bind in Hr.
  destruct (res (do_ask_str _ s)) as [filename|e] eqn:E; [|discriminate].
  rewrite res_bind in Hr.
  destruct (res (do_act _ _)) as [[]|e] eqn:E2; [|discriminate].
  cbn in Hr. injection Hr as <-.
  rewrite (bind_ret _ _ _ _ E). cbn [tr]. apply in_or_app. right. apply in_tr_do_act.
Qed.

(** X20. A path that an export entry point returns is the path of a file
    the run has saved: the download button was clicked and the download
    saved under that path. *)
Theorem export_path_was_saved (save_dir : string) (s : State) (p : string) :
  (res (request_new_export_and_download save_dir s) = Ret (PStr p) ->
   saved_as p (tr (request_new_export_and_download save_dir s))) /\
  (res (download_existing_export save_dir s) = Ret (PStr p) ->
   saved_as p (tr (download_existing_export save_dir s))).
Proof.
  assert (Hmono : forall (b : pyval) t1 t2,
            (forall p, b = PStr p -> saved_as p t2) ->
            forall p, b = PStr p -> saved_as p (t1 ++ t2))
    by (intros b t1 t2 Hq q Hp; apply saved_as_app; auto).
  assert (Hno : forall v : pyval, (forall q, v <> PStr q) ->
            post_trace (ret v) (fun v t => forall p, v = PStr p -> saved_as p t)).
  { intros v Hv s0 a. cbn. intros [= <-] q Hq. now destruct (Hv q). }
  split.
  - assert (P : post_trace (request_new_export_and_download save_dir)
                  (fun v t => forall p, v = PStr p -> saved_as p t)).
    { unfold request_new_export_and_download.
      apply post_trace_then; [|exact Hmono]. intros _.
      apply post_trace_try_except; [| intros e; apply Hno; discriminate | exact Hmono].
      apply post_trace_then; [|exact Hmono]. intros ok. destruct ok; cbn [negb].
      - apply post_trace_then; [|exact Hmono]. intros _.
        apply post_trace_then; [|exact Hmono]. intros ready.
        destruct ready; cbn [negb]; [apply _download_file_saved | apply Hno; discriminate].
      - unfold url. apply post_trace_then; [|exact Hmono]. intros u.
        destruct (_ || _); apply Hno; discriminate. }
    intros Hr. exact (P s _ Hr p eq_refl).
  - assert (P : post_trace (download_existing_export save_dir)
                  (fun v t => forall p, v = PStr p -> saved_as p t)).
    { unfold download_existing_export.
      apply post_trace_then; [|exact Hmono]. intros _.
      apply post_trace_try_except; [| intros e; apply Hno; discriminate | exact Hmono].
      apply post_trace_then; [|exact Hmono]. intros ok. destruct ok; cbn [negb].
      - apply _download_file_saved.
      - apply Hno. discriminate. }
    intros Hr. exact (P s _ Hr p eq_refl).
Qed.

Lemma request_clicked_app t1 t2 : request_clicked t2 -> request_clicked (t1 ++ t2).
Proof. intros (b & Hb & Hin). exists b. split; [exact Hb|]. apply in_or_app. now right. Qed.

(** X21. [_click_request_export_button] returns [True] only when it has
    clicked one of the two request buttons. *)
Theorem request_button_true_means_clicked (s : State) :
  res (_click_request_export_button s) = Ret true ->
  request_clicked (tr (_click_request_export_button s)).
Proof.
  assert (Hmono : forall (b : bool) t1 t2,
            (b = true -> request_clicked t2) -> b = true -> request_clicked (t1 ++ t2))
    by (intros b t1 t2 Hq Hb; apply request_clicked_app; auto).
  assert (Hno : post_trace (ret false) (fun ok t => ok = true -> request_clicked t)).
  { intros s0 a. cbn. now intros [= <-]. }
  assert (P : post_trace _click_request_export_button
                (fun ok t => ok = true -> request_clicked t)).
  { unfold _click_request_export_button.
    apply post_trace_then; [|exact Hmono]. intros _.
    apply post_trace_then; [|exact Hmono]. intros v.
    apply (post_trace_bind _ _ (fun b => b = request_btn_primary \/ b = request_btn_fallback));
      [| |exact Hmono].
    { intros s0 b. destruct v; cbn [negb].
      - cbn. intros [= <-]. now left.
      - rewrite res_bind. destruct (res _); [|discriminate]. cbn. intros [= <-]. now right. }
    intros target_btn Ht.
    apply post_trace_then; [|exact Hmono]. intros v'.
    destruct v'; cbn [negb]; [|exact Hno].
    apply post_trace_then; [|exact Hmono]. intros _.
    apply post_trace_then; [|exact Hmono]. intros dis.
    apply post_trace_then; [|exact Hmono]. intros aria.
    destruct (_ || _); [exact Hno|].
    apply post_trace_try_except; [|intros e; exact Hno|exact Hmono].
    apply post_trace_then; [|exact Hmono]. intros _.
    intros s0 a _ _. exists target_btn. split; [exact Ht|]. apply in_tr_do_act. }
  intros Hr. exact (P s true Hr eq_refl).
Qed.

End ExportTraces.


Section TestLogin.
Context `{World}.

Lemma ck_get_config : respects config_kept get_config.
Proof. apply respects_get_config. ck. Qed.

Lemma ck_cleanup : respects config_kept cleanup.
Proof. intros s. rewrite cleanup_eq. apply config_kept_field. now destruct s. Qed.

(** X22. With a main configuration that is a dict, the [test-login]
    endpoint never raises.  It ends waiting for the passcode, or with the
    check complete and the browser torn down, or with a login error that
    it also answers; on an error it does not tear the browser down. *)
Theorem test_login_outcomes (s : State) :
  config_is_dict s ->
  exists r, res (Main.test_login s) = Ret r /\
            test_login_settled r (st (Main.test_login s)).
Proof.
  intros Hd. unfold Main.test_login.
  set (body := (update_status (PStr "Testing Login...") [] ;; _)).
  assert (Kb : respects config_kept body).
  { subst body.
    apply respects_bind; [ck | now apply config_kept_update |]. intros _.
    apply respects_bind; [ck | apply ck_get_config |]. intros cfg.
    apply respects_bind; [ck | apply ck_initialize |]. intros _.
    apply respects_bind; [ck | apply ck_set_email |]. intros _.
    apply respects_bind; [ck | apply ck_login |]. intros lr.
    destruct (truthy lr && _).
    - apply respects_bind; [ck | now apply config_kept_update |]. intros _.
      apply respects_ret; ck.
    - apply respects_bind; [ck | now apply config_kept_update |]. intros _.
      apply respects_bind; [ck | apply ck_cleanup |]. intros _.
      apply respects_ret; ck. }
  assert (Pb : post config_is_dict body
                 (fun _ s' => stored_status s' = Some (PStr "Waiting for OTP...") \/
                              (stored_status s' = Some (PStr "Login Check Complete.") /\
                               _is_initialized s' = false))).
  { subst body.
    apply post_bind; [now apply config_kept_update|]. intros _.
    apply post_bind; [apply ck_get_config|]. intros cfg.
    apply post_bind; [apply ck_initialize|]. intros _.
    apply post_bind; [apply ck_set_email|]. intros _.
    apply post_bind; [apply ck_login|]. intros lr.
    destruct (truthy lr && _).
    - intros s' Hd' a _. left.
      destruct (update_status_sets "Waiting for OTP..." s' Hd') as (Hr & Hs & _).
      rewrite (bind_ret _ _ _ _ Hr). unfold ret. cbn [st]. exact Hs.
    - intros s' Hd' a _. right.
      destruct (update_status_sets "Login Check Complete." s' Hd') as (Hr & Hs & _).
      rewrite (bind_ret _ _ _ _ Hr). cbn [st].
      destruct (cleanup_settles (st (update_status (PStr "Login Check Complete.") [] s')))
        as (Hc & Hcs & Hf).
      rewrite (bind_ret _ _ _ _ Hc). unfold ret. cbn [st]. split; [now rewrite Hcs | exact Hf]. }
  destruct (res (body s)) as [r|e] eqn:E.
  - exists r. rewrite (try_except_ret _ _ _ _ E). split; [exact E|].
    destruct (Pb s Hd r E) as [Hw|Hc]; [now left | right; now left].
  - exists (error_result (str_exn e)). rewrite (try_except_raise _ _ _ _ E). cbn [res st].
    assert (Hd1 : config_is_dict (st (body s))) by (now apply kept_dict).
    destruct (update_status_sets ("Login Error: " +:+ str_exn e) _ Hd1) as (Hr & Hs & _).
    rewrite (bind_ret _ _ _ _ Hr). cbn [res st]. split; [reflexivity|].
    right; right. exists (str_exn e). now split.
Qed.

End TestLogin.


(** * Properties of the ingestion base *)

Section IngestionProps.
Import IngestionBase.

(** X23. Every row that [_read_csv_robust] hands to the data frame on its
    standard path has exactly as many cells as the header has columns,
    however many the line had. *)
Theorem fix_parts_fits_header (header : list string) (new_id : string)
    (parts : list (option string)) :
  length (fix_parts header new_id parts) = length header.
Proof.
  unfold fix_parts.
  set (p1 := if _ && _ then _ else parts).
  set (p2 := if (length p1 <? length header)%nat then _ else p1).
  assert (H2 : (length header <= length p2)%nat).
  { subst p2. destruct (length p1 <? length header)%nat eqn:E.
    - apply Nat.ltb_lt in E. rewrite length_app, repeat_length. lia.
    - apply Nat.ltb_ge in E. exact E. }
  destruct (length header <? length p2)%nat eqn:E.
  - apply firstn_length_le. exact H2.
  - apply Nat.ltb_ge in E. lia.
Qed.

Lemma firstn_add {A} (a b : nat) (l : list A) :
  firstn (a + b) l = firstn a l ++ firstn b (skipn a l).
Proof.
  revert l. induction a as [|a IH]; intros l; [reflexivity|].
  destruct l as [|x l]; cbn; [now destruct b|]. now rewrite IH.
Qed.

Lemma concat_slices {A} (data : list A) (k m : nat) :
  concat (map (fun i => slice A data i k) (map (fun j => (j * k)%nat) (seq 0 m))) =
  firstn (m * k) data.
Proof.
  induction m as [|m IH]; [reflexivity|].
  rewrite seq_S, !map_app, concat_app, IH. cbn [map concat Nat.add].
  rewrite app_nil_r. unfold slice.
  replace (S m * k)%nat with (m * k + k)%nat by lia.
  now rewrite firstn_add.
Qed.

Lemma rounds_cover (n k : nat) :
  (0 < k)%nat ->
  (n <= (n + k - 1) / k * k)%nat /\
  (forall j, (j < (n + k - 1) / k)%nat -> (j * k < n)%nat).
Proof.
  intros Hk.
  pose proof (Nat.div_mod_eq (n + k - 1) k) as E.
  pose proof (Nat.mod_upper_bound (n + k - 1) k ltac:(lia)) as Hr.
  set (q := ((n + k - 1) / k)%nat) in *. set (r := ((n + k - 1) mod k)%nat) in *.
  split; [nia|]. intros j Hj. nia.
Qed.

(** X24. With a positive batch size, [_batch_upsert] cuts the records
    into batches that put together give the records again, in order; no
    batch is empty and none is longer than the batch size.  It upserts
    them in that order, and stops at the first one that raises. *)
Theorem batches_partition {A S : Type} (_upsert : list A -> S -> Res unit * S)
    (data : list A) (batch_size : Z) (db : S) :
  0 < batch_size ->
  let bs := batches A data (Z.to_nat batch_size) in
  _batch_upsert A S _upsert data batch_size db = upsert_each A S _upsert bs db /\
  concat bs = data /\
  List.Forall (fun b => (1 <= length b <= Z.to_nat batch_size)%nat) bs.
Proof.
  intros Hpos bs. subst bs.
  set (k := Z.to_nat batch_size). assert (Hk : (0 < k)%nat) by (subst k; lia).
  destruct (rounds_cover (length data) k Hk) as [Hcover Hin].
  split; [|split].
  - unfold _batch_upsert. destruct data as [|x data'].
    { unfold batches, range_by. cbn [length]. now rewrite Nat.div_small by lia. }
    replace (batch_size =? 0) with false by (symmetry; apply Z.eqb_neq; lia).
    replace (batch_size <? 0) with false by (symmetry; apply Z.ltb_ge; lia).
    reflexivity.
  - unfold batches, range_by. rewrite concat_slices. now apply firstn_all2.
  - unfold batches, range_by. rewrite List.Forall_forall. intros b Hb.
    apply in_map_iff in Hb as (i & <- & Hi).
    apply in_map_iff in Hi as (j & <- & Hj). apply in_seq in Hj.
    specialize (Hin j ltac:(lia)). unfold slice.
    rewrite length_firstn, length_skipn. lia.
Qed.

End IngestionProps.


Section ConfigFilesProps.
Context `{World}.
Import ConfigFiles.

(** X25. [_ensure_config] never raises and never touches a file that
    exists, be it blank or unreadable; a file that is missing holds the
    defaults afterwards, so that both files exist; nothing but the two
    files changes. *)
Theorem _ensure_config_keeps_existing_files (s : State) (p : cfg_path) :
  res (_ensure_config s) = Ret tt /\
  get_cfile p (st (_ensure_config s)) =
    match get_cfile p s with
    | Absent => Json (match p with
                      | config_path => default_config
                      | dashboard_path => default_dashboard
                      end)
    | c => c
    end /\
  st (_ensure_config s) =
    set_cfile dashboard_path (get_cfile dashboard_path (st (_ensure_config s)))
      (set_cfile config_path (get_cfile config_path (st (_ensure_config s))) s).
Proof.
  unfold _ensure_config, path_exists, _load_file, _save_file.
  destruct s as [w b c pg pw i em pa sf cf df].
  destruct cf, df, p; cbn; auto.
Qed.

End ConfigFilesProps.



(** ** Concrete runs *)

Import Scripted.

(** C10, on a fresh installation: an update that supplies [next_run] and
    gives [email] as [None] leaves the stored email as it was. *)
Lemma update_leaves_unsupplied_keys_witness :
  let s := fresh ready_site "Idle" "11:00" None in
  let kwargs := [("next_run", PStr "2024-01-02 11:00:00"); ("email", PNone)] in
  item (@stored (world_of ready_site) config_path
          (st (@update_status (world_of ready_site) (PStr "Idle") kwargs s))) "email"
  = item (@stored (world_of ready_site) config_path s) "email" /\
  item (@stored (world_of ready_site) config_path s) "email" = Some (PStr "user@example.com").
Proof.
  intros s kwargs.
  assert (Hk : forall v, In ("email", v) kwargs -> v = PNone).
  { intros v [E|[E|[]]]; [discriminate | now injection E]. }
  assert (Hn : "email" <> "status" \/ PStr "Idle" = PNone) by (left; discriminate).
  split.
  - exact (proj1 (proj2 (@update_leaves_unsupplied_keys (world_of ready_site) kwargs
                           (PStr "Idle") s "email" Hk)) Hn config_path).
  - vm_compute. reflexivity.
Defined.

(** C7 and C8 (as amended), on a live session with a saved session file. *)
Example clear_session_twice_example :
  let s := live ready_site "about:blank" "Idle" "11:00" (Some "cookies") in
  let o1 := @clear_session (world_of ready_site) s in
  let o2 := @clear_session (world_of ready_site) (st o1) in
  res o1 = Ret true /\ res o2 = Ret false /\
  tr o1 = [EEffect ContextClose; EEffect BrowserClose; EEffect PlaywrightStop; ESessionRemove].
Proof. vm_compute. repeat split; reflexivity. Qed.

(** C8, as the design document states it, fails: on a live session
    [cleanup] closes the context, the browser and the runtime, and makes no
    call that closes the page. *)
Lemma cleanup_closes_no_page_counterexample :
  let s := live ready_site "about:blank" "Idle" "11:00" None in
  tr (@cleanup (world_of ready_site) s)
    = [EEffect ContextClose; EEffect BrowserClose; EEffect PlaywrightStop] /\
  tr (@cleanup (world_of ready_site) s) <> teardown_with_page.
Proof. vm_compute. split; [reflexivity | discriminate]. Qed.

(** C3, the example of the design document: with the schedule time 11:00
    and the clock at 2024-01-01 12:00, the round writes the next run
    2024-01-02 11:00. *)
Lemma scheduler_writes_next_run_witness :
  let s := fresh noon_site "Idle" "11:00" None in
  item (@stored (world_of noon_site) config_path
          (st (@scheduler_tick (world_of noon_site) s))) "next_run"
  = Some (PStr "2024-01-02 11:00:00").
Proof.
  intros s.
  pose (cfg := merged_config "Idle" "11:00").
  assert (Hg : res (@get_config (world_of noon_site) s) = Ret cfg) by reflexivity.
  assert (Hs : cfg !! "schedule_time" = Some (PStr (hhmm 11 0)))
    by (vm_compute; reflexivity).
  assert (Hv : dt_valid (@clock (world_of noon_site) (world s)))
    by (vm_compute; repeat split; first [reflexivity | discriminate]).
  assert (Hm : ordinal (@clock (world_of noon_site) (world s)) < MAXORDINAL)
    by (vm_compute; reflexivity).
  destruct (@scheduler_writes_next_run (world_of noon_site) s cfg 11 0 Hg Hs
              ltac:(lia) ltac:(lia) Hv Hm) as (_ & _ & _ & _ & E).
  etransitivity; [exact E|]. vm_compute. reflexivity.
Defined.

(** C1, as stated, fails: with the stored status "Processing" the run-now
    endpoint is not rejected; it overwrites the status and queues a run.
    And [request-export] queues a run when the status is "Waiting for
    OTP...", which is neither "Idle" nor "Error". *)
Lemma run_now_while_processing_counterexample :
  let s := fresh ready_site "Processing" "11:00" None in
  let o := @run_automation (world_of ready_site) s in
  let s' := fresh ready_site "Waiting for OTP..." "11:00" None in
  @stored_status (world_of ready_site) s = Some (PStr "Processing") /\
  (exists r, res o = Ret r /\ item r "status" = Some (PStr "started")) /\
  tasks_added (tr o) = [run_ingestion true] /\
  @stored_status (world_of ready_site) (st o) = Some (PStr "Starting manual run...") /\
  tasks_added (tr (@request_export (world_of ready_site) s')) = [run_full_sync].
Proof.
  cbv zeta. split; [vm_compute; reflexivity|]. split.
  - exists (mk_dict [("status", PStr "started"); ("message", PStr "Automation started.")]).
    split; vm_compute; reflexivity.
  - repeat split; vm_compute; reflexivity.
Qed.

(** C1 (as amended), on a store that says "Processing": [request-export]
    answers 409. *)
Lemma run_start_guards_witness :
  let s := fresh ready_site "Processing" "11:00" None in
  res (@request_export (world_of ready_site) s)
  = Raise (HTTPException 409 "Sync already in progress").
Proof.
  intros s.
  pose (cfg := merged_config "Processing" "11:00").
  assert (Hg : res (@get_config (world_of ready_site) s) = Ret cfg) by reflexivity.
  destruct (@run_start_guards (world_of ready_site) s cfg Hg) as (E & _).
  rewrite E. vm_compute. reflexivity.
Defined.

(** C2, as stated, fails: when the navigation faults,
    [download_existing_export] returns an error dict, which is none of the
    path, [None] and the passcode-required signal. *)
Lemma download_fault_counterexample :
  let s := live dead_site "about:blank" "Idle" "11:00" None in
  let v := error_result "net::ERR_INTERNET_DISCONNECTED" in
  res (@ensure_session (world_of dead_site) s) = Ret tt /\
  res (@download_existing_export (world_of dead_site) "/downloads" s) = Ret v /\
  ~ @export_result (world_of dead_site) "/downloads" v.
Proof.
  cbv zeta. split; [vm_compute; reflexivity|]. split; [vm_compute; reflexivity|].
  intros [E|[E|[f E]]]; discriminate.
Qed.

(** C2 (as amended), on a live session at the ready site. *)
Lemma export_entry_points_return_witness :
  let s := live ready_site "about:blank" "Idle" "11:00" None in
  exists v, res (@request_new_export_and_download (world_of ready_site) "/downloads" s) = Ret v /\
            @export_result (world_of ready_site) "/downloads" v.
Proof.
  intros s.
  assert (He : res (@ensure_session (world_of ready_site) s) = Ret tt)
    by (vm_compute; reflexivity).
  exact (proj1 (@export_entry_points_return (world_of ready_site) "/downloads" s He)).
Defined.

(** The run of that witness downloads the file. *)
Example request_new_export_example :
  let s := live ready_site "about:blank" "Idle" "11:00" None in
  res (@request_new_export_and_download (world_of ready_site) "/downloads" s)
  = Ret (PStr "/downloads/export.zip").
Proof. vm_compute. reflexivity. Qed.

(** C4, at the site that never finishes the export: the run sleeps the
    poll interval thirty times and ends with the failure status. *)
Lemma generation_wait_budget_witness :
  let s := fresh busy_site "Idle" "11:00" None in
  poll_sleeps (tr (@run_ingestion_task (world_of busy_site) true s)) = 30%nat /\
  @stored_status (world_of busy_site) (st (@run_ingestion_task (world_of busy_site) true s))
  = Some (PStr "Failed to download export.").
Proof.
  intros s.
  assert (Hc : poll_sleeps (tr (@run_ingestion_task (world_of busy_site) true s)) = 30%nat)
    by (vm_compute; reflexivity).
  split; [exact Hc|].
  destruct (@generation_wait_budget (world_of busy_site) s "/downloads" true)
    as (_ & _ & _ & _ & _ & _ & _ & Hr).
  exact (proj1 (proj2 (Hr Hc))).
Defined.

(** C5, as stated, fails: on a page that is not logged in, shows no
    invalid-code text and has no passcode field, [submit_otp] returns the
    error of the missing field, not the unknown-state error. *)
Lemma submit_otp_no_field_counterexample :
  let s := live dead_site login_url "Idle" "11:00" None in
  let o := @submit_otp (world_of dead_site) "123456" s in
  @logged_in (world_of dead_site) (st o) = false /\
  @invalid_code_shown (world_of dead_site) (world (st o)) = Ret false /\
  res o = Ret (error_result "Could not find OTP input field") /\
  res o <> Ret (error_result "Login failed (Unknown state).").
Proof.
  cbv zeta. split; [vm_compute; reflexivity|]. split; [vm_compute; reflexivity|].
  split; [vm_compute; reflexivity|].
  intros E.
  apply (f_equal (fun r => match r with Ret v => item v "message" | Raise _ => None end)) in E.
  vm_compute in E. discriminate.
Qed.

(** C9, as stated, fails: the round on a parked run does what the round of
    the daily trigger does.  With the passcode no longer needed it starts
    over, requests a new export by clicking the request button, downloads
    and ingests. *)
Lemma waiting_poll_is_a_full_run_counterexample :
  let parked := fresh ready_site "Waiting for OTP..." "11:00" (Some "cookies") in
  let daily := fresh eleven_site "Idle" "11:00" (Some "cookies") in
  let o := @scheduler_tick (world_of ready_site) parked in
  let o' := @scheduler_tick (world_of eleven_site) daily in
  statuses_written (tr o) =
    [PStr "Waiting for OTP..."; PStr "Starting..."; PStr "Initializing...";
     PStr "Running Automation..."; PStr "Downloading..."; PStr "Ingesting...";
     PStr "Idle"] /\
  clicks (tr o) = [request_btn_primary] /\
  tl (statuses_written (tr o)) = tl (statuses_written (tr o')) /\
  clicks (tr o) = clicks (tr o').
Proof. vm_compute. repeat split; reflexivity. Qed.

(** C9 (as amended), at 12:05 with a parked run and the schedule 11:00. *)
Lemma waiting_poll_runs_ingestion_task_witness :
  let s := fresh ready_site "Waiting for OTP..." "11:00" (Some "cookies") in
  let cfg : gmap string pyval := {["status" := PStr "Waiting for OTP..."]} in
  @tick_action (world_of ready_site) (datetime_of 2024 1 1 12 5) 11 0 cfg s
  = @run_ingestion_task (world_of ready_site) false s.
Proof.
  intros s cfg.
  assert (H1 : (hour (datetime_of 2024 1 1 12 5) =? 11)
               && (minute (datetime_of 2024 1 1 12 5) =? 0) = false) by reflexivity.
  assert (H2 : py_in "Waiting" (dict_get cfg "status" (PStr "")) = Ret true)
    by (vm_compute; reflexivity).
  assert (H3 : minute (datetime_of 2024 1 1 12 5) mod 5 = 0) by reflexivity.
  exact (proj1 (@waiting_poll_runs_ingestion_task (world_of ready_site)
                  (datetime_of 2024 1 1 12 5) 11 0 cfg s H1 H2 H3)).
Defined.

(** C5 (as amended), with a rejected code: the invalid-code error. *)
Lemma submit_otp_outcomes_witness :
  let s := live (otp_site true) login_url "Idle" "11:00" (Some "old") in
  res (@submit_otp (world_of (otp_site true)) "000000" s)
  = Ret (error_result "Invalid OTP code.").
Proof.
  intros s.
  assert (He : res (@enter_otp (world_of (otp_site true)) "000000" s) = Ret tt)
    by (vm_compute; reflexivity).
  pose proof (proj2 (proj2 (proj2 (@submit_otp_outcomes (world_of (otp_site true)) "000000" s)))
                eq_refl He) as E.
  cbv zeta in E.
  assert (L : @logged_in (world_of (otp_site true))
                (st (@enter_otp (world_of (otp_site true)) "000000" s)) = false)
    by (vm_compute; reflexivity).
  assert (I : @invalid_code_shown (world_of (otp_site true))
                (world (st (@enter_otp (world_of (otp_site true)) "000000" s))) = Ret true)
    by (vm_compute; reflexivity).
  rewrite L, I in E. exact E.
Defined.

(** C6, with a rejected code: the session file stays as it was. *)
Lemma submit_otp_writes_session_only_on_success_witness :
  let s := live (otp_site true) login_url "Idle" "11:00" (Some "old") in
  session_file (st (@submit_otp (world_of (otp_site true)) "000000" s)) = Some "old".
Proof.
  intros s.
  apply (proj1 (@submit_otp_writes_session_only_on_success
                  (world_of (otp_site true)) "000000" s)).
  vm_compute. discriminate.
Defined.

(** With an accepted code, on the account home: success, and the session
    is saved. *)
Example submit_otp_accepted_example :
  let s := live (otp_site false) base_url "Idle" "11:00" (Some "old") in
  let o := @submit_otp (world_of (otp_site false)) "123456" s in
  res o = Ret (success_result "Login successful!") /\
  session_file (st o) = Some "cookies" /\
  tr o = [EAsk (IsVisible (Loc "input[name='otp']"));
          EAct (Fill (Loc "input[name='otp']") (PStr "123456"));
          EAct (DispatchEvent "input[name='otp']" "input");
          EAsk (IsVisible (Loc "button[type='submit']"));
          EAsk (IsVisible (Loc "#submit-button"));
          EAct (KeyboardPress "Enter");
          EAct (WaitForTimeout 3000);
          EAct (WaitForLoadState "networkidle" None);
          EAskStr StorageState;
          ESessionWrite "cookies"].
Proof. vm_compute. repeat split; reflexivity. Qed.

(** On a page that neither logs in nor rejects the code: the unknown-state
    error. *)
Example submit_otp_unknown_state_example :
  let s := live (otp_site false) login_url "Idle" "11:00" (Some "old") in
  let o := @submit_otp (world_of (otp_site false)) "123456" s in
  res o = Ret (error_result "Login failed (Unknown state).") /\
  session_file (st o) = Some "old".
Proof. vm_compute. repeat split; reflexivity. Qed.

(** ** Concrete runs of the further properties *)

Section FurtherRuns.
Import Scripted.


(** At 12:05 with the schedule at 11:00 and the status "Idle", the round
    writes the next run and sleeps. *)
Lemma scheduler_tick_idle_round_witness :
  let s := fresh ready_site "Idle" "11:00" None in
  let status := dict_get (merged_config "Idle" "11:00") "status" (PStr "Idle") in
  let m1 := <["next_run" := PStr (strftime (datetime_of 2024 1 2 11 0))]>
              (if is_none status then config_map "Idle" "11:00"
               else <["status" := status]> (config_map "Idle" "11:00")) in
  tr (@scheduler_tick (world_of ready_site) s) =
    [ESave config_path (PDict m1); EEffect (AsyncioSleep 60)].
Proof.
  intros s status m1.
  refine (proj1 (@scheduler_tick_idle_round (world_of ready_site) s
                   (merged_config "Idle" "11:00") 11 0 (datetime_of 2024 1 2 11 0)
                   (config_map "Idle" "11:00") false _ _ _ _ _ _ _)).
  - reflexivity.
  - reflexivity.
  - vm_compute. reflexivity.
  - vm_compute. reflexivity.
  - vm_compute. reflexivity.
  - vm_compute. reflexivity.
  - left. reflexivity.
Defined.

(** A forced run with the network down ends settled. *)
Lemma run_ingestion_task_settles_witness :
  let s := fresh dead_site "Idle" "11:00" None in
  @run_settled (world_of dead_site) (st (@run_ingestion_task (world_of dead_site) true s)).
Proof.
  intros s.
  apply (@run_ingestion_task_settles (world_of dead_site) true s (merged_config "Idle" "11:00")).
  - reflexivity.
  - reflexivity.
Defined.

Lemma update_config_then_get_config_witness :
  let s := fresh ready_site "Idle" "11:00" None in
  let kwargs := [("schedule_time", PStr "07:30"); ("email", PNone)] in
  res (@update_config (world_of ready_site) kwargs s) = Ret tt /\
  exists cfg,
    res (@get_config (world_of ready_site) (st (@update_config (world_of ready_site) kwargs s)))
      = Ret cfg /\
    cfg !! "schedule_time" = Some (PStr "07:30").
Proof.
  intros s kwargs.
  apply (@update_config_then_get_config (world_of ready_site) kwargs s
           (config_map "Idle" "11:00") dashboard_map "schedule_time" (PStr "07:30")).
  - reflexivity.
  - reflexivity.
  - constructor; [intros [E|[]]; discriminate|]. constructor; [intros []|constructor].
  - left. reflexivity.
  - discriminate.
  - right. vm_compute. reflexivity.
Defined.

(** A dashboard file that holds a [status] hides every status written. *)
Lemma dashboard_file_shadows_update_witness :
  let d := <["status" := PStr "Pinned"]> dashboard_map in
  let s := @set_cfile (world_of ready_site) dashboard_path (Json (PDict d))
             (fresh ready_site "Idle" "11:00" None) in
  let s' := st (@update_config (world_of ready_site) [("status", PStr "Running")] s) in
  item (@stored (world_of ready_site) config_path s') "status" = Some (PStr "Running") /\
  exists cfg, res (@get_config (world_of ready_site) s') = Ret cfg /\
              cfg !! "status" = Some (PStr "Pinned").
Proof.
  intros d s.
  apply (@dashboard_file_shadows_update (world_of ready_site) s (config_map "Idle" "11:00") d
           "status" (PStr "Running") (PStr "Pinned")).
  - reflexivity.
  - reflexivity.
  - discriminate.
  - discriminate.
  - vm_compute. reflexivity.
Defined.

(** A main file that holds a JSON list: the update raises and writes
    nothing. *)
Lemma update_config_failure_writes_nothing_witness :
  let s := @set_cfile (world_of ready_site) config_path (Json (PList []))
             (fresh ready_site "Idle" "11:00" None) in
  @update_config (world_of ready_site) [("email", PStr "x@example.com")] s =
  mkOut (Raise (Exception "list indices must be integers or slices, not str")) s [].
Proof.
  intros s.
  apply (@update_config_failure_writes_nothing (world_of ready_site)).
  vm_compute. reflexivity.
Defined.

Lemma update_config_all_none_witness :
  let s := fresh ready_site "Idle" "11:00" None in
  @update_config (world_of ready_site) [("email", PNone); ("dashboard", PNone)] s =
  mkOut (Ret tt) s [].
Proof.
  intros s. apply (@update_config_all_none (world_of ready_site)). reflexivity.
Defined.

Lemma run_full_sync_task_settles_witness :
  let s := fresh dead_site "Idle" "11:00" None in
  res (@run_full_sync_task (world_of dead_site) s) = Ret tt /\
  @sync_settled (world_of dead_site) (st (@run_full_sync_task (world_of dead_site) s)).
Proof.
  intros s. apply (@run_full_sync_task_settles (world_of dead_site) s).
  exists (config_map "Idle" "11:00"). reflexivity.
Defined.

(** A process that died while "Running Automation..." starts idle. *)
Lemma startup_reset_unsticks_witness :
  let s := fresh ready_site "Running Automation..." "11:00" None in
  res (@startup_reset (world_of ready_site) s) = Ret tt /\
  idle_or_error (@stored_status (world_of ready_site)
                   (st (@startup_reset (world_of ready_site) s))) /\
  (idle_or_error (@stored_status (world_of ready_site) s) ->
   @startup_reset (world_of ready_site) s = mkOut (Ret tt) s []).
Proof.
  intros s.
  apply (@startup_reset_unsticks (world_of ready_site) s
           (config_map "Running Automation..." "11:00") dashboard_map).
  - reflexivity.
  - reflexivity.
  - vm_compute. reflexivity.
Defined.

Lemma settings_round_trip_witness :
  let s := fresh ready_site "Idle" "11:00" None in
  res (@Routes.save_settings (world_of ready_site) "07:30" None s) =
    Ret (mk_dict [("message", PStr "Settings saved")]) /\
  res (@Routes.get_settings (world_of ready_site)
         (st (@Routes.save_settings (world_of ready_site) "07:30" None s))) =
    Ret (mk_dict [("daily_sync_time", PStr "07:30");
                  ("email", match @None string with
                            | Some e => PStr e
                            | None => dict_get (config_map "Idle" "11:00") "email" (PStr "")
                            end)]).
Proof.
  intros s.
  apply (@settings_round_trip (world_of ready_site) s (config_map "Idle" "11:00") dashboard_map).
  - reflexivity.
  - reflexivity.
  - vm_compute. reflexivity.
  - vm_compute. reflexivity.
Defined.

Lemma dashboard_round_trip_witness :
  let s := fresh ready_site "Idle" "11:00" None in
  let request := Routes.mkDashboardConfigRequest
                   (Some [Routes.mkDashboard "d1" "Main" [] []]) (Some "d1") None None in
  let o := @Routes.save_dashboard_config (world_of ready_site) request s in
  res o = Ret (mk_dict [("message", PStr "Dashboard saved")]) /\
  tr o = [ESave dashboard_path
            (PDict (<["dashboard" := PDict (Routes.update_data request)]> dashboard_map))] /\
  config_file (st o) = config_file s /\
  res (@Routes.get_dashboard_config (world_of ready_site) (st o)) =
    Ret (PDict (Routes.update_data request)).
Proof.
  intros s request.
  apply (@dashboard_round_trip (world_of ready_site) s (config_map "Idle" "11:00")
           dashboard_map request).
  - reflexivity.
  - reflexivity.
Defined.

(** With a valid session the navigation ends on the export page. *)
Lemma navigate_true_on_export_page_witness :
  let s := live ready_site base_url "Idle" "11:00" (Some "cookies") in
  str_contains "/data-export"
    (@page_url (world_of ready_site)
       (world (st (@_navigate_to_export_page (world_of ready_site) s)))) = true.
Proof.
  intros s. apply (@navigate_true_on_export_page (world_of ready_site) s).
  vm_compute. reflexivity.
Defined.

(** An existing export is downloaded and saved under the directory given. *)
Lemma export_path_was_saved_witness :
  let s := live ready_site base_url "Idle" "11:00" (Some "cookies") in
  saved_as "/data/export.zip"
    (tr (@download_existing_export (world_of ready_site) "/data" s)).
Proof.
  intros s.
  apply (proj2 (@export_path_was_saved (world_of ready_site) "/data" s "/data/export.zip")).
  vm_compute. reflexivity.
Defined.

Lemma request_button_true_means_clicked_witness :
  let s := live ready_site export_url "Idle" "11:00" (Some "cookies") in
  request_clicked (tr (@_click_request_export_button (world_of ready_site) s)).
Proof.
  intros s. apply (@request_button_true_means_clicked (world_of ready_site) s).
  vm_compute. reflexivity.
Defined.

Lemma test_login_outcomes_witness :
  let s := fresh dead_site "Idle" "11:00" None in
  exists r, res (@Main.test_login (world_of dead_site) s) = Ret r /\
            @test_login_settled (world_of dead_site) r
              (st (@Main.test_login (world_of dead_site) s)).
Proof.
  intros s. apply (@test_login_outcomes (world_of dead_site) s).
  exists (config_map "Idle" "11:00"). reflexivity.
Defined.

(** Five records in batches of two: [1;2], [3;4], [5]. *)
Lemma batches_partition_witness :
  let _upsert := fun (b : list nat) (db : list (list nat)) => (Ret tt, db ++ [b]) in
  let bs := IngestionBase.batches nat [1; 2; 3; 4; 5]%nat (Z.to_nat 2) in
  IngestionBase._batch_upsert nat (list (list nat)) _upsert [1; 2; 3; 4; 5]%nat 2 [] =
    IngestionBase.upsert_each nat (list (list nat)) _upsert bs [] /\
  concat bs = [1; 2; 3; 4; 5]%nat /\
  List.Forall (fun b => (1 <= length b <= Z.to_nat 2)%nat) bs.
Proof.
  intros _upsert.
  apply (@batches_partition nat (list (list nat)) _upsert [1; 2; 3; 4; 5]%nat 2 []).
  lia.
Defined.

(** A start with a stored session opens the context with it. *)
Example initialize_restores_example :
  let s := fresh ready_site "Idle" "11:00" (Some "cookies") in
  tr (@initialize (world_of ready_site) (PBool true) s) =
    [EAsk BrowsersPresent; EAct PlaywrightStart; EAct (Launch (PBool true));
     EAct (NewContext (Some "cookies")); EAct NewPage].
Proof. vm_compute. reflexivity. Qed.

End FurtherRuns.
